(** * Texas DPS scheduler: the polling and reservation state machine

    A shallow embedding of the two client implementations of the
    repository, the Telegram-notifying [class TexasScheduler] found in
    [src/Dockerfile] and the one of [src/Client/index.ts], and the
    properties of the hold/book workflow, the prober and the notifier.

    Asynchronous TypeScript is embedded as a resumption monad over the
    fields of the [TexasScheduler] object: a computation runs until its
    next [await], hands the awaited call to the environment, and is
    resumed later with the reply and with the object as it is *then*
    (other tasks may have run meanwhile).

    What is idealised: numbers are integers (a fractional number of
    days in the configuration, and the rounding of floating-point
    arithmetic, are not modelled); a date is the instant it denotes; the
    clock is read once per filter pass; response bodies have
    the shape their TypeScript annotation gives them; the endless polling
    loop [getLocationDatesAll], whose rounds are scheduled by the p-queue
    library, is a parameter of [run], and the probes it dispatches appear
    as operations that the process may start at any time. *)

From Stdlib Require Import ZArith List String Bool Lia.
From Stdlib Require Import DecimalString.
Import ListNotations.

Open Scope string_scope.
Open Scope Z_scope.

(** ** JavaScript odds and ends *)

(** What a rejected promise (or a [throw]) carries. *)
Inductive Reason : Type :=
| undefined_reason                 (* Promise.reject() *)
| TransportError (what : string)   (* the request itself failed *)
| TypeError (what : string).       (* e.g. reading [0].x of an empty array *)

(** What the environment hands back to an [await]. *)
Inductive Reply (T : Type) : Type :=
| Failed (e : Reason)
| Replied (t : T).
Arguments Failed {T} e.
Arguments Replied {T} t.

(** JavaScript truthiness of a string: only the empty string is falsy. *)
Definition truthy (s : string) : bool :=
  match s with
  | EmptyString => false
  | String _ _ => true
  end.

(** [x || d] on an optional number: [undefined] and [0] are falsy. *)
Definition or_default (x : option Z) (d : Z) : Z :=
  match x with
  | Some n => if n =? 0 then d else n
  | None => d
  end.

(** [Array.prototype.join]. *)
Fixpoint join (sep : string) (l : list string) : string :=
  match l with
  | [] => ""
  | [x] => x
  | x :: rest => x ++ sep ++ join sep rest
  end.

(** Decimal rendering of a number inside a template literal. *)
Definition show_Z (z : Z) : string := NilZero.string_of_int (Z.to_int z).

(** From this magnitude on a template literal prints a number in
    exponent form ([`${1e21}`] is ["1e+21"]). *)
Definition exponent_form_from : Z := 1000000000000000000000.

(** [ms(`${n}d`)] of the npm package ms, for a whole number [n] of days:
    the milliseconds in [n] days, as long as the template prints [n] in
    plain decimal; [ms] does not parse the exponent form, and its result
    is then [undefined]. *)
Definition ms_d (n : Z) : option Z :=
  if Z.abs n <? exponent_form_from then Some (n * 86400000) else None.

(** [a < b] and [a >= b] where [b] may be [undefined]: a comparison with
    [undefined] is false. *)
Definition lt_number (a : Z) (b : option Z) : bool :=
  match b with
  | Some v => a <? v
  | None => false
  end.

Definition ge_number (a : Z) (b : option Z) : bool :=
  match b with
  | Some v => a >=? v
  | None => false
  end.

Definition newline : string := String (Ascii.ascii_of_nat 10) EmptyString.

(** ** Wire types

    The payload and response interfaces ([src/Interfaces/*.ts], of which
    only [webhook.ts] is at hand) with the fields the clients read or
    write. *)

Inductive HttpMethod : Type := POST | GET.

Record Response : Type := { statusCode : Z }.

Record ExistBookingPayload : Type := {
  eb_FirstName : string;
  eb_LastName : string;
  eb_DateOfBirth : string;
  eb_LastFourDigitsSsn : string }.

Record ExistBookingResponse : Type := {
  SiteName : string;
  BookingDateTime : string;
  ConfirmationNumber : string }.

Record CancelBookingPayload : Type := {
  cb_ConfirmationNumber : string;
  cb_DateOfBirth : string;
  cb_LastFourDigitsSsn : string;
  cb_FirstName : string;
  cb_LastName : string }.

Record EligibilityPayload : Type := {
  el_FirstName : string;
  el_LastName : string;
  el_DateOfBirth : string;
  el_LastFourDigitsSsn : string;
  el_CardNumber : string }.

Record EligibilityResponse : Type := { ResponseId : Z }.

Record AvaliableLocationPayload : Type := {
  al_CityName : string;
  al_PreferredDay : Z;
  al_TypeId : Z;
  al_ZipCode : string }.

Record AvaliableLocationResponse : Type := {
  Id : Z;
  Name : string;
  Distance : Z;
  NextAvailableDate : string }.

Record AvaliableLocationDatesPayload : Type := {
  ad_LocationId : Z;
  ad_PreferredDay : Z;
  ad_SameDay : bool;
  ad_StartDate : option string;
  ad_TypeId : Z }.

Record AvaliableTimeSlots : Type := {
  SlotId : Z;
  StartDateTime : string;
  FormattedStartDateTime : string;
  Duration : Z }.

(** [AvailabilityDate] is kept as the value of
    [new Date(date.AvailabilityDate).valueOf()]: epoch milliseconds, or
    [None] when the text is not a date (JavaScript's NaN). *)
Record LocationAvailabilityDate : Type := {
  AvailabilityDate : option Z;
  AvailableTimeSlots : list AvaliableTimeSlots }.

Record AvaliableLocationDatesResponse : Type := {
  LocationAvailabilityDates : list LocationAvailabilityDate }.

Record HoldSlotPayload : Type := {
  hs_DateOfBirth : string;
  hs_FirstName : string;
  hs_LastName : string;
  hs_Last4Ssn : string;
  hs_SlotId : Z }.

Record HoldSlotResponse : Type := { SlotHeldSuccessfully : bool }.

Record BookSlotPayload : Type := {
  bs_AdaRequired : bool;
  bs_BookingDateTime : string;
  bs_BookingDuration : Z;
  bs_CardNumber : string;
  bs_CellPhone : string;
  bs_DateOfBirth : string;
  bs_Email : string;
  bs_FirstName : string;
  bs_LastName : string;
  bs_HomePhone : string;
  bs_Last4Ssn : string;
  bs_ResponseId : Z;
  bs_SendSms : bool;
  bs_ServiceTypeId : Z;
  bs_SiteId : Z;
  bs_SpanishLanguage : string }.

Record Booking_t : Type := { bk_ConfirmationNumber : string }.
Record BookSlotResponse : Type := { Booking : Booking_t }.

(** [src/Interfaces/webhook.ts] *)
Record webhookPayload : Type := {
  text : string;
  chat_id : string;
  message_id : option Z;
  disable_notification : option bool }.

Record webhookMessage : Type := { wm_message_id : Z; wm_date : Z }.

Inductive webhookResponse (T : Type) : Type :=
| webhookError (error_code : Z) (description : string)   (* ok: false *)
| webhookOk (result : T).                                (* ok: true *)
Arguments webhookError {T} error_code description.
Arguments webhookOk {T} result.

(** The payload [src/Client/index.ts] posts to its message server. *)
Record messagePayload : Type := {
  chatGuid : string;
  tempGuild : string;
  message : string;
  method : string;
  subject : string;
  effectId : string;
  selectedMessageGuild : string }.

(** The [body: object] argument of [requestApi]. *)
Inductive ApiBody : Type :=
| body_ExistBooking (p : ExistBookingPayload)
| body_CancelBooking (p : CancelBookingPayload)
| body_Eligibility (p : EligibilityPayload)
| body_AvaliableLocation (p : AvaliableLocationPayload)
| body_AvaliableLocationDates (p : AvaliableLocationDatesPayload)
| body_HoldSlot (p : HoldSlotPayload)
| body_BookSlot (p : BookSlotPayload).

Inductive HookBody : Type :=
| body_telegram (p : webhookPayload)
| body_message (p : messagePayload).

(** The shapes a response body is read as ([await res.body.json()] with
    the type annotation of the receiving variable). *)
Inductive Shape : Type :=
| ExistBookings | Eligibilities | Locations | LocationDates
| HeldSlot | BookedSlot | WebhookResult.

Definition decode (sh : Shape) : Type :=
  match sh with
  | ExistBookings => list ExistBookingResponse
  | Eligibilities => list EligibilityResponse
  | Locations => list AvaliableLocationResponse
  | LocationDates => AvaliableLocationDatesResponse
  | HeldSlot => HoldSlotResponse
  | BookedSlot => BookSlotResponse
  | WebhookResult => webhookResponse webhookMessage
  end.

(** ** What a client can await

    [pool_request] is [this.requestInstance.request] as [requestApi] calls
    it (the fixed headers are left out), [undici_request] the request to
    the notifier; a response carries its status, and its body is read by
    a call of its own. *)

Inductive Call : Type -> Type :=
| pool_request (path : string) (method : HttpMethod)
               (headersTimeout : Z) (body : ApiBody) : Call Response
| undici_request (url : string) (body : HookBody) : Call Response
| body_json (sh : Shape) (res : Response) : Call (decode sh)
| body_text (res : Response) : Call string
| setTimeout (delay : Z) : Call unit.

Inductive SomeCall : Type :=
| some_call {T : Type} (c : Call T).

(** ** Resumptions

    [Res St A] is an asynchronous computation over an object of type
    [St], run up to its next suspension:
    - [Done], [Exited] ([process.exit]) and [Threw] (a rejected promise)
      are final;
    - [Await c s k] has issued [c] leaving the object as [s]; [k] resumes
      it with the reply and the object as found at that time;
    - [Spawn child rest]: an async function was called without [await];
      [child] is what it became and [rest] the caller going on after it;
    - [OutOfFuel] marks a recursion cut by the fuel of the model. *)

Section Resumption.
Variable St : Type.

Inductive Res (A : Type) : Type :=
| Done (a : A) (s : St)
| Exited (code : Z) (s : St)
| Threw (e : Reason) (s : St)
| OutOfFuel (s : St)
| Await {T : Type} (c : Call T) (s : St) (k : Reply T -> St -> Res A)
| Spawn (child : Res unit) (rest : Res A).

Arguments Done {A} a s.
Arguments Exited {A} code s.
Arguments Threw {A} e s.
Arguments OutOfFuel {A} s.
Arguments Await {A T} c s k.
Arguments Spawn {A} child rest.

Definition Prog (A : Type) : Type := St -> Res A.

(** The object as the computation last left it. *)
Fixpoint state_of {A : Type} (r : Res A) : St :=
  match r with
  | Done _ s | Exited _ s | Threw _ s | OutOfFuel s => s
  | Await _ s _ => s
  | Spawn _ rest => state_of rest
  end.

Fixpoint bindRes {A B : Type} (r : Res A) (f : A -> Prog B) : Res B :=
  match r with
  | Done a s => f a s
  | Exited code s => Exited code s
  | Threw e s => Threw e s
  | OutOfFuel s => OutOfFuel s
  | Await c s k => Await c s (fun reply s' => bindRes (k reply s') f)
  | Spawn child rest => Spawn child (bindRes rest f)
  end.

(** [try { ... } catch (e) { ... }] *)
Fixpoint catchRes {A : Type} (r : Res A) (h : Reason -> Prog A) : Res A :=
  match r with
  | Threw e s => h e s
  | Await c s k => Await c s (fun reply s' => catchRes (k reply s') h)
  | Spawn child rest => Spawn child (catchRes rest h)
  | _ => r
  end.

Definition ret {A : Type} (a : A) : Prog A := fun s => Done a s.
Definition bind {A B : Type} (m : Prog A) (f : A -> Prog B) : Prog B :=
  fun s => bindRes (m s) f.
Definition try_catch {A : Type} (m : Prog A) (h : Reason -> Prog A) : Prog A :=
  fun s => catchRes (m s) h.
Definition process_exit {A : Type} (code : Z) : Prog A := fun s => Exited code s.
Definition throw {A : Type} (e : Reason) : Prog A := fun s => Threw e s.
Definition out_of_fuel {A : Type} : Prog A := fun s => OutOfFuel s.
Definition gets {A : Type} (f : St -> A) : Prog A := fun s => Done (f s) s.
Definition modify (f : St -> St) : Prog unit := fun s => Done tt (f s).

(** [await c]: a failed call rejects, which the [await] rethrows. *)
Definition await {T : Type} (c : Call T) : Prog T :=
  fun s => Await c s (fun reply s' =>
    match reply with
    | Failed e => Threw e s'
    | Replied t => Done t s'
    end).

(** Calling an async function without awaiting it: it runs at once up
    to its first suspension and the caller goes on from there. *)
Definition spawn (p : Prog unit) : Prog unit :=
  fun s =>
    match p s with
    | Exited code s' => Exited code s'
    | child => Spawn child (Done tt (state_of child))
    end.

(** *** Running one task alone against an environment

    [env n] answers the [n]-th call awaited.  Between suspension and
    resumption nothing else touches the object.  Tasks spawned on the
    way are returned as they were left. *)

Inductive Final (A : Type) : Type :=
| Returned (a : A)
| ExitCode (code : Z)
| Rejected (e : Reason)
| Stuck.
Arguments Returned {A} a.
Arguments ExitCode {A} code.
Arguments Rejected {A} e.
Arguments Stuck {A}.

Record Outcome (A : Type) : Type := {
  result : Final A;
  final : St;
  calls : list SomeCall;
  detached : list (Res unit) }.
Arguments result {A} o.
Arguments final {A} o.
Arguments calls {A} o.
Arguments detached {A} o.

Definition Env : Type := nat -> forall T, Call T -> Reply T.

Fixpoint exec {A : Type} (env : Env) (n : nat) (r : Res A) : Outcome A :=
  match r with
  | Done a s => {| result := Returned a; final := s; calls := []; detached := [] |}
  | Exited code s => {| result := ExitCode code; final := s; calls := []; detached := [] |}
  | Threw e s => {| result := Rejected e; final := s; calls := []; detached := [] |}
  | OutOfFuel s => {| result := Stuck; final := s; calls := []; detached := [] |}
  | Await c s k =>
      let o := exec env (S n) (k (env n _ c) s) in
      {| result := result o; final := final o;
         calls := some_call c :: calls o; detached := detached o |}
  | Spawn child rest =>
      let o := exec env n rest in
      {| result := result o; final := final o;
         calls := calls o; detached := child :: detached o |}
  end.

Definition run_alone {A : Type} (env : Env) (p : Prog A) (s : St) : Outcome A :=
  exec env 0%nat (p s).

(** *** Many tasks on one object

    The tasks of a process are resumed one at a time, in any order, each
    finding the object as the others left it.  [process.exit] ends the
    process: nothing is resumed afterwards. *)

Inductive AnyTask : Type :=
| any_task {A : Type} (r : Res A).

Fixpoint flatten {A : Type} (r : Res A) : list AnyTask :=
  match r with
  | Spawn child rest => (flatten child ++ flatten rest)%list
  | _ => [any_task r]
  end.

Fixpoint exit_of {A : Type} (r : Res A) : option Z :=
  match r with
  | Exited code _ => Some code
  | Spawn child rest =>
      match exit_of child with
      | Some c => Some c
      | None => exit_of rest
      end
  | _ => None
  end.

Record System : Type := {
  shared : St;
  tasks : list AnyTask;
  exited : option Z }.

Definition absorb {A : Type} (r : Res A) (others : list AnyTask) : System :=
  {| shared := state_of r; tasks := (others ++ flatten r)%list; exited := exit_of r |}.

Section Steps.
(** The operations that may be started on an object in a given
    condition, and what the world outside the tasks may do to the
    object (e.g. the clock advancing). *)
Variable entry : St -> forall A, Prog A -> Prop.
Variable outside : St -> St -> Prop.

Inductive sys_step : System -> System -> Prop :=
| step_start A (p : Prog A) sys :
    exited sys = None -> entry (shared sys) A p ->
    sys_step sys (absorb (p (shared sys)) (tasks sys))
| step_resume sys before after A T (c : Call T) s
              (k : Reply T -> St -> Res A) (reply : Reply T) :
    exited sys = None ->
    tasks sys = (before ++ any_task (Await c s k) :: after)%list ->
    sys_step sys (absorb (k reply (shared sys)) (before ++ after)%list)
| step_outside sys s' :
    exited sys = None -> outside (shared sys) s' ->
    sys_step sys {| shared := s'; tasks := tasks sys; exited := None |}.

Inductive reachable (sys0 : System) : System -> Prop :=
| reach_here : reachable sys0 sys0
| reach_step sys sys' :
    reachable sys0 sys -> sys_step sys sys' -> reachable sys0 sys'.
End Steps.

(** One particular step, for running examples: the first task of the
    pool, if it is waiting, is resumed with the answer of [reply]. *)
Definition resume_head (reply : forall T, Call T -> Reply T) (sys : System) : System :=
  match exited sys, tasks sys with
  | None, any_task (Await c _ k) :: after => absorb (k (reply _ c) (shared sys)) after
  | _, _ => sys
  end.
End Resumption.

Arguments Done {St A} a s.
Arguments Exited {St A} code s.
Arguments Threw {St A} e s.
Arguments OutOfFuel {St A} s.
Arguments Await {St A T} c s k.
Arguments Spawn {St A} child rest.
Arguments state_of {St A} r.
Arguments bindRes {St A B} r f.
Arguments catchRes {St A} r h.
Arguments ret {St A} a _.
Arguments bind {St A B} m f _.
Arguments try_catch {St A} m h _.
Arguments process_exit {St A} code _.
Arguments throw {St A} e _.
Arguments out_of_fuel {St A} _.
Arguments gets {St A} f _.
Arguments modify {St} f _.
Arguments await {St T} c _.
Arguments spawn {St} p _.
Arguments Returned {A} a.
Arguments ExitCode {A} code.
Arguments Rejected {A} e.
Arguments Stuck {A}.
Arguments result {St A} o.
Arguments final {St A} o.
Arguments calls {St A} o.
Arguments detached {St A} o.
Arguments exec {St A} env n r.
Arguments run_alone {St A} env p s.
Arguments any_task {St A} r.
Arguments flatten {St A} r.
Arguments exit_of {St A} r.
Arguments shared {St} s.
Arguments tasks {St} s.
Arguments exited {St} s.
Arguments absorb {St A} r others.
Arguments sys_step {St} entry outside _ _.
Arguments reachable {St} entry outside sys0 _.
Arguments resume_head {St} reply sys.

Declare Scope prog_scope.
Delimit Scope prog_scope with prog.
Notation "x <- m ;; k" := (bind m (fun x => k))
  (at level 61, m at next level, right associativity) : prog_scope.
Notation "m ;; k" := (bind m (fun _ => k))
  (at level 61, right associativity) : prog_scope.
Open Scope prog_scope.

(** ** Logging and a few renderings *)

Inductive LogLevel : Type := info | warn | error.

(** [dayjs(d).format(fmt)] and [String(new Date())] only feed log and
    status texts; the date text, respectively the clock reading, stands
    for its rendering. *)
Definition dayjs_format (date : string) (fmt : string) : string := date.
Definition Date_toString (t : Z) : string := show_Z t.

(** [response[0]]: reading a field of [undefined] throws. *)
Definition first_of {St A : Type} (l : list A) : Prog St A :=
  match l with
  | [] => throw (TypeError "Cannot read properties of undefined")
  | x :: _ => ret x
  end.

(** * The Telegram-notifying client (the TypeScript module in [src/Dockerfile]) *)

Module TgClient.

(** [this.config], as [parseConfig()] of [src/Config] returns it: the
    settings the class reads. *)
Record AppSettings : Type := {
  webserver : bool;
  demoOnly : bool;
  cancelIfExist : bool;
  interval : Z;
  headersTimeout : Z }.

Record Webhook : Type := {
  enable : bool;
  chatId : string;
  token : string }.

Record PersonalInfo : Type := {
  firstName : string;
  lastName : string;
  dob : string;
  lastFourSSN : string;
  phoneNumber : option string;
  email : string;
  typeId : option Z }.

Record Location : Type := {
  preferredDays : Z;
  zipCode : string;
  miles : Z;
  sameDay : bool;
  daysAround : Z * Z }.

Record Config : Type := {
  appSettings : AppSettings;
  webhook : Webhook;
  personalInfo : PersonalInfo;
  location : Location }.

(** The fields of [class TexasScheduler], with [queue] reduced to the
    one thing the class reads of it ([queue.isPaused]), followed by what
    the process sees of its surroundings: the clock and the log. *)
Record TexasScheduler : Type := {
  avaliableLocation : option (list AvaliableLocationResponse);
  webhookStatusMessageId : Z;
  isBooked : bool;
  isHolded : bool;
  queue_isPaused : bool;
  existingBookingConfirmationNumber : string;
  clock : Z;
  console : list (LogLevel * string) }.

Definition new_TexasScheduler (now : Z) : TexasScheduler :=
  {| avaliableLocation := None;
     webhookStatusMessageId := -1;
     isBooked := false;
     isHolded := false;
     queue_isPaused := false;
     existingBookingConfirmationNumber := "";
     clock := now;
     console := [] |}.

Definition set_avaliableLocation (v : option (list AvaliableLocationResponse))
    (s : TexasScheduler) : TexasScheduler :=
  {| avaliableLocation := v;
     webhookStatusMessageId := webhookStatusMessageId s;
     isBooked := isBooked s;
     isHolded := isHolded s;
     queue_isPaused := queue_isPaused s;
     existingBookingConfirmationNumber := existingBookingConfirmationNumber s;
     clock := clock s;
     console := console s |}.

Definition set_webhookStatusMessageId (v : Z) (s : TexasScheduler) : TexasScheduler :=
  {| avaliableLocation := avaliableLocation s;
     webhookStatusMessageId := v;
     isBooked := isBooked s;
     isHolded := isHolded s;
     queue_isPaused := queue_isPaused s;
     existingBookingConfirmationNumber := existingBookingConfirmationNumber s;
     clock := clock s;
     console := console s |}.

Definition set_isBooked (v : bool) (s : TexasScheduler) : TexasScheduler :=
  {| avaliableLocation := avaliableLocation s;
     webhookStatusMessageId := webhookStatusMessageId s;
     isBooked := v;
     isHolded := isHolded s;
     queue_isPaused := queue_isPaused s;
     existingBookingConfirmationNumber := existingBookingConfirmationNumber s;
     clock := clock s;
     console := console s |}.

Definition set_isHolded (v : bool) (s : TexasScheduler) : TexasScheduler :=
  {| avaliableLocation := avaliableLocation s;
     webhookStatusMessageId := webhookStatusMessageId s;
     isBooked := isBooked s;
     isHolded := v;
     queue_isPaused := queue_isPaused s;
     existingBookingConfirmationNumber := existingBookingConfirmationNumber s;
     clock := clock s;
     console := console s |}.

Definition set_queue_isPaused (v : bool) (s : TexasScheduler) : TexasScheduler :=
  {| avaliableLocation := avaliableLocation s;
     webhookStatusMessageId := webhookStatusMessageId s;
     isBooked := isBooked s;
     isHolded := isHolded s;
     queue_isPaused := v;
     existingBookingConfirmationNumber := existingBookingConfirmationNumber s;
     clock := clock s;
     console := console s |}.

Definition set_existingBookingConfirmationNumber (v : string)
    (s : TexasScheduler) : TexasScheduler :=
  {| avaliableLocation := avaliableLocation s;
     webhookStatusMessageId := webhookStatusMessageId s;
     isBooked := isBooked s;
     isHolded := isHolded s;
     queue_isPaused := queue_isPaused s;
     existingBookingConfirmationNumber := v;
     clock := clock s;
     console := console s |}.

Definition set_clock (v : Z) (s : TexasScheduler) : TexasScheduler :=
  {| avaliableLocation := avaliableLocation s;
     webhookStatusMessageId := webhookStatusMessageId s;
     isBooked := isBooked s;
     isHolded := isHolded s;
     queue_isPaused := queue_isPaused s;
     existingBookingConfirmationNumber := existingBookingConfirmationNumber s;
     clock := v;
     console := console s |}.

Definition log_line (lvl : LogLevel) (msg : string) (s : TexasScheduler) : TexasScheduler :=
  {| avaliableLocation := avaliableLocation s;
     webhookStatusMessageId := webhookStatusMessageId s;
     isBooked := isBooked s;
     isHolded := isHolded s;
     queue_isPaused := queue_isPaused s;
     existingBookingConfirmationNumber := existingBookingConfirmationNumber s;
     clock := clock s;
     console := (console s ++ [(lvl, msg)])%list |}.

Definition Task : Type -> Type := Prog TexasScheduler.

Definition log_info (msg : string) : Task unit := modify (log_line info msg).
Definition log_warn (msg : string) : Task unit := modify (log_line warn msg).
Definition log_error (msg : string) : Task unit := modify (log_line error msg).

(** [if (!this.queue.isPaused) this.queue.pause()] and
    [if (this.queue.isPaused) this.queue.start()] *)
Definition queue_pause_unless_paused : Task unit :=
  paused <- gets queue_isPaused ;;
  if negb paused then modify (set_queue_isPaused true) else ret tt.
Definition queue_start_if_paused : Task unit :=
  paused <- gets queue_isPaused ;;
  if paused then modify (set_queue_isPaused false) else ret tt.

Record ExistBooking : Type := {
  exist : bool;
  response : list ExistBookingResponse }.

Section WithConfig.
Variable config : Config.

Definition requestApi (path : string) (method : HttpMethod) (body : ApiBody)
  : Task Response :=
  await (pool_request path method (headersTimeout (appSettings config)) body).

Fixpoint sendWebhook_fuel (fuel : nat) (message : string) (important : bool)
  : Task (option webhookMessage) :=
  match fuel with
  | O => out_of_fuel
  | S fuel' =>
      id <- gets webhookStatusMessageId ;;
      let sendNewMessage := important || (id <? 0) in
      let requestBody :=
        {| text := message;
           chat_id := chatId (webhook config);
           message_id := if negb sendNewMessage then Some id else None;
           disable_notification :=
             if sendNewMessage && negb important then Some true else None |} in
      response <- await (undici_request
        ("https://api.telegram.org/bot" ++ token (webhook config) ++ "/" ++
         (if sendNewMessage then "sendMessage" else "editMessageText"))
        (body_telegram requestBody)) ;;
      resp <- await (body_json WebhookResult response) ;;
      match resp with
      | webhookOk result =>
          log_info "[INFO] Webhook sent successfully" ;;
          (if negb important && sendNewMessage then
             (* if we just sent a non important message use it for future updates *)
             modify (set_webhookStatusMessageId (wm_message_id result)) ;;
             id' <- gets webhookStatusMessageId ;;
             log_info ("Setting status message id:" ++ show_Z id')
           else ret tt) ;;
          ret (Some result)
      | webhookError _ description =>
          log_error ("Failed to " ++
                     (if sendNewMessage then "send webhook" else "edit status message") ++
                     ": " ++ description) ;;
          if negb sendNewMessage then
            (* if we failed to edit a message, try sending a new one *)
            modify (set_webhookStatusMessageId (-2)) ;;
            sendWebhook_fuel fuel' message important
          else ret None
      end
  end.

(** The recursion of [sendWebhook] is at most one call deep: the retry
    runs with the reference at -2 and so sends a new message, which is
    never retried.  Two units of fuel are all it can use (see
    [sendWebhook_never_stuck] and [sendWebhook_fuel_enough] below). *)
Definition sendWebhook : string -> bool -> Task (option webhookMessage) :=
  sendWebhook_fuel 2.

Definition checkExistBooking : Task ExistBooking :=
  let requestBody :=
    {| eb_FirstName := firstName (personalInfo config);
       eb_LastName := lastName (personalInfo config);
       eb_DateOfBirth := dob (personalInfo config);
       eb_LastFourDigitsSsn := lastFourSSN (personalInfo config) |} in
  res <- requestApi "/api/Booking" POST (body_ExistBooking requestBody) ;;
  response <- await (body_json ExistBookings res) ;;
  (* if no booking found, the api will return empty array *)
  if (0 <? List.length response)%nat
  then ret {| exist := true; response := response |}
  else ret {| exist := false; response := response |}.

Definition cancelBooking (ConfirmationNumber : string) : Task unit :=
  (if demoOnly (appSettings config) then
     log_error "Refusing to cancel booking in demo mode" ;;
     process_exit 2
   else ret tt) ;;
  let requestBody :=
    {| cb_ConfirmationNumber := ConfirmationNumber;
       cb_DateOfBirth := dob (personalInfo config);
       cb_LastFourDigitsSsn := lastFourSSN (personalInfo config);
       cb_FirstName := firstName (personalInfo config);
       cb_LastName := lastName (personalInfo config) |} in
  response <- requestApi "/api/CancelBooking" POST (body_CancelBooking requestBody) ;;
  if statusCode response =? 200 then log_info "Canceled booking successfully"
  else
    log_error "Failed to cancel booking. Please cancel it manually" ;;
    process_exit 0.

Definition getResponseId : Task Z :=
  let requestBody :=
    {| el_FirstName := firstName (personalInfo config);
       el_LastName := lastName (personalInfo config);
       el_DateOfBirth := dob (personalInfo config);
       el_LastFourDigitsSsn := lastFourSSN (personalInfo config);
       el_CardNumber := "" |} in
  res <- requestApi "/api/Eligibility" POST (body_Eligibility requestBody) ;;
  response <- await (body_json Eligibilities res) ;;
  r0 <- first_of response ;;
  ret (ResponseId r0).

Definition requestAvaliableLocation : Task unit :=
  let requestBody :=
    {| al_CityName := "";
       al_PreferredDay := preferredDays (location config);
       (* 71 is new driver license *)
       al_TypeId := or_default (typeId (personalInfo config)) 71;
       al_ZipCode := zipCode (location config) |} in
  res <- requestApi "/api/AvailableLocation/" POST (body_AvaliableLocation requestBody) ;;
  all <- await (body_json Locations res) ;;
  let response :=
    filter (fun location => Distance location <? miles (TgClient.location config)) all in
  log_info ("Found " ++ show_Z (Z.of_nat (List.length response)) ++
            " avaliable location that match your criteria") ;;
  log_info (join ", " (map Name response)) ;;
  modify (set_avaliableLocation (Some response)).

Definition appointmentURL_of (bookingInfo : BookSlotResponse) : string :=
  "https://public.txdpsscheduler.com/?b=" ++
  bk_ConfirmationNumber (Booking bookingInfo).

Definition booked_message (booking : AvaliableTimeSlots)
    (location : AvaliableLocationResponse) (bookingInfo : BookSlotResponse) : string :=
  join newline
    [ "Booking for " ++ firstName (personalInfo config) ++ " " ++
        lastName (personalInfo config) ++ " has been booked.";
      "Confirmation Number: " ++ bk_ConfirmationNumber (Booking bookingInfo);
      "Location: " ++ Name location ++ " DPS";
      "Time: " ++ FormattedStartDateTime booking;
      "Appointment URL: " ++ appointmentURL_of bookingInfo;
      "";
      "Scheduler will now Exit." ].

Definition bookSlot (booking : AvaliableTimeSlots)
    (location : AvaliableLocationResponse) : Task unit :=
  (if demoOnly (appSettings config) then
     log_error "Refusing to make booking in demo mode" ;;
     process_exit 2
   else ret tt) ;;
  booked <- gets isBooked ;;
  if booked then ret tt else
  log_info "Booking slot...." ;;
  responseId <- getResponseId ;;
  let requestBody :=
    {| bs_AdaRequired := false;
       bs_BookingDateTime := StartDateTime booking;
       bs_BookingDuration := Duration booking;
       bs_CardNumber := "";
       bs_CellPhone :=
         match phoneNumber (personalInfo config) with
         | Some p => if truthy p then p else ""
         | None => ""
         end;
       bs_DateOfBirth := dob (personalInfo config);
       bs_Email := email (personalInfo config);
       bs_FirstName := firstName (personalInfo config);
       bs_LastName := lastName (personalInfo config);
       bs_HomePhone := "";
       bs_Last4Ssn := lastFourSSN (personalInfo config);
       bs_ResponseId := responseId;
       bs_SendSms :=
         match phoneNumber (personalInfo config) with
         | Some p => truthy p
         | None => false
         end;
       bs_ServiceTypeId := or_default (typeId (personalInfo config)) 71;
       bs_SiteId := Id location;
       bs_SpanishLanguage := "N" |} in
  response <- requestApi "/api/NewBooking" POST (body_BookSlot requestBody) ;;
  if statusCode response =? 200 then
    bookingInfo <- await (body_json BookedSlot response) ;;
    modify (set_isBooked true) ;;
    log_info ("Slot booked successfully. Confirmation Number: " ++
              bk_ConfirmationNumber (Booking bookingInfo)) ;;
    log_info "Visiting this link to print your booking:" ;;
    log_info (appointmentURL_of bookingInfo) ;;
    (if enable (webhook config) then
       _ <- sendWebhook (booked_message booking location bookingInfo) true ;;
       ret tt
     else ret tt) ;;
    process_exit 0
  else
    queue_start_if_paused ;;
    log_error "Failed to book slot" ;;
    txt <- await (body_text response) ;;
    log_error txt.

Definition holdSlot (booking : AvaliableTimeSlots)
    (location : AvaliableLocationResponse) : Task unit :=
  (if demoOnly (appSettings config) then
     log_error "Refusing to hold booking in demo mode" ;;
     process_exit 2
   else ret tt) ;;
  holded <- gets isHolded ;;
  if holded then ret tt else
  existing <- gets existingBookingConfirmationNumber ;;
  (if truthy existing then cancelBooking existing else ret tt) ;;
  let requestBody :=
    {| hs_DateOfBirth := dob (personalInfo config);
       hs_FirstName := firstName (personalInfo config);
       hs_LastName := lastName (personalInfo config);
       hs_Last4Ssn := lastFourSSN (personalInfo config);
       hs_SlotId := SlotId booking |} in
  res <- requestApi "/api/HoldSlot" POST (body_HoldSlot requestBody) ;;
  response <- await (body_json HeldSlot res) ;;
  if negb (SlotHeldSuccessfully response) then
    log_error "Failed to hold slot" ;;
    queue_start_if_paused
  else
    log_info "Slot hold successfully" ;;
    modify (set_isHolded true) ;;
    bookSlot booking location.

(** The callback of [LocationAvailabilityDates.filter]; the clock is
    read once for the pass. *)
Definition in_daysAround (now : Z) (date : LocationAvailabilityDate) : bool :=
  match AvailabilityDate date with
  | None => false
  | Some t =>
      let msAway := t - now in
      lt_number msAway (ms_d (snd (daysAround (location config)))) &&
      ge_number msAway (ms_d (fst (daysAround (location config)))) &&
      (0 <? List.length (AvailableTimeSlots date))%nat
  end.

Definition getLocationDates (location : AvaliableLocationResponse)
  : Task (AvaliableLocationResponse * AvaliableLocationDatesResponse) :=
  let requestBody :=
    {| ad_LocationId := Id location;
       ad_PreferredDay := preferredDays (TgClient.location config);
       ad_SameDay := sameDay (TgClient.location config);
       ad_StartDate := None;
       ad_TypeId := or_default (typeId (personalInfo config)) 71 |} in
  res <- requestApi "/api/AvailableLocationDates" POST
           (body_AvaliableLocationDates requestBody) ;;
  response <- await (body_json LocationDates res) ;;
  now <- gets clock ;;
  let avaliableDates :=
    filter (in_daysAround now) (LocationAvailabilityDates response) in
  match avaliableDates with
  | [] => ret tt
  | date0 :: _ =>
      booking <- first_of (AvailableTimeSlots date0) ;;
      log_info (Name location ++ " is avaliable on " ++
                FormattedStartDateTime booking) ;;
      queue_pause_unless_paused ;;
      if negb (demoOnly (appSettings config))
      then spawn (holdSlot booking location)
      else ret tt
  end ;;
  ret (location, response).

(** [run], with the polling loop it ends in ([getLocationDatesAll],
    an endless series of p-queue rounds) left as a parameter. *)
Definition run (getLocationDatesAll : Task unit) : Task unit :=
  (if enable (webhook config) then
     try_catch
       (now <- gets clock ;;
        _ <- sendWebhook ("TX DPS Scheduler Starting at " ++ Date_toString now) false ;;
        ret tt)
       (fun _ =>
          log_error "Failed to send initial webhook message." ;;
          process_exit 5)
   else ret tt) ;;
  existBooking <- checkExistBooking ;;
  (if exist existBooking then
     b0 <- first_of (response existBooking) ;;
     log_warn ("You have an existing booking at " ++ SiteName b0 ++ " " ++
               dayjs_format (BookingDateTime b0) "MM/DD/YYYY hh:mm A") ;;
     if cancelIfExist (appSettings config) then
       log_info "Booking will be cancelled when a new slot is found...." ;;
       modify (set_existingBookingConfirmationNumber (ConfirmationNumber b0))
     else
       log_error "You have existing booking, please cancel it first" ;;
       process_exit 0
   else ret tt) ;;
  requestAvaliableLocation ;;
  getLocationDatesAll.

End WithConfig.

End TgClient.

(** * The client of [src/Client/index.ts] *)

Module Client.

(** [this.config]: the settings this class reads; [daysAround] is a single
    number of days here, and there is no dry-run flag. *)
Record AppSettings : Type := {
  webserver : bool;
  cancelIfExist : bool;
  interval : Z;
  headersTimeout : Z }.

Record Webhook : Type := {
  enable : bool;
  phoneNumberType : string;
  phoneNumber_ : string;
  sendMethod : string;
  url : string;
  password : string }.

Record PersonalInfo : Type := {
  firstName : string;
  lastName : string;
  dob : string;
  lastFourSSN : string;
  phoneNumber : option string;
  email : string;
  typeId : option Z }.

Record Location : Type := {
  preferredDays : Z;
  zipCode : string;
  miles : Z;
  sameDay : bool;
  daysAround : Z }.

Record Config : Type := {
  appSettings : AppSettings;
  webhook : Webhook;
  personalInfo : PersonalInfo;
  location : Location }.

Record TexasScheduler : Type := {
  avaliableLocation : option (list AvaliableLocationResponse);
  isBooked : bool;
  isHolded : bool;
  queue_isPaused : bool;
  clock : Z;
  console : list (LogLevel * string) }.

Definition new_TexasScheduler (now : Z) : TexasScheduler :=
  {| avaliableLocation := None;
     isBooked := false;
     isHolded := false;
     queue_isPaused := false;
     clock := now;
     console := [] |}.

Definition set_avaliableLocation (v : option (list AvaliableLocationResponse))
    (s : TexasScheduler) : TexasScheduler :=
  {| avaliableLocation := v;
     isBooked := isBooked s;
     isHolded := isHolded s;
     queue_isPaused := queue_isPaused s;
     clock := clock s;
     console := console s |}.

Definition set_isBooked (v : bool) (s : TexasScheduler) : TexasScheduler :=
  {| avaliableLocation := avaliableLocation s;
     isBooked := v;
     isHolded := isHolded s;
     queue_isPaused := queue_isPaused s;
     clock := clock s;
     console := console s |}.

Definition set_isHolded (v : bool) (s : TexasScheduler) : TexasScheduler :=
  {| avaliableLocation := avaliableLocation s;
     isBooked := isBooked s;
     isHolded := v;
     queue_isPaused := queue_isPaused s;
     clock := clock s;
     console := console s |}.

Definition set_queue_isPaused (v : bool) (s : TexasScheduler) : TexasScheduler :=
  {| avaliableLocation := avaliableLocation s;
     isBooked := isBooked s;
     isHolded := isHolded s;
     queue_isPaused := v;
     clock := clock s;
     console := console s |}.

Definition log_line (lvl : LogLevel) (msg : string) (s : TexasScheduler) : TexasScheduler :=
  {| avaliableLocation := avaliableLocation s;
     isBooked := isBooked s;
     isHolded := isHolded s;
     queue_isPaused := queue_isPaused s;
     clock := clock s;
     console := (console s ++ [(lvl, msg)])%list |}.

Definition Task : Type -> Type := Prog TexasScheduler.

Definition log_info (msg : string) : Task unit := modify (log_line info msg).
Definition log_warn (msg : string) : Task unit := modify (log_line warn msg).
Definition log_error (msg : string) : Task unit := modify (log_line error msg).

Definition queue_pause_unless_paused : Task unit :=
  paused <- gets queue_isPaused ;;
  if negb paused then modify (set_queue_isPaused true) else ret tt.
Definition queue_start_if_paused : Task unit :=
  paused <- gets queue_isPaused ;;
  if paused then modify (set_queue_isPaused false) else ret tt.

Record ExistBooking : Type := {
  exist : bool;
  response : list ExistBookingResponse }.

Section WithConfig.
Variable config : Config.

Definition requestApi (path : string) (method : HttpMethod) (body : ApiBody)
  : Task Response :=
  await (pool_request path method (headersTimeout (appSettings config)) body).

Definition sendWebhook (message : string) : Task unit :=
  let requestBody :=
    {| chatGuid := phoneNumberType (webhook config) ++ ";-;" ++
                   phoneNumber_ (webhook config);
       tempGuild := "";
       message := message;
       method := sendMethod (webhook config);
       subject := "";
       effectId := "";
       selectedMessageGuild := "" |} in
  response <- await (undici_request
    (url (webhook config) ++ "/api/v1/message/text?password=" ++
     password (webhook config))
    (body_message requestBody)) ;;
  if statusCode response =? 200 then log_info "[INFO] Webhook sent successfully"
  else
    log_error "Failed to send webhook" ;;
    txt <- await (body_text response) ;;
    log_error txt.

Definition checkExistBooking : Task ExistBooking :=
  let requestBody :=
    {| eb_FirstName := firstName (personalInfo config);
       eb_LastName := lastName (personalInfo config);
       eb_DateOfBirth := dob (personalInfo config);
       eb_LastFourDigitsSsn := lastFourSSN (personalInfo config) |} in
  res <- requestApi "/api/Booking" POST (body_ExistBooking requestBody) ;;
  response <- await (body_json ExistBookings res) ;;
  (* if no booking found, the api will return empty array *)
  if (0 <? List.length response)%nat
  then ret {| exist := true; response := response |}
  else ret {| exist := false; response := response |}.

Definition cancelBooking (ConfirmationNumber : string) : Task unit :=
  let requestBody :=
    {| cb_ConfirmationNumber := ConfirmationNumber;
       cb_DateOfBirth := dob (personalInfo config);
       cb_LastFourDigitsSsn := lastFourSSN (personalInfo config);
       cb_FirstName := firstName (personalInfo config);
       cb_LastName := lastName (personalInfo config) |} in
  response <- requestApi "/api/CancelBooking" POST (body_CancelBooking requestBody) ;;
  if statusCode response =? 200 then log_info "Canceled booking successfully"
  else
    log_error "Failed to cancel booking. Please cancel it manually" ;;
    process_exit 0.

Definition getResponseId : Task Z :=
  let requestBody :=
    {| el_FirstName := firstName (personalInfo config);
       el_LastName := lastName (personalInfo config);
       el_DateOfBirth := dob (personalInfo config);
       el_LastFourDigitsSsn := lastFourSSN (personalInfo config);
       el_CardNumber := "" |} in
  res <- requestApi "/api/Eligibility" POST (body_Eligibility requestBody) ;;
  response <- await (body_json Eligibilities res) ;;
  r0 <- first_of response ;;
  ret (ResponseId r0).

Definition requestAvaliableLocation : Task unit :=
  let requestBody :=
    {| al_CityName := "";
       al_PreferredDay := preferredDays (location config);
       (* 71 is new driver license *)
       al_TypeId := or_default (typeId (personalInfo config)) 71;
       al_ZipCode := zipCode (location config) |} in
  res <- requestApi "/api/AvailableLocation/" POST (body_AvaliableLocation requestBody) ;;
  all <- await (body_json Locations res) ;;
  let response :=
    filter (fun location => Distance location <? miles (Client.location config)) all in
  log_info ("Found " ++ show_Z (Z.of_nat (List.length response)) ++
            " avaliable location that match your criteria") ;;
  log_info (join ", " (map Name response)) ;;
  modify (set_avaliableLocation (Some response)).

Definition booked_message (booking : AvaliableTimeSlots)
    (location : AvaliableLocationResponse) (bookingInfo : BookSlotResponse) : string :=
  join newline
    [ "Booking for " ++ firstName (personalInfo config) ++ " " ++
        lastName (personalInfo config) ++ " has been booked.";
      "Confirmation Number: " ++ bk_ConfirmationNumber (Booking bookingInfo);
      "Location: " ++ Name location ++ " DPS";
      "Time: " ++ FormattedStartDateTime booking;
      "Appointment URL: " ++ "https://public.txdpsscheduler.com/?b=" ++
        bk_ConfirmationNumber (Booking bookingInfo) ].

Definition bookSlot (booking : AvaliableTimeSlots)
    (location : AvaliableLocationResponse) : Task unit :=
  booked <- gets isBooked ;;
  if booked then ret tt else
  log_info "Booking slot...." ;;
  responseId <- getResponseId ;;
  let requestBody :=
    {| bs_AdaRequired := false;
       bs_BookingDateTime := StartDateTime booking;
       bs_BookingDuration := Duration booking;
       bs_CardNumber := "";
       bs_CellPhone :=
         match phoneNumber (personalInfo config) with
         | Some p => if truthy p then p else ""
         | None => ""
         end;
       bs_DateOfBirth := dob (personalInfo config);
       bs_Email := email (personalInfo config);
       bs_FirstName := firstName (personalInfo config);
       bs_LastName := lastName (personalInfo config);
       bs_HomePhone := "";
       bs_Last4Ssn := lastFourSSN (personalInfo config);
       bs_ResponseId := responseId;
       bs_SendSms :=
         match phoneNumber (personalInfo config) with
         | Some p => truthy p
         | None => false
         end;
       bs_ServiceTypeId := or_default (typeId (personalInfo config)) 71;
       bs_SiteId := Id location;
       bs_SpanishLanguage := "N" |} in
  response <- requestApi "/api/NewBooking" POST (body_BookSlot requestBody) ;;
  if statusCode response =? 200 then
    bookingInfo <- await (body_json BookedSlot response) ;;
    modify (set_isBooked true) ;;
    log_info ("Slot booked successfully. Confirmation Number: " ++
              bk_ConfirmationNumber (Booking bookingInfo)) ;;
    log_info "Visiting this link to print your booking:" ;;
    log_info ("https://public.txdpsscheduler.com/?b=" ++
              bk_ConfirmationNumber (Booking bookingInfo)) ;;
    (if enable (webhook config)
     then sendWebhook (booked_message booking location bookingInfo)
     else ret tt) ;;
    process_exit 0
  else
    queue_start_if_paused ;;
    log_error "Failed to book slot" ;;
    txt <- await (body_text response) ;;
    log_error txt.

Definition holdSlot (booking : AvaliableTimeSlots)
    (location : AvaliableLocationResponse) : Task unit :=
  holded <- gets isHolded ;;
  if holded then ret tt else
  let requestBody :=
    {| hs_DateOfBirth := dob (personalInfo config);
       hs_FirstName := firstName (personalInfo config);
       hs_LastName := lastName (personalInfo config);
       hs_Last4Ssn := lastFourSSN (personalInfo config);
       hs_SlotId := SlotId booking |} in
  res <- requestApi "/api/HoldSlot" POST (body_HoldSlot requestBody) ;;
  response <- await (body_json HeldSlot res) ;;
  if negb (SlotHeldSuccessfully response) then
    log_error "Failed to hold slot" ;;
    queue_start_if_paused
  else
    log_info "Slot hold successfully" ;;
    modify (set_isHolded true) ;;
    bookSlot booking location.

(** The callback of [LocationAvailabilityDates.filter]: an upper
    bound only. *)
Definition in_daysAround (now : Z) (date : LocationAvailabilityDate) : bool :=
  match AvailabilityDate date with
  | None => false
  | Some t =>
      lt_number (t - now) (ms_d (daysAround (location config))) &&
      (0 <? List.length (AvailableTimeSlots date))%nat
  end.

Definition getLocationDates (location : AvaliableLocationResponse) : Task bool :=
  let requestBody :=
    {| ad_LocationId := Id location;
       ad_PreferredDay := preferredDays (Client.location config);
       ad_SameDay := sameDay (Client.location config);
       ad_StartDate := None;
       ad_TypeId := or_default (typeId (personalInfo config)) 71 |} in
  res <- requestApi "/api/AvailableLocationDates" POST
           (body_AvaliableLocationDates requestBody) ;;
  response <- await (body_json LocationDates res) ;;
  now <- gets clock ;;
  let avaliableDates :=
    filter (in_daysAround now) (LocationAvailabilityDates response) in
  match avaliableDates with
  | date0 :: _ =>
      booking <- first_of (AvailableTimeSlots date0) ;;
      log_info (Name location ++ " is avaliable on " ++
                FormattedStartDateTime booking) ;;
      queue_pause_unless_paused ;;
      spawn (holdSlot booking location) ;;
      ret true
  | [] =>
      log_info (Name location ++ " is not avaliable in around " ++
                show_Z (daysAround (Client.location config)) ++ " days") ;;
      throw undefined_reason
  end.

(** [run], with the polling loop it ends in left as a parameter. *)
Definition run (getLocationDatesAll : Task unit) : Task unit :=
  existBooking <- checkExistBooking ;;
  (if exist existBooking then
     b0 <- first_of (response existBooking) ;;
     log_warn ("You have an existing booking at " ++ SiteName b0 ++ " " ++
               dayjs_format (BookingDateTime b0) "MM/DD/YYYY hh:mm A") ;;
     if cancelIfExist (appSettings config) then
       log_info "Canceling existing booking...." ;;
       cancelBooking (ConfirmationNumber b0)
     else
       log_error "You have existing booking, please cancel it first" ;;
       process_exit 0
   else ret tt) ;;
  requestAvaliableLocation ;;
  getLocationDatesAll.

End WithConfig.

End Client.

(** * Rely and guarantee for tasks sharing the object

    [G] is what every step of every task promises about the object, and
    so also what a suspended task may rely on when it is resumed.
    [safe Q s0 r]: the computation [r], started on [s0], kept to [G] up to
    where it stands, will keep to it however it is resumed, and returns
    with [Q]. *)

Section RelyGuarantee.
Variable St : Type.
Variable G : St -> St -> Prop.

Fixpoint safe {A : Type} (Q : A -> St -> Prop) (s0 : St) (r : Res St A) : Prop :=
  match r with
  | Done a s => G s0 s /\ Q a s
  | Exited _ s => G s0 s
  | Threw _ s => G s0 s
  | OutOfFuel s => G s0 s
  | Await _ s k => G s0 s /\ forall reply s', G s s' -> safe Q s' (k reply s')
  | Spawn child rest =>
      safe (fun _ _ => True) s0 child /\ safe Q (state_of child) rest
  end.

Definition triple {A : Type} (P : St -> Prop) (p : Prog St A) (Q : A -> St -> Prop) : Prop :=
  forall s, P s -> safe Q s (p s).

Definition anything {A : Type} : A -> St -> Prop := fun _ _ => True.

(** A suspended task of the pool keeps to [G] when resumed, and the
    object has only moved by [G] since it was suspended. *)
Definition task_ok (now : St) (t : AnyTask St) : Prop :=
  match t with
  | any_task r => safe anything (state_of r) r /\ G (state_of r) now
  end.

Definition pool_ok (sys : System St) : Prop :=
  forall t, In t (tasks sys) -> task_ok (shared sys) t.
End RelyGuarantee.

Arguments safe {St} G {A} Q s0 r.
Arguments triple {St} G {A} P p Q.
Arguments anything {St A} _ _.
Arguments task_ok {St} G now t.
Arguments pool_ok {St} G sys.


(** [sub] occurs in [str]. *)
Definition mentions (sub str : string) : Prop :=
  exists pre post, str = pre ++ sub ++ post.

(** * Vocabulary of the properties (Telegram-notifying client) *)

Module TgSpec.
Import TgClient.

(** The two latches. *)
Definition booked_implies_holding (s : TexasScheduler) : Prop :=
  isBooked s = true -> isHolded s = true.

Definition latches_kept (s s' : TexasScheduler) : Prop :=
  (isHolded s = true -> isHolded s' = true) /\
  (isBooked s = true -> isBooked s' = true).

(** What every step of the client keeps to. *)
Definition guarantee (s s' : TexasScheduler) : Prop :=
  latches_kept s s' /\
  (booked_implies_holding s -> booked_implies_holding s').

(** [isHolded] is set, when [h] asks for it: an assertion no step of
    any task undoes. *)
Definition holding_if (h : bool) (s : TexasScheduler) : Prop :=
  h = true -> isHolded s = true.

(** A task that keeps to the guarantee, at every step and however it
    is interleaved with others, and preserves that assertion. *)
Definition keeps (h : bool) {A : Type} (p : Task A) : Prop :=
  triple guarantee (holding_if h) p (fun _ => holding_if h).

(** The operations a run starts: a probe of a location (which starts
    Hold on a candidate), Hold itself, a status report, and Book, whose
    one call site is Hold's success branch, after [isHolded] is set. *)
Inductive entry (config : Config) : TexasScheduler -> forall A, Task A -> Prop :=
| entry_probe s location :
    entry config s _ (getLocationDates config location)
| entry_hold s booking location :
    entry config s _ (holdSlot config booking location)
| entry_book s booking location :
    isHolded s = true ->
    entry config s _ (bookSlot config booking location)
| entry_report s message important :
    entry config s _ (sendWebhook config message important).

(** Outside the tasks only the clock moves. *)
Definition outside (s s' : TexasScheduler) : Prop :=
  exists t, s' = set_clock t s.

Definition start (s : TexasScheduler) : System TexasScheduler :=
  {| shared := s; tasks := []; exited := None |}.

(** The stored reference of the status message is left as it was. *)
Definition same_reference (s s' : TexasScheduler) : Prop :=
  webhookStatusMessageId s' = webhookStatusMessageId s.

(** The requests of the notifier. *)
Definition telegram_url (config : Config) (endpoint : string) : string :=
  "https://api.telegram.org/bot" ++ token (webhook config) ++ "/" ++ endpoint.

Definition send_request (config : Config) (message : string) (silent : bool)
  : Call Response :=
  undici_request (telegram_url config "sendMessage")
    (body_telegram {| text := message; chat_id := chatId (webhook config);
                      message_id := None;
                      disable_notification := if silent then Some true else None |}).

Definition edit_request (config : Config) (message : string) (ref : Z)
  : Call Response :=
  undici_request (telegram_url config "editMessageText")
    (body_telegram {| text := message; chat_id := chatId (webhook config);
                      message_id := Some ref;
                      disable_notification := None |}).

Definition is_notifier_request (c : SomeCall) : bool :=
  match c with
  | some_call (undici_request _ _) => true
  | _ => false
  end.

(** A new message that alerts the user: sent, not edited, and not
    marked silent. *)
Definition is_important_notification (c : SomeCall) : bool :=
  match c with
  | some_call (undici_request _ (body_telegram p)) =>
      match message_id p, disable_notification p with
      | None, None => true
      | _, _ => false
      end
  | _ => false
  end.

Definition notification_text (c : SomeCall) : string :=
  match c with
  | some_call (undici_request _ (body_telegram p)) => text p
  | _ => ""
  end.

(** Requests to the scheduling API. *)
Definition api_path (c : SomeCall) : option string :=
  match c with
  | some_call (pool_request path _ _ _) => Some path
  | _ => None
  end.

Definition api_paths (l : list SomeCall) : list string :=
  flat_map (fun c => match api_path c with Some p => [p] | None => [] end) l.

(** The body of a HoldSlot response was read during the run; the
    environment answers every such read with "not held". *)
Definition hold_answered (l : list SomeCall) : bool :=
  existsb (fun c => match c with
                    | some_call (body_json HeldSlot _) => true
                    | _ => false
                    end) l.

Definition hold_refused (env : Env) : Prop :=
  forall n res,
    env n _ (body_json HeldSlot res) = Replied {| SlotHeldSuccessfully := false |}.

(** Environments: every call is answered; every booking request is
    accepted (HTTP 200); every read of a booking response yields [info];
    every cancellation is accepted; every lookup of existing bookings
    yields [found]. *)
Definition answers (env : Env) : Prop :=
  forall n T (c : Call T), exists t, env n T c = Replied t.

Definition booking_accepted (env : Env) : Prop :=
  forall n m timeout body,
    env n _ (pool_request "/api/NewBooking" m timeout body)
    = Replied {| statusCode := 200 |}.

Definition booking_confirmed (env : Env) (info : BookSlotResponse) : Prop :=
  forall n res, env n _ (body_json BookedSlot res) = Replied info.

Definition cancel_accepted (env : Env) : Prop :=
  forall n m timeout body,
    env n _ (pool_request "/api/CancelBooking" m timeout body)
    = Replied {| statusCode := 200 |}.

Definition bookings_found (env : Env) (found : list ExistBookingResponse) : Prop :=
  forall n res, env n _ (body_json ExistBookings res) = Replied found.


(** The environment answers the edit request [c], the first call of a
    report, with "not ok". *)
Definition edit_fails (env : Env) (c : Call Response) : bool :=
  match env 0%nat _ c with
  | Replied res =>
      match env 1%nat _ (body_json WebhookResult res) with
      | Replied (webhookError _ _) => true
      | _ => false
      end
  | Failed _ => false
  end.


(** The requests of the prober and of Hold. *)
Definition dates_request (config : Config) (location : AvaliableLocationResponse)
  : Call Response :=
  pool_request "/api/AvailableLocationDates" POST (headersTimeout (appSettings config))
    (body_AvaliableLocationDates
       {| ad_LocationId := Id location;
          ad_PreferredDay := preferredDays (TgClient.location config);
          ad_SameDay := sameDay (TgClient.location config);
          ad_StartDate := None;
          ad_TypeId := or_default (typeId (personalInfo config)) 71 |}).

Definition cancel_request (config : Config) (number : string) : Call Response :=
  pool_request "/api/CancelBooking" POST (headersTimeout (appSettings config))
    (body_CancelBooking
       {| cb_ConfirmationNumber := number;
          cb_DateOfBirth := dob (personalInfo config);
          cb_LastFourDigitsSsn := lastFourSSN (personalInfo config);
          cb_FirstName := firstName (personalInfo config);
          cb_LastName := lastName (personalInfo config) |}).

Definition hold_request (config : Config) (booking : AvaliableTimeSlots)
  : Call Response :=
  pool_request "/api/HoldSlot" POST (headersTimeout (appSettings config))
    (body_HoldSlot
       {| hs_DateOfBirth := dob (personalInfo config);
          hs_FirstName := firstName (personalInfo config);
          hs_LastName := lastName (personalInfo config);
          hs_Last4Ssn := lastFourSSN (personalInfo config);
          hs_SlotId := SlotId booking |}).


(** The day window [lo, hi) of the prober, in the words of the
    specification: the date lies at least [lo] and less than [hi] days
    after now, and has an open slot. *)
Definition qualifies (lo hi now : Z) (date : LocationAvailabilityDate) : Prop :=
  (exists t, AvailabilityDate date = Some t /\
             lo * 86400000 <= t - now < hi * 86400000) /\
  AvailableTimeSlots date <> [].

(** The five ways a run ends that the exit code is to tell apart, each
    with the runs of the client that end that way: Book exiting (outside
    dry-run mode its only exit is the one after a booking); Hold, Book or
    Cancel exiting in dry-run mode; startup exiting with the policy to
    keep an existing booking (the notifier off and the polling loop left
    out, so that this is its only exit); startup exiting after the first
    call, the starting message, has failed; Cancel exiting (outside
    dry-run mode its only exit is the one after a rejected
    cancellation). *)
Inductive Ending : Type :=
| BookedOk | DryRunRefusal | KeepExisting | NotifierSetupFailed | CancelFailed.

Inductive ends_with : Ending -> Z -> Prop :=
| end_booked config env booking location s code :
    demoOnly (appSettings config) = false ->
    result (run_alone env (bookSlot config booking location) s) = ExitCode code ->
    ends_with BookedOk code
| end_dry_hold config env booking location s code :
    demoOnly (appSettings config) = true ->
    result (run_alone env (holdSlot config booking location) s) = ExitCode code ->
    ends_with DryRunRefusal code
| end_dry_book config env booking location s code :
    demoOnly (appSettings config) = true ->
    result (run_alone env (bookSlot config booking location) s) = ExitCode code ->
    ends_with DryRunRefusal code
| end_dry_cancel config env number s code :
    demoOnly (appSettings config) = true ->
    result (run_alone env (cancelBooking config number) s) = ExitCode code ->
    ends_with DryRunRefusal code
| end_keep config env s code :
    enable (webhook config) = false ->
    cancelIfExist (appSettings config) = false ->
    result (run_alone env (run config (ret tt)) s) = ExitCode code ->
    ends_with KeepExisting code
| end_notifier config (env : Env) s code :
    enable (webhook config) = true ->
    (exists e, forall T (c : Call T), env 0%nat T c = Failed e) ->
    result (run_alone env (run config (ret tt)) s) = ExitCode code ->
    ends_with NotifierSetupFailed code
| end_cancel config env number s code :
    demoOnly (appSettings config) = false ->
    result (run_alone env (cancelBooking config number) s) = ExitCode code ->
    ends_with CancelFailed code.

(** The exit code the client uses for each ending. *)
Definition exit_code_of (e : Ending) : Z :=
  match e with
  | BookedOk => 0
  | DryRunRefusal => 2
  | KeepExisting => 0
  | NotifierSetupFailed => 5
  | CancelFailed => 0
  end.

Definition told_apart (e : Ending) : Prop :=
  e = DryRunRefusal \/ e = NotifierSetupFailed.
End TgSpec.

(** * Vocabulary of the properties ([src/Client/index.ts]) *)

Module ClientSpec.
Import Client.

Definition dates_request (config : Config) (location : AvaliableLocationResponse)
  : Call Response :=
  pool_request "/api/AvailableLocationDates" POST (headersTimeout (appSettings config))
    (body_AvaliableLocationDates
       {| ad_LocationId := Id location;
          ad_PreferredDay := preferredDays (Client.location config);
          ad_SameDay := sameDay (Client.location config);
          ad_StartDate := None;
          ad_TypeId := or_default (typeId (personalInfo config)) 71 |}).

Definition booking_request (config : Config) : Call Response :=
  pool_request "/api/Booking" POST (headersTimeout (appSettings config))
    (body_ExistBooking
       {| eb_FirstName := firstName (personalInfo config);
          eb_LastName := lastName (personalInfo config);
          eb_DateOfBirth := dob (personalInfo config);
          eb_LastFourDigitsSsn := lastFourSSN (personalInfo config) |}).

Definition cancel_request (config : Config) (number : string) : Call Response :=
  pool_request "/api/CancelBooking" POST (headersTimeout (appSettings config))
    (body_CancelBooking
       {| cb_ConfirmationNumber := number;
          cb_DateOfBirth := dob (personalInfo config);
          cb_LastFourDigitsSsn := lastFourSSN (personalInfo config);
          cb_FirstName := firstName (personalInfo config);
          cb_LastName := lastName (personalInfo config) |}).
End ClientSpec.

(** * Sample data and environments *)

Module Samples.

Definition slot0 : AvaliableTimeSlots :=
  {| SlotId := 42; StartDateTime := "2026-11-05T09:00:00";
     FormattedStartDateTime := "11/05/2026 9:00 AM"; Duration := 20 |}.

Definition loc0 : AvaliableLocationResponse :=
  {| Id := 1; Name := "A"; Distance := 3; NextAvailableDate := "2026-11-05" |}.

Definition booked0 : BookSlotResponse :=
  {| Booking := {| bk_ConfirmationNumber := "C123" |} |}.

Definition existing0 : ExistBookingResponse :=
  {| SiteName := "B"; BookingDateTime := "2026-12-01T10:00:00";
     ConfirmationNumber := "OLD1" |}.

Definition day : Z := 86400000.

(** Day 3 with one slot, and day 10 with one slot. *)
Definition date3 : LocationAvailabilityDate :=
  {| AvailabilityDate := Some (3 * day); AvailableTimeSlots := [slot0] |}.
Definition date10 : LocationAvailabilityDate :=
  {| AvailabilityDate := Some (10 * day); AvailableTimeSlots := [slot0] |}.

(** An environment that answers every call: requests with the status
    [status] gives for the path, body reads with [bodies]. *)
Definition env_of (status : string -> Z) (notifier_status : Z)
    (bodies : nat -> forall sh, decode sh) : Env :=
  fun n T c =>
    match c in Call T return Reply T with
    | pool_request path _ _ _ => Replied {| statusCode := status path |}
    | undici_request _ _ => Replied {| statusCode := notifier_status |}
    | body_json sh _ => Replied (bodies n sh)
    | body_text _ => Replied ""
    | setTimeout _ => Replied tt
    end.

Definition bodies_with (found : list ExistBookingResponse)
    (dates : list LocationAvailabilityDate) (held : bool)
    (hook : webhookResponse webhookMessage) : forall sh, decode sh :=
  fun sh =>
    match sh return decode sh with
    | ExistBookings => found
    | Eligibilities => [{| ResponseId := 7 |}]
    | Locations => [loc0]
    | LocationDates => {| LocationAvailabilityDates := dates |}
    | HeldSlot => {| SlotHeldSuccessfully := held |}
    | BookedSlot => booked0
    | WebhookResult => hook
    end.

Definition all_ok (path : string) : Z := 200.

(** Everything succeeds; no booking exists yet. *)
Definition env_ok : Env :=
  env_of all_ok 200
    (fun _ => bodies_with [] [date3] true (webhookOk {| wm_message_id := 10; wm_date := 0 |})).

(** The slot cannot be held. *)
Definition env_not_held : Env :=
  env_of all_ok 200
    (fun _ => bodies_with [] [date3] false (webhookOk {| wm_message_id := 10; wm_date := 0 |})).

(** A booking exists already. *)
Definition env_existing : Env :=
  env_of all_ok 200
    (fun _ => bodies_with [existing0] [date3] true
                (webhookOk {| wm_message_id := 10; wm_date := 0 |})).

(** Only day 10 is on offer. *)
Definition env_far : Env :=
  env_of all_ok 200
    (fun _ => bodies_with [] [date10] true (webhookOk {| wm_message_id := 10; wm_date := 0 |})).

(** The notifier refuses every message. *)
Definition env_refused : Env :=
  env_of all_ok 200
    (fun _ => bodies_with [] [date3] true (webhookError 400 "Bad Request")).

(** The cancellation is rejected. *)
Definition env_no_cancel : Env :=
  env_of (fun path => if String.eqb path "/api/CancelBooking" then 500 else 200) 200
    (fun _ => bodies_with [existing0] [date3] true
                (webhookOk {| wm_message_id := 10; wm_date := 0 |})).

(** Nothing can be reached. *)
Definition env_down : Env :=
  fun _ _ _ => Failed (TransportError "ECONNREFUSED").

Module Tg.
Import TgClient.

Definition person : PersonalInfo :=
  {| firstName := "Ann"; lastName := "Lee"; dob := "01/02/1990";
     lastFourSSN := "1234"; phoneNumber := None; email := "ann@example.org";
     typeId := None |}.

Definition config_with (demo keep_going hook : bool) : Config :=
  {| appSettings := {| webserver := false; demoOnly := demo;
                       cancelIfExist := keep_going; interval := 5000;
                       headersTimeout := 20000 |};
     webhook := {| enable := hook; chatId := "1"; token := "T" |};
     personalInfo := person;
     location := {| preferredDays := 0; zipCode := "75001"; miles := 10;
                    sameDay := false; daysAround := (0, 5) |} |}.

(** Plain run: replace an existing booking, no notifier. *)
Definition config0 : Config := config_with false true false.
(** With the notifier. *)
Definition config_hook : Config := config_with false true true.
(** Dry run. *)
Definition config_demo : Config := config_with true true false.
(** Keep an existing booking. *)
Definition config_keep : Config := config_with false false false.

Definition fresh : TexasScheduler := new_TexasScheduler 0.

(** A status message is on record. *)
Definition with_reference : TexasScheduler := set_webhookStatusMessageId 7 fresh.
End Tg.

Module Cl.
Import Client.

Definition config0 : Config :=
  {| appSettings := {| webserver := false; cancelIfExist := true;
                       interval := 5000; headersTimeout := 20000 |};
     webhook := {| enable := false; phoneNumberType := "iMessage";
                   phoneNumber_ := "+10000000000"; sendMethod := "private-api";
                   url := "http://localhost:1234"; password := "p" |};
     personalInfo := {| firstName := "Ann"; lastName := "Lee"; dob := "01/02/1990";
                        lastFourSSN := "1234"; phoneNumber := None;
                        email := "ann@example.org"; typeId := None |};
     location := {| preferredDays := 0; zipCode := "75001"; miles := 10;
                    sameDay := false; daysAround := 5 |} |}.

Definition fresh : TexasScheduler := new_TexasScheduler 0.
End Cl.

End Samples.

(** * Vocabulary of further properties (Telegram-notifying client) *)

Module TgMore.
Import TgClient TgSpec.

(** Environments: every read of a HoldSlot response says "held"; no
    booking request is accepted (it is answered, with a status other than
    200); every read of an eligibility response yields [ids]; every read
    of a location list yields [found]. *)
Definition hold_confirmed (env : Env) : Prop :=
  forall n res,
    env n _ (body_json HeldSlot res) = Replied {| SlotHeldSuccessfully := true |}.

Definition booking_refused (env : Env) : Prop :=
  forall n m timeout body,
    exists code,
      env n _ (pool_request "/api/NewBooking" m timeout body)
      = Replied {| statusCode := code |} /\ code <> 200.

Definition eligibility_found (env : Env) (ids : list EligibilityResponse) : Prop :=
  forall n res, env n _ (body_json Eligibilities res) = Replied ids.

Definition locations_found (env : Env) (found : list AvaliableLocationResponse) : Prop :=
  forall n res, env n _ (body_json Locations res) = Replied found.

(** The scheduling API cannot be reached for requests to [path]. *)
Definition request_fails (env : Env) (path : string) (e : Reason) : Prop :=
  forall n m timeout body, env n _ (pool_request path m timeout body) = Failed e.

(** The requests Hold and the Book it leads to make of the scheduling
    API, in the order of the text: the cancellation of a staged booking,
    the hold, the eligibility lookup, the booking. *)
Definition hold_sequence (s : TexasScheduler) : list string :=
  ((if truthy (existingBookingConfirmationNumber s)
    then ["/api/CancelBooking"] else []) ++
   ["/api/HoldSlot"; "/api/Eligibility"; "/api/NewBooking"])%list.

(** The booking payloads among the calls of a run. *)
Definition booking_bodies (l : list SomeCall) : list BookSlotPayload :=
  flat_map (fun c => match c with
                     | some_call (pool_request _ _ _ (body_BookSlot p)) => [p]
                     | _ => []
                     end) l.

(** The task Hold is when it has issued its hold request. *)
Definition awaits_hold (config : Config) (booking : AvaliableTimeSlots)
    (s : TexasScheduler) (t : AnyTask TexasScheduler) : Prop :=
  exists A (k : Reply Response -> TexasScheduler -> Res TexasScheduler A),
    t = any_task (Await (hold_request config booking) s k).

(** The task is waiting for the answer to a booking request for the slot
    [booking] at [location]. *)
Definition awaits_booking (booking : AvaliableTimeSlots)
    (location : AvaliableLocationResponse) (t : AnyTask TexasScheduler) : Prop :=
  match t with
  | any_task (Await c _ _) =>
      match c with
      | pool_request path _ _ (body_BookSlot p) =>
          path = "/api/NewBooking" /\
          bs_SiteId p = Id location /\
          bs_BookingDateTime p = StartDateTime booking
      | _ => False
      end
  | _ => False
  end.

(** The notifier cannot be reached; the scheduling API answers. *)
Definition notifier_unreachable (env : Env) (e : Reason) : Prop :=
  forall n url body, env n _ (undici_request url body) = Failed e.

Definition api_reachable (env : Env) : Prop :=
  forall n path m timeout body,
    exists res, env n _ (pool_request path m timeout body) = Replied res.
End TgMore.

(** * The round summary of the polling loop

    The callback that [getLocationDatesAll] runs on the results of a
    round: one block of text per location, with its first three dates,
    and the earliest next-available date seen so far.  [Date_valueOf] is
    [new Date(text).valueOf()], [None] standing for an invalid date, and
    [format_day] is [dayjs(d).format('MM/DD/YYYY')]. *)

Module TgRound.

Section Rendering.
Variable Date_valueOf : string -> option Z.
Variable format_day : option Z -> string.

(** [bestSoFar: [string, Date, Date]] *)
Definition BestSoFar : Type := string * option Z * Z.

(** [a < b] on two dates: false as soon as one of them is invalid. *)
Definition Date_lt (a b : option Z) : bool :=
  match a, b with
  | Some x, Some y => x <? y
  | _, _ => false
  end.

(** [dates.slice(0, 3).reduce((p, c, i) => p + `\n\t #${i + 1} - ...`, "")] *)
Fixpoint reduce_dates (i : nat) (dates : list LocationAvailabilityDate) (p : string)
  : string :=
  match dates with
  | [] => p
  | c :: rest =>
      reduce_dates (S i) rest
        (p ++ newline ++ String (Ascii.ascii_of_nat 9) " #" ++
         show_Z (Z.of_nat (i + 1)) ++ " - " ++ format_day (AvailabilityDate c))
  end.

(** The body of the [for ... of resp] loop. *)
Definition note_location (now : Z) (acc : string * BestSoFar)
    (entry : AvaliableLocationResponse * AvaliableLocationDatesResponse)
  : string * BestSoFar :=
  let (message, bestSoFar) := acc in
  let (location, response) := entry in
  let message :=
    message ++ (">" ++ Name location ++ ":") ++
    reduce_dates 0 (firstn 3 (LocationAvailabilityDates response)) "" ++ newline in
  let bestSoFar :=
    if negb (truthy (fst (fst bestSoFar))) ||
       Date_lt (Date_valueOf (NextAvailableDate location)) (snd (fst bestSoFar))
    then (Name location, Date_valueOf (NextAvailableDate location), now)
    else bestSoFar in
  (message, bestSoFar).

Definition round_summary (now : Z)
    (resp : list (AvaliableLocationResponse * AvaliableLocationDatesResponse))
    (message : string) (bestSoFar : BestSoFar) : string * BestSoFar :=
  fold_left (note_location now) resp (message, bestSoFar).
End Rendering.

End TgRound.

(** * Vocabulary of further properties ([src/Client/index.ts]) *)

Module ClientMore.
Import Client.

Definition booked_implies_holding (s : TexasScheduler) : Prop :=
  isBooked s = true -> isHolded s = true.

Definition latches_kept (s s' : TexasScheduler) : Prop :=
  (isHolded s = true -> isHolded s' = true) /\
  (isBooked s = true -> isBooked s' = true).

Definition guarantee (s s' : TexasScheduler) : Prop :=
  latches_kept s s' /\
  (booked_implies_holding s -> booked_implies_holding s').

Definition holding_if (h : bool) (s : TexasScheduler) : Prop :=
  h = true -> isHolded s = true.

Definition keeps (h : bool) {A : Type} (p : Task A) : Prop :=
  triple guarantee (holding_if h) p (fun _ => holding_if h).

(** The operations a run of this client starts: a probe, Hold, a message
    to the webhook, and Book once [isHolded] is set. *)
Inductive entry (config : Config) : TexasScheduler -> forall A, Task A -> Prop :=
| entry_probe s location :
    entry config s _ (getLocationDates config location)
| entry_hold s booking location :
    entry config s _ (holdSlot config booking location)
| entry_book s booking location :
    isHolded s = true ->
    entry config s _ (bookSlot config booking location)
| entry_message s message :
    entry config s _ (sendWebhook config message).

(** Outside the tasks nothing touches the object but the clock. *)
Definition outside (s s' : TexasScheduler) : Prop :=
  exists t, s' = {| avaliableLocation := avaliableLocation s;
                    isBooked := isBooked s;
                    isHolded := isHolded s;
                    queue_isPaused := queue_isPaused s;
                    clock := t;
                    console := console s |}.

Definition start (s : TexasScheduler) : System TexasScheduler :=
  {| shared := s; tasks := []; exited := None |}.

Definition hold_request (config : Config) (booking : AvaliableTimeSlots)
  : Call Response :=
  pool_request "/api/HoldSlot" POST (headersTimeout (appSettings config))
    (body_HoldSlot
       {| hs_DateOfBirth := dob (personalInfo config);
          hs_FirstName := firstName (personalInfo config);
          hs_LastName := lastName (personalInfo config);
          hs_Last4Ssn := lastFourSSN (personalInfo config);
          hs_SlotId := SlotId booking |}).

Definition message_request (config : Config) (message : string) : Call Response :=
  undici_request
    (url (webhook config) ++ "/api/v1/message/text?password=" ++
     password (webhook config))
    (body_message
       {| chatGuid := phoneNumberType (webhook config) ++ ";-;" ++
                      phoneNumber_ (webhook config);
          tempGuild := "";
          message := message;
          method := sendMethod (webhook config);
          subject := "";
          effectId := "";
          selectedMessageGuild := "" |}).

Definition message_text (c : SomeCall) : string :=
  match c with
  | some_call (undici_request _ (body_message p)) => message p
  | _ => ""
  end.
End ClientMore.

(** * Further sample data and environments *)

Module MoreSamples.

Definition ok_hook : webhookResponse webhookMessage :=
  webhookOk {| wm_message_id := 10; wm_date := 0 |}.

(** The booking request is answered with a server error. *)
Definition env_booking_refused : Env :=
  Samples.env_of (fun path => if String.eqb path "/api/NewBooking" then 500 else 200) 200
    (fun _ => Samples.bodies_with [] [Samples.date3] true ok_hook).

(** The eligibility lookup finds nobody. *)
Definition env_no_eligibility : Env :=
  Samples.env_of Samples.all_ok 200
    (fun _ sh =>
       match sh return decode sh with
       | Eligibilities => []
       | sh' => Samples.bodies_with [] [Samples.date3] true ok_hook sh'
       end).

(** A booking exists already and no slot can be held. *)
Definition env_existing_not_held : Env :=
  Samples.env_of Samples.all_ok 200
    (fun _ => Samples.bodies_with [Samples.existing0] [Samples.date3] false ok_hook).

(** An environment in which the calls picked by [fails] fail. *)
Definition env_failing (fails : forall T, Call T -> option Reason) (base : Env) : Env :=
  fun n T c =>
    match fails T c with
    | Some e => Failed e
    | None => base n T c
    end.

Definition reset : Reason := TransportError "ECONNRESET".

Definition hold_request_fails (T : Type) (c : Call T) : option Reason :=
  match c with
  | pool_request path _ _ _ =>
      if String.eqb path "/api/HoldSlot" then Some reset else None
  | _ => None
  end.

Definition notifier_fails (T : Type) (c : Call T) : option Reason :=
  match c with
  | undici_request _ _ => Some reset
  | _ => None
  end.

Definition env_hold_down : Env := env_failing hold_request_fails Samples.env_ok.
Definition env_notifier_down : Env := env_failing notifier_fails Samples.env_ok.

(** A second slot and a second location. *)
Definition slot1 : AvaliableTimeSlots :=
  {| SlotId := 43; StartDateTime := "2026-11-06T10:00:00";
     FormattedStartDateTime := "11/06/2026 10:00 AM"; Duration := 20 |}.

Definition loc1 : AvaliableLocationResponse :=
  {| Id := 2; Name := "B"; Distance := 30; NextAvailableDate := "2026-11-03" |}.

(** A location whose next available date cannot be parsed. *)
Definition loc_undated : AvaliableLocationResponse :=
  {| Id := 3; Name := "C"; Distance := 5; NextAvailableDate := "" |}.

(** Two locations are on offer, one of them out of range. *)
Definition env_two_locations : Env :=
  Samples.env_of Samples.all_ok 200
    (fun _ sh =>
       match sh return decode sh with
       | Locations => [Samples.loc0; loc1]
       | sh' => Samples.bodies_with [] [Samples.date3] true ok_hook sh'
       end).

(** A stand-in for [new Date(text).valueOf()]: the day of the month of a
    date written YYYY-MM-DD, and invalid for the empty text. *)
Definition valueOf (text : string) : option Z :=
  if String.eqb text "2026-11-05" then Some 5
  else if String.eqb text "2026-11-03" then Some 3
  else None.

Definition format_day (d : option Z) : string :=
  match d with
  | Some v => show_Z v
  | None => "Invalid Date"
  end.

Definition no_dates : AvaliableLocationDatesResponse :=
  {| LocationAvailabilityDates := [] |}.

Module Tg.
Import TgClient.

(** A booking found at startup has been staged for cancellation. *)
Definition staged : TexasScheduler :=
  set_existingBookingConfirmationNumber "OLD1" Samples.Tg.fresh.

(** A candidate was found: the queue is paused. *)
Definition paused : TexasScheduler := set_queue_isPaused true Samples.Tg.fresh.

(** The window is open-ended in effect: from today to 1e21 days ahead. *)
Definition config_far_bound : Config :=
  {| appSettings := appSettings Samples.Tg.config0;
     webhook := webhook Samples.Tg.config0;
     personalInfo := personalInfo Samples.Tg.config0;
     location := {| preferredDays := 0; zipCode := "75001"; miles := 10;
                    sameDay := false; daysAround := (0, exponent_form_from) |} |}.
End Tg.

Module Cl.
Import Client.

(** The webhook is switched on. *)
Definition config_hook : Config :=
  {| appSettings := appSettings Samples.Cl.config0;
     webhook := {| enable := true; phoneNumberType := "iMessage";
                   phoneNumber_ := "+10000000000"; sendMethod := "private-api";
                   url := "http://localhost:1234"; password := "p" |};
     personalInfo := personalInfo Samples.Cl.config0;
     location := location Samples.Cl.config0 |}.
End Cl.

End MoreSamples.

(** * Rules of the rely/guarantee judgement *)

Section RelyGuaranteeRules.
Variable St : Type.
Variable G : St -> St -> Prop.
Hypothesis G_refl : forall s, G s s.
Hypothesis G_trans : forall s1 s2 s3, G s1 s2 -> G s2 s3 -> G s1 s3.

Lemma safe_start {A : Type} (r : Res St A) :
  forall (Q : A -> St -> Prop) s0 s1, G s0 s1 -> safe G Q s1 r -> safe G Q s0 r.
Proof.
  induction r as [A a s|A code s|A e s|A s|A T c s k IH|A child IHc rest IHr];
    simpl; intros Q s0 s1 H01 Hs.
  - destruct Hs; split; eauto.
  - eauto.
  - eauto.
  - eauto.
  - destruct Hs; split; eauto.
  - destruct Hs; split; eauto.
Qed.

Lemma safe_post {A : Type} (r : Res St A) :
  forall (Q Q' : A -> St -> Prop) s0,
    (forall a s, Q a s -> Q' a s) -> safe G Q s0 r -> safe G Q' s0 r.
Proof.
  induction r as [A a s|A code s|A e s|A s|A T c s k IH|A child IHc rest IHr];
    simpl; intros Q Q' s0 HQ Hs; auto.
  - destruct Hs; split; auto.
  - destruct Hs as [H0 Hk]; split; auto.
    intros reply s' Hr. apply (IH reply s' Q Q'); auto.
  - destruct Hs as [Hc Hr]; split; auto.
    apply (IHr Q Q'); auto.
Qed.

Lemma safe_state {A : Type} (r : Res St A) :
  forall (Q : A -> St -> Prop) s0, safe G Q s0 r -> G s0 (state_of r).
Proof.
  induction r as [A a s|A code s|A e s|A s|A T c s k IH|A child IHc rest IHr];
    simpl; intros Q s0 Hs; try tauto.
  destruct Hs as [Hc Hr]. eapply G_trans; eauto.
Qed.

Lemma safe_bind {A : Type} (r : Res St A) :
  forall B (f : A -> Prog St B) (Q : A -> St -> Prop) (R : B -> St -> Prop) s0,
    safe G Q s0 r ->
    (forall a s, Q a s -> safe G R s (f a s)) ->
    safe G R s0 (bindRes r f).
Proof.
  induction r as [A a s|A code s|A e s|A s|A T c s k IH|A child IHc rest IHr];
    simpl; intros B f Q R s0 Hs Hf; auto.
  - destruct Hs as [H0 HQ]. eapply safe_start; eauto.
  - destruct Hs as [H0 Hk]; split; auto.
    intros reply s' Hr. eapply IH; eauto.
  - destruct Hs as [Hc Hr]; split; auto.
    eapply IHr; eauto.
Qed.

Lemma safe_catch {A : Type} (r : Res St A) :
  forall (h : Reason -> Prog St A) (Q : A -> St -> Prop) s0,
    safe G Q s0 r ->
    (forall e s, safe G Q s (h e s)) ->
    safe G Q s0 (catchRes r h).
Proof.
  induction r as [A a s|A code s|A e s|A s|A T c s k IH|A child IHc rest IHr];
    simpl; intros h Q s0 Hs Hh; auto.
  - eapply safe_start; eauto.
  - destruct Hs as [H0 Hk]; split; auto.
  - destruct Hs as [Hc Hr]; split; auto.
Qed.

(** The rules, one per way of building a task. *)

Lemma triple_ret {A : Type} (P : St -> Prop) (a : A) (Q : A -> St -> Prop) :
  (forall s, P s -> Q a s) -> triple G P (ret a) Q.
Proof. intros H s Hs; simpl; auto. Qed.

Lemma triple_bind {A B : Type} (P : St -> Prop) (p : Prog St A) (Q : A -> St -> Prop)
    (f : A -> Prog St B) (R : B -> St -> Prop) :
  triple G P p Q -> (forall a, triple G (Q a) (f a) R) -> triple G P (bind p f) R.
Proof.
  intros Hp Hf s Hs. unfold bind. eapply safe_bind; [apply Hp; exact Hs|].
  intros a s' Hq. apply Hf; exact Hq.
Qed.

Lemma triple_gets {A : Type} (P : St -> Prop) (g : St -> A) (Q : A -> St -> Prop) :
  (forall s, P s -> Q (g s) s) -> triple G P (gets g) Q.
Proof. intros H s Hs; simpl; auto. Qed.

Lemma triple_modify (P : St -> Prop) (g : St -> St) (Q : unit -> St -> Prop) :
  (forall s, P s -> G s (g s) /\ Q tt (g s)) -> triple G P (modify g) Q.
Proof. intros H s Hs; simpl; auto. Qed.

Lemma triple_exit {A : Type} (P : St -> Prop) code (Q : A -> St -> Prop) :
  triple G P (process_exit code) Q.
Proof. intros s Hs; simpl; auto. Qed.

Lemma triple_throw {A : Type} (P : St -> Prop) e (Q : A -> St -> Prop) :
  triple G P (throw e) Q.
Proof. intros s Hs; simpl; auto. Qed.

Lemma triple_out_of_fuel {A : Type} (P : St -> Prop) (Q : A -> St -> Prop) :
  triple G P out_of_fuel Q.
Proof. intros s Hs; simpl; auto. Qed.

(** An assertion can be carried across an [await] when the steps of
    the other tasks cannot undo it. *)
Lemma triple_await {T : Type} (P : St -> Prop) (c : Call T) (Q : T -> St -> Prop) :
  (forall s s', P s -> G s s' -> forall t, Q t s') ->
  triple G P (await c) Q.
Proof.
  intros H s Hs; simpl; split; auto.
  intros [e|t] s' Hr; simpl; eauto.
Qed.

Lemma triple_spawn (P : St -> Prop) (p : Prog St unit) (Q : unit -> St -> Prop) :
  triple G P p anything ->
  (forall s, P s -> Q tt (state_of (p s))) ->
  triple G P (spawn p) Q.
Proof.
  intros Hp HQ s Hs. unfold spawn.
  specialize (Hp s Hs). specialize (HQ s Hs).
  destruct (p s) eqn:E; simpl in *; intuition auto.
Qed.

Lemma triple_catch {A : Type} (P : St -> Prop) (p : Prog St A) h (Q : A -> St -> Prop) :
  triple G P p Q -> (forall e, triple G (fun _ => True) (h e) Q) ->
  triple G P (try_catch p h) Q.
Proof.
  intros Hp Hh s Hs. unfold try_catch. apply safe_catch; auto.
  intros e s'. apply Hh; auto.
Qed.

Lemma triple_weaken {A : Type} (P P' : St -> Prop) (p : Prog St A) (Q Q' : A -> St -> Prop) :
  (forall s, P' s -> P s) -> (forall a s, Q a s -> Q' a s) ->
  triple G P p Q -> triple G P' p Q'.
Proof.
  intros HP HQ Hp s Hs. eapply safe_post; eauto.
Qed.

Lemma triple_if {A : Type} (P : St -> Prop) (b : bool) (p q : Prog St A) (Q : A -> St -> Prop) :
  (b = true -> triple G P p Q) -> (b = false -> triple G P q Q) ->
  triple G P (if b then p else q) Q.
Proof. destruct b; auto. Qed.

(** ** From tasks to the process *)

Section Process.
Variable entry : St -> forall A, Prog St A -> Prop.
Variable outside : St -> St -> Prop.
Hypothesis entry_safe :
  forall s A (p : Prog St A), entry s A p -> safe G anything s (p s).
Hypothesis outside_G : forall s s', outside s s' -> G s s'.

Lemma flatten_ok {A : Type} (r : Res St A) :
  forall (Q : A -> St -> Prop) s0, safe G Q s0 r ->
    forall t, In t (flatten r) -> task_ok G (state_of r) t.
Proof.
  induction r as [A a s|A code s|A e s|A s|A T c s k IH|A child IHc rest IHr];
    intros Q s0 Hs t Ht; simpl in *.
  - destruct Ht as [<-|[]]; simpl; unfold anything; auto.
  - destruct Ht as [<-|[]]; simpl; unfold anything; auto.
  - destruct Ht as [<-|[]]; simpl; unfold anything; auto.
  - destruct Ht as [<-|[]]; simpl; unfold anything; auto.
  - destruct Ht as [<-|[]]; simpl. destruct Hs as [H0 Hk]. split; auto.
    split; auto. intros reply s' Hr.
    apply safe_post with (Q := Q); [unfold anything; auto|]. auto.
  - destruct Hs as [Hc Hr]. apply in_app_or in Ht. destruct Ht as [Ht|Ht].
    + specialize (IHc _ _ Hc t Ht). destruct t as [B r]; simpl in *.
      destruct IHc as [H1 H2]. split; auto.
      eapply G_trans; eauto. eapply safe_state; eauto.
    + apply (IHr _ _ Hr t Ht).
Qed.

Lemma task_ok_moves s s' t : G s s' -> task_ok G s t -> task_ok G s' t.
Proof.
  intros Hg Ht. destruct t as [B r]; simpl in *. destruct Ht; split; eauto.
Qed.

Lemma absorb_ok {A : Type} (r : Res St A) others s :
  safe G anything s r ->
  (forall t, In t others -> task_ok G s t) ->
  pool_ok G (absorb r others) /\ G s (shared (absorb r others)).
Proof.
  intros Hr Ho. pose proof (safe_state r _ _ Hr) as Hst.
  split; auto. intros t Ht. simpl in Ht. apply in_app_or in Ht.
  destruct Ht as [Ht|Ht]; simpl.
  - eapply task_ok_moves; eauto.
  - eapply flatten_ok; eauto.
Qed.

Lemma step_ok sys sys' :
  pool_ok G sys -> sys_step entry outside sys sys' ->
  pool_ok G sys' /\ G (shared sys) (shared sys').
Proof.
  intros Hp Hstep.
  destruct Hstep as [A p sys He Hin|sys before after A T c s k reply He Ht|sys s' He Ho].
  - apply absorb_ok; auto.
  - assert (Hin : In (any_task (Await c s k)) (tasks sys)).
    { rewrite Ht. apply in_or_app. right. left. reflexivity. }
    destruct (Hp _ Hin) as [[_ Hk] Hg]. simpl in Hg.
    apply absorb_ok; auto.
    intros t Hin'. apply Hp. rewrite Ht.
    apply in_app_or in Hin'. apply in_or_app.
    destruct Hin'; [left|right; right]; auto.
  - split; [|simpl; auto].
    intros t Hin. simpl in *. apply task_ok_moves with (s := shared sys); auto.
Qed.

Lemma reachable_ok sys0 sys :
  pool_ok G sys0 -> reachable entry outside sys0 sys ->
  pool_ok G sys /\ G (shared sys0) (shared sys).
Proof.
  intros H0 Hr. induction Hr as [|sys sys' Hr IH Hstep].
  - split; auto.
  - destruct IH as [Hp Hg]. destruct (step_ok _ _ Hp Hstep) as [Hp' Hg'].
    split; auto. eapply G_trans; eauto.
Qed.

Lemma reachable_trans sys0 sys1 sys2 :
  reachable entry outside sys0 sys1 -> reachable entry outside sys1 sys2 ->
  reachable entry outside sys0 sys2.
Proof.
  intros H1 H2. induction H2; [assumption|]. eapply reach_step; eauto.
Qed.

Lemma reachable_resume_head reply sys0 sys :
  reachable entry outside sys0 sys ->
  reachable entry outside sys0 (resume_head reply sys).
Proof.
  intros Hr. unfold resume_head.
  destruct (exited sys) eqn:He; [assumption|].
  destruct (tasks sys) as [|[A r] after] eqn:Ht; [assumption|].
  destruct r; try assumption.
  eapply reach_step; [exact Hr|].
  apply step_resume with (before := []) (after := after) (c := c) (s := s) (k := k);
    assumption.
Qed.

Lemma reachable_start sys0 sys A (p : Prog St A) :
  reachable entry outside sys0 sys ->
  exited sys = None -> entry (shared sys) A p ->
  reachable entry outside sys0 (absorb (p (shared sys)) (tasks sys)).
Proof.
  intros Hr He Hp. eapply reach_step; [exact Hr|]. apply step_start; assumption.
Qed.

(** Once a task has called [process.exit], nothing more happens. *)
Lemma exited_is_final sys sys' code :
  exited sys = Some code -> ~ sys_step entry outside sys sys'.
Proof.
  intros He Hstep. destruct Hstep; congruence.
Qed.
End Process.
End RelyGuaranteeRules.

(** * The latches of the Telegram-notifying client *)

Import TgClient TgSpec.

Lemma guarantee_refl s : guarantee s s.
Proof. unfold guarantee, latches_kept; tauto. Qed.

Lemma guarantee_trans s1 s2 s3 :
  guarantee s1 s2 -> guarantee s2 s3 -> guarantee s1 s3.
Proof. unfold guarantee, latches_kept; tauto. Qed.

Ltac latches :=
  unfold holding_if, guarantee, latches_kept, booked_implies_holding, anything in *;
  simpl in *; intuition congruence.

Ltac preorder := first [exact guarantee_refl | exact guarantee_trans].

Lemma holding_stable h s s' : holding_if h s -> guarantee s s' -> holding_if h s'.
Proof. latches. Qed.

Create HintDb keeps.

Section Keeps.
Variable config : Config.
Variable h : bool.

Lemma keeps_ret {A : Type} (a : A) : keeps h (ret a).
Proof. apply triple_ret; try preorder; auto. Qed.

Lemma keeps_bind {A B : Type} (p : Task A) (f : A -> Task B) :
  keeps h p -> (forall a, keeps h (f a)) -> keeps h (bind p f).
Proof. intros Hp Hf. eapply triple_bind; [exact guarantee_trans|exact Hp|exact Hf]. Qed.

Lemma keeps_gets {A : Type} (g : TexasScheduler -> A) : keeps h (gets g).
Proof. apply triple_gets; try preorder; auto. Qed.

Lemma keeps_await {T : Type} (c : Call T) : keeps h (await c).
Proof.
  apply triple_await; try preorder.
  intros s s' Hs Hg t. eapply holding_stable; eauto.
Qed.

Lemma keeps_exit {A : Type} code : keeps h (@process_exit _ A code).
Proof. apply triple_exit; preorder. Qed.

Lemma keeps_throw {A : Type} e : keeps h (@throw _ A e).
Proof. apply triple_throw; preorder. Qed.

Lemma keeps_out_of_fuel {A : Type} : keeps h (@out_of_fuel _ A).
Proof. apply triple_out_of_fuel; preorder. Qed.

Lemma keeps_modify (g : TexasScheduler -> TexasScheduler) :
  (forall s, isHolded (g s) = isHolded s /\ isBooked (g s) = isBooked s) ->
  keeps h (modify g).
Proof.
  intros Hg. apply triple_modify; try preorder.
  intros s Hs. destruct (Hg s) as [H1 H2].
  unfold holding_if, guarantee, latches_kept, booked_implies_holding in *.
  rewrite H1, H2. tauto.
Qed.

Lemma keeps_if {A : Type} (b : bool) (p q : Task A) :
  keeps h p -> keeps h q -> keeps h (if b then p else q).
Proof. destruct b; auto. Qed.

Lemma keeps_log_info msg : keeps h (log_info msg).
Proof. apply keeps_modify; auto. Qed.
Lemma keeps_log_warn msg : keeps h (log_warn msg).
Proof. apply keeps_modify; auto. Qed.
Lemma keeps_log_error msg : keeps h (log_error msg).
Proof. apply keeps_modify; auto. Qed.

Lemma keeps_first_of {A : Type} (l : list A) : keeps h (first_of l).
Proof. destruct l; simpl; [apply keeps_throw|apply keeps_ret]. Qed.

Lemma keeps_requestApi path method body : keeps h (requestApi config path method body).
Proof. apply keeps_await. Qed.

Lemma keeps_queue_start : keeps h queue_start_if_paused.
Proof.
  apply keeps_bind; [apply keeps_gets|intros [|]];
    [apply keeps_modify; auto|apply keeps_ret].
Qed.

Lemma keeps_queue_pause : keeps h queue_pause_unless_paused.
Proof.
  apply keeps_bind; [apply keeps_gets|intros [|]]; simpl;
    [apply keeps_ret|apply keeps_modify; auto].
Qed.
End Keeps.

#[local] Hint Resolve keeps_ret keeps_gets keeps_await keeps_exit keeps_throw
  keeps_out_of_fuel keeps_log_info keeps_log_warn keeps_log_error keeps_first_of
  keeps_requestApi keeps_queue_start keeps_queue_pause : keeps.

(** One step through the text of a task. *)
Ltac keeps_step :=
  first
    [ solve [auto with keeps]
    | match goal with
      | |- keeps _ (bind _ _) => apply keeps_bind; [|intro]
      | |- keeps _ (if ?b then _ else _) => destruct b eqn:?
      | |- keeps _ (match ?x with _ => _ end) => destruct x eqn:?
      | |- keeps _ (modify _) => apply keeps_modify; solve [auto]
      end ].

Lemma keeps_sendWebhook_fuel config h fuel message important :
  keeps h (sendWebhook_fuel config fuel message important).
Proof.
  induction fuel as [|fuel IH]; simpl.
  - auto with keeps.
  - repeat keeps_step.
Qed.

Lemma keeps_sendWebhook config h message important :
  keeps h (sendWebhook config message important).
Proof. apply keeps_sendWebhook_fuel. Qed.

Lemma keeps_cancelBooking config h number : keeps h (cancelBooking config number).
Proof. unfold cancelBooking. cbv zeta. repeat keeps_step. Qed.

Lemma keeps_getResponseId config h : keeps h (getResponseId config).
Proof. unfold getResponseId. cbv zeta. repeat keeps_step. Qed.

Lemma keeps_requestAvaliableLocation config h :
  keeps h (requestAvaliableLocation config).
Proof. unfold requestAvaliableLocation. cbv zeta. repeat keeps_step. Qed.

Lemma keeps_checkExistBooking config h : keeps h (checkExistBooking config).
Proof. unfold checkExistBooking. cbv zeta. repeat keeps_step. Qed.

#[local] Hint Resolve keeps_sendWebhook keeps_cancelBooking keeps_getResponseId
  keeps_requestAvaliableLocation keeps_checkExistBooking : keeps.

(** Book sets [isBooked]; that keeps [booked_implies_holding] because Book
    runs with [isHolded] set, and no other task unsets it meanwhile. *)
Lemma keeps_bookSlot config booking location :
  keeps true (bookSlot config booking location).
Proof.
  unfold bookSlot. cbv zeta. repeat keeps_step.
  apply triple_modify; try preorder. intros s Hs. split; latches.
Qed.

(** Hold's success branch: the latch is set, then Book runs. *)
Lemma keeps_hold_then_book config h booking location :
  keeps h (modify (set_isHolded true) ;; bookSlot config booking location).
Proof.
  unfold keeps.
  apply triple_bind with (Q := fun _ => holding_if true); try preorder.
  - apply triple_modify; try preorder. intros s Hs. split; latches.
  - intros _. eapply triple_weaken; [| |apply keeps_bookSlot]; [auto|].
    intros ? s Hs Hh. apply Hs. reflexivity.
Qed.

#[local] Hint Resolve keeps_hold_then_book : keeps.

Lemma keeps_holdSlot config h booking location :
  keeps h (holdSlot config booking location).
Proof. unfold holdSlot. cbv zeta. repeat keeps_step. Qed.

Lemma keeps_spawn h (p : Task unit) : keeps h p -> keeps h (spawn p).
Proof.
  intros Hp. apply triple_spawn; try preorder.
  - eapply triple_weaken; [| |exact Hp]; unfold anything; auto.
  - intros s Hs. eapply holding_stable; [exact Hs|].
    eapply safe_state; [exact guarantee_refl|exact guarantee_trans|apply Hp; exact Hs].
Qed.

Lemma keeps_getLocationDates config h location :
  keeps h (getLocationDates config location).
Proof.
  unfold getLocationDates. cbv zeta. repeat keeps_step.
  apply keeps_spawn, keeps_holdSlot.
Qed.

Lemma keeps_run config h poll :
  keeps h poll -> keeps h (run config poll).
Proof.
  intros Hp. unfold run. repeat keeps_step.
  apply triple_catch; try preorder.
  - match goal with
    | |- triple guarantee (holding_if ?h) ?p _ => change (keeps h p)
    end.
    repeat keeps_step.
  - intros e s _. simpl. latches.
Qed.

(** Whatever is started, it keeps to the guarantee. *)
Lemma entry_safe config s A (p : Task A) :
  entry config s A p -> safe guarantee anything s (p s).
Proof.
  intros He.
  assert (K : exists h, holding_if h s /\ keeps h p).
  { destruct He.
    - exists false. split; [discriminate|apply keeps_getLocationDates].
    - exists false. split; [discriminate|apply keeps_holdSlot].
    - exists true. split; [intro; assumption|apply keeps_bookSlot].
    - exists false. split; [discriminate|apply keeps_sendWebhook]. }
  destruct K as [h [Hs Hk]].
  eapply safe_post; [|apply Hk; exact Hs]. unfold anything; auto.
Qed.

Lemma outside_guarantee s s' : outside s s' -> guarantee s s'.
Proof. intros [t ->]. latches. Qed.

(** * Running the operations against an environment *)

(** Unfold the text of the client down to the next call on which the
    environment decides. *)
Ltac crank :=
  cbv beta delta
    [run_alone bind try_catch ret gets modify await
     process_exit throw out_of_fuel first_of spawn
     holdSlot bookSlot cancelBooking requestApi getResponseId checkExistBooking
     requestAvaliableLocation getLocationDates run sendWebhook
     queue_start_if_paused queue_pause_unless_paused
     log_info log_warn log_error hold_answered api_paths];
  simpl.

Ltac crank_in H :=
  cbv beta delta
    [run_alone bind try_catch ret gets modify await
     process_exit throw out_of_fuel first_of spawn
     holdSlot bookSlot cancelBooking requestApi getResponseId checkExistBooking
     requestAvaliableLocation getLocationDates run sendWebhook
     queue_start_if_paused queue_pause_unless_paused
     log_info log_warn log_error hold_answered api_paths] in H;
  simpl in H.

Ltac nope := crank; intros; congruence.

(** Name the outcome of the run in the goal and keep its text in [Ho]. *)
Ltac keep_text o Ho :=
  assert (Ho : o = o) by reflexivity;
  unfold o at 2 in Ho; clearbody o; crank_in Ho.

Ltac name_outcome o Ho := intros o; keep_text o Ho.

(** The same for a run that the goal mentions without a name. *)
Ltac name_run o Ho :=
  match goal with
  | |- context [run_alone ?e ?p ?s] =>
      remember (run_alone e p s) as o eqn:Ho; crank_in Ho
  end.

(** Answer the next call in [Ho] with the help of [answers]. *)
Ltac answered Hans Ho t :=
  match type of Ho with
  | context [?env ?n ?T ?c] =>
      match type of Hans with
      | answers env =>
          let E := fresh "E" in
          destruct (Hans n T c) as [t E]; rewrite E in Ho; clear E; crank_in Ho
      end
  end.

(** The run is over: read the outcome off. *)
Ltac outcome o Ho := subst o; simpl.

(** The run never made the request it is supposed to have made. *)
Ltac not_requested :=
  let H := fresh "H" in
  intros H; simpl in H;
  repeat (destruct H as [H|H]; [discriminate H|]); destruct H.

(** * Exit codes *)

(** Case analysis on everything the run still depends on. *)
Ltac explore Ho :=
  repeat (crank_in Ho;
          match type of Ho with
          | context [match ?x with _ => _ end] => destruct x eqn:?
          end).

Lemma bookSlot_exit_code config env booking location s code :
  demoOnly (appSettings config) = false ->
  result (run_alone env (bookSlot config booking location) s) = ExitCode code ->
  code = 0.
Proof.
  intros Hdemo. name_run o Ho. rewrite Hdemo in Ho.
  explore Ho; subst o; simpl; congruence.
Qed.

Lemma cancelBooking_exit_code config env number s code :
  demoOnly (appSettings config) = false ->
  result (run_alone env (cancelBooking config number) s) = ExitCode code ->
  code = 0.
Proof.
  intros Hdemo. name_run o Ho. rewrite Hdemo in Ho.
  explore Ho; subst o; simpl; congruence.
Qed.

Lemma keep_exit_code config env s code :
  enable (webhook config) = false ->
  cancelIfExist (appSettings config) = false ->
  result (run_alone env (run config (ret tt)) s) = ExitCode code ->
  code = 0.
Proof.
  intros Hhook Hkeep. name_run o Ho. rewrite Hhook in Ho. crank_in Ho.
  rewrite Hkeep in Ho.
  explore Ho; subst o; simpl; congruence.
Qed.

Lemma notifier_exit_code config (env : Env) s code :
  enable (webhook config) = true ->
  (exists e, forall T (c : Call T), env 0%nat T c = Failed e) ->
  result (run_alone env (run config (ret tt)) s) = ExitCode code ->
  code = 5.
Proof.
  intros Hhook [e He]. name_run o Ho. rewrite Hhook in Ho. crank_in Ho.
  rewrite He in Ho. crank_in Ho. subst o; simpl; congruence.
Qed.

Lemma dry_run_exits config booking location number s :
  demoOnly (appSettings config) = true ->
  holdSlot config booking location s
    = Exited 2 (log_line error "Refusing to hold booking in demo mode" s) /\
  bookSlot config booking location s
    = Exited 2 (log_line error "Refusing to make booking in demo mode" s) /\
  cancelBooking config number s
    = Exited 2 (log_line error "Refusing to cancel booking in demo mode" s).
Proof.
  intros Hdemo. unfold holdSlot, bookSlot, cancelBooking, bind.
  rewrite Hdemo. simpl. repeat split; reflexivity.
Qed.

Lemma ends_with_code e code : ends_with e code -> code = exit_code_of e.
Proof.
  intros H. destruct H as
    [config env booking location s code Hdemo Hr
    |config env booking location s code Hdemo Hr
    |config env booking location s code Hdemo Hr
    |config env number s code Hdemo Hr
    |config env s code Hhook Hkeep Hr
    |config env s code Hhook Hdown Hr
    |config env number s code Hdemo Hr]; simpl.
  - eapply bookSlot_exit_code; eauto.
  - destruct (dry_run_exits config booking location "" s Hdemo) as [E _].
    unfold run_alone in Hr. rewrite E in Hr. simpl in Hr. congruence.
  - destruct (dry_run_exits config booking location "" s Hdemo) as [_ [E _]].
    unfold run_alone in Hr. rewrite E in Hr. simpl in Hr. congruence.
  - destruct (dry_run_exits config Samples.slot0 Samples.loc0 number s Hdemo) as [_ [_ E]].
    unfold run_alone in Hr. rewrite E in Hr. simpl in Hr. congruence.
  - eapply keep_exit_code; eauto.
  - eapply notifier_exit_code; eauto.
  - eapply cancelBooking_exit_code; eauto.
Qed.

Lemma ends_booked_0 : ends_with BookedOk 0.
Proof.
  apply (end_booked Samples.Tg.config0 Samples.env_ok Samples.slot0 Samples.loc0
                    Samples.Tg.fresh); reflexivity.
Qed.

Lemma ends_dry_2 : ends_with DryRunRefusal 2.
Proof.
  apply (end_dry_hold Samples.Tg.config_demo Samples.env_ok Samples.slot0 Samples.loc0
                      Samples.Tg.fresh); reflexivity.
Qed.

Lemma ends_keep_0 : ends_with KeepExisting 0.
Proof.
  apply (end_keep Samples.Tg.config_keep Samples.env_existing Samples.Tg.fresh);
    reflexivity.
Qed.

Lemma ends_notifier_5 : ends_with NotifierSetupFailed 5.
Proof.
  apply (end_notifier Samples.Tg.config_hook Samples.env_down Samples.Tg.fresh);
    [reflexivity|eexists; reflexivity|reflexivity].
Qed.

Lemma ends_cancel_0 : ends_with CancelFailed 0.
Proof.
  apply (end_cancel Samples.Tg.config0 Samples.env_no_cancel "OLD1" Samples.Tg.fresh);
    reflexivity.
Qed.

(** C1, as amended.  The exit code tells the dry-run refusal (2) and the
    failure to set up the notifier (5) apart from each other and from every
    other of the five endings: whenever two different endings include one of
    these two, the runs that end that way exit with different codes.  (The
    claim that all five codes differ pairwise fails: see
    [exit_code_zero_is_shared].) *)
Theorem exit_codes_told_apart e1 e2 c1 c2 :
  ends_with e1 c1 -> ends_with e2 c2 ->
  e1 <> e2 -> told_apart e1 \/ told_apart e2 ->
  c1 <> c2.
Proof.
  intros H1 H2 Hne Hta.
  apply ends_with_code in H1. apply ends_with_code in H2. subst c1 c2.
  unfold told_apart in Hta.
  destruct e1, e2; simpl; try congruence; intuition discriminate.
Qed.

Lemma exit_codes_told_apart_witness :
  ends_with DryRunRefusal 2 /\ ends_with BookedOk 0 /\ 2 <> 0.
Proof.
  split; [exact ends_dry_2|]. split; [exact ends_booked_0|].
  apply (exit_codes_told_apart DryRunRefusal BookedOk 2 0).
  - exact ends_dry_2.
  - exact ends_booked_0.
  - discriminate.
  - left. left. reflexivity.
Defined.

(** C1 as stated fails: a run that books a slot and a run that stops
    because a booking exists and is to be kept both exit with code 0. *)
Lemma exit_code_zero_is_shared :
  ~ (forall e1 e2 c1 c2,
       ends_with e1 c1 -> ends_with e2 c2 -> e1 <> e2 -> c1 <> c2).
Proof.
  intros H.
  apply (H BookedOk KeepExisting 0 0 ends_booked_0 ends_keep_0); [discriminate|reflexivity].
Qed.

(** * The latches *)

(** C2.  From an object on which neither latch is set, whatever probes,
    Hold and Book operations and reports are started, and however their
    steps interleave: in every state reached, [isBooked] implies
    [isHolded]; and in every state reached later, a latch that was set is
    still set. *)
Theorem latches_are_write_once config s0 sys sys' :
  isBooked s0 = false -> isHolded s0 = false ->
  reachable (entry config) outside (start s0) sys ->
  reachable (entry config) outside sys sys' ->
  booked_implies_holding (shared sys) /\
  latches_kept (shared sys) (shared sys') /\
  booked_implies_holding (shared sys').
Proof.
  intros Hb Hh Hr Hr'.
  assert (Hok : pool_ok guarantee sys /\ guarantee (shared (start s0)) (shared sys)).
  { eapply reachable_ok; try exact Hr.
    - exact guarantee_refl.
    - exact guarantee_trans.
    - apply entry_safe.
    - exact outside_guarantee.
    - intros t []. }
  destruct Hok as [Hpool [_ Hinv]].
  assert (Hnow : booked_implies_holding (shared sys)).
  { apply Hinv. unfold booked_implies_holding. simpl. congruence. }
  split; [exact Hnow|].
  assert (Hok' : pool_ok guarantee sys' /\ guarantee (shared sys) (shared sys')).
  { eapply reachable_ok; try exact Hr'; try exact Hpool.
    - exact guarantee_refl.
    - exact guarantee_trans.
    - apply entry_safe.
    - exact outside_guarantee. }
  destruct Hok' as [_ [Hkept Hinv']]. split; auto.
Qed.

(** A run of Hold that goes all the way: the slot is held, then booked. *)
Lemma latches_are_write_once_witness :
  let held := resume_head (Samples.env_ok 0%nat)
                (resume_head (Samples.env_ok 0%nat)
                   (absorb (holdSlot Samples.Tg.config0 Samples.slot0 Samples.loc0
                                     Samples.Tg.fresh) [])) in
  let booked := resume_head (Samples.env_ok 0%nat)
                  (resume_head (Samples.env_ok 0%nat)
                     (resume_head (Samples.env_ok 0%nat)
                        (resume_head (Samples.env_ok 0%nat) held))) in
  (isHolded (shared held) = true /\ isBooked (shared held) = false) /\
  (isHolded (shared booked) = true /\ isBooked (shared booked) = true /\
   exited booked = Some 0) /\
  booked_implies_holding (shared held) /\
  latches_kept (shared held) (shared booked) /\
  booked_implies_holding (shared booked).
Proof.
  intros held booked.
  split; [split; reflexivity|]. split; [repeat split; reflexivity|].
  apply (latches_are_write_once Samples.Tg.config0 Samples.Tg.fresh held booked).
  - reflexivity.
  - reflexivity.
  - unfold held.
    do 2 apply reachable_resume_head.
    apply reachable_start with
      (sys := start Samples.Tg.fresh)
      (p := holdSlot Samples.Tg.config0 Samples.slot0 Samples.loc0).
    + apply reach_here.
    + reflexivity.
    + apply entry_hold.
  - unfold booked. do 4 apply reachable_resume_head. apply reach_here.
Defined.

(** * Dry-run mode *)

(** C3.  With [demoOnly] set, Hold, Book and Cancel do nothing but log
    their refusal and end the process with exit code 2: no call is
    awaited, so no request is issued, and nothing else of the operation
    runs. *)
Theorem dry_run_refuses config booking location number s :
  demoOnly (appSettings config) = true ->
  holdSlot config booking location s
    = Exited 2 (log_line error "Refusing to hold booking in demo mode" s) /\
  bookSlot config booking location s
    = Exited 2 (log_line error "Refusing to make booking in demo mode" s) /\
  cancelBooking config number s
    = Exited 2 (log_line error "Refusing to cancel booking in demo mode" s) /\
  forall env,
    calls (run_alone env (holdSlot config booking location) s) = [] /\
    calls (run_alone env (bookSlot config booking location) s) = [] /\
    calls (run_alone env (cancelBooking config number) s) = [].
Proof.
  intros Hdemo.
  destruct (dry_run_exits config booking location number s Hdemo) as [E1 [E2 E3]].
  repeat split; auto; unfold run_alone; rewrite ?E1, ?E2, ?E3; reflexivity.
Qed.

Lemma dry_run_refuses_witness :
  result (run_alone Samples.env_ok
            (holdSlot Samples.Tg.config_demo Samples.slot0 Samples.loc0)
            Samples.Tg.fresh) = ExitCode 2 /\
  calls (run_alone Samples.env_ok
           (holdSlot Samples.Tg.config_demo Samples.slot0 Samples.loc0)
           Samples.Tg.fresh) = [].
Proof.
  destruct (dry_run_refuses Samples.Tg.config_demo Samples.slot0 Samples.loc0 "OLD1"
              Samples.Tg.fresh eq_refl) as [E [_ [_ H]]].
  split.
  - unfold run_alone. rewrite E. reflexivity.
  - apply (H Samples.env_ok).
Defined.

(** [src/Client/index.ts] has no dry-run mode: its Hold checks the latch
    and issues the request. *)
Lemma Client_holdSlot_requests config booking location s :
  Client.isHolded s = false ->
  exists k,
    Client.holdSlot config booking location s
    = Await (pool_request "/api/HoldSlot" POST
               (Client.headersTimeout (Client.appSettings config))
               (body_HoldSlot
                  {| hs_DateOfBirth := Client.dob (Client.personalInfo config);
                     hs_FirstName := Client.firstName (Client.personalInfo config);
                     hs_LastName := Client.lastName (Client.personalInfo config);
                     hs_Last4Ssn := Client.lastFourSSN (Client.personalInfo config);
                     hs_SlotId := SlotId booking |})) s k.
Proof.
  intros Hh. unfold Client.holdSlot, Client.requestApi, bind, gets, await.
  simpl. rewrite Hh. simpl. eexists. reflexivity.
Qed.

(** * Hold *)

(** C4.  In a run of Hold in which the response to the hold request is
    read and does not confirm the hold: Hold returns, [isBooked] and
    [isHolded] are both false afterwards, the queue is running, and neither
    the eligibility request nor the booking request of Book was issued. *)
Theorem failed_hold_resumes_polling config env booking location s :
  isBooked s = false ->
  hold_refused env ->
  hold_answered (calls (run_alone env (holdSlot config booking location) s)) = true ->
  let o := run_alone env (holdSlot config booking location) s in
  result o = Returned tt /\
  isBooked (final o) = false /\
  isHolded (final o) = false /\
  queue_isPaused (final o) = false /\
  ~ In "/api/Eligibility" (api_paths (calls o)) /\
  ~ In "/api/NewBooking" (api_paths (calls o)).
Proof.
  intros Hb Href. crank.
  destruct (demoOnly (appSettings config)); [nope|].
  crank. destruct (isHolded s) eqn:Hh; [nope|].
  crank. destruct (truthy (existingBookingConfirmationNumber s)); crank.
  - destruct (env 0%nat _ _) as [e|r]; crank; [nope|].
    destruct (statusCode r =? 200); crank; [|nope].
    destruct (env 1%nat _ _) as [e|r']; crank; [nope|].
    rewrite Href. crank. intros _.
    destruct (queue_isPaused s) eqn:?; crank; intuition (try congruence; try discriminate).
  - destruct (env 0%nat _ _) as [e|r']; crank; [nope|].
    rewrite Href. crank. intros _.
    destruct (queue_isPaused s) eqn:?; crank; intuition (try congruence; try discriminate).
Qed.

Lemma failed_hold_resumes_polling_witness :
  let o := run_alone Samples.env_not_held
             (holdSlot Samples.Tg.config0 Samples.slot0 Samples.loc0)
             (set_queue_isPaused true Samples.Tg.fresh) in
  result o = Returned tt /\
  isBooked (final o) = false /\
  isHolded (final o) = false /\
  queue_isPaused (final o) = false /\
  ~ In "/api/Eligibility" (api_paths (calls o)) /\
  ~ In "/api/NewBooking" (api_paths (calls o)).
Proof.
  apply (failed_hold_resumes_polling Samples.Tg.config0 Samples.env_not_held
           Samples.slot0 Samples.loc0 (set_queue_isPaused true Samples.Tg.fresh)).
  - reflexivity.
  - intros n res. reflexivity.
  - reflexivity.
Defined.

(** * Book *)

Lemma answers_env_of status ns bodies : answers (Samples.env_of status ns bodies).
Proof. intros n T c. destruct c; simpl; eexists; reflexivity. Qed.

Lemma append_assoc (a b c : string) : (a ++ b) ++ c = a ++ (b ++ c).
Proof. induction a as [|x a IH]; simpl; [reflexivity|rewrite IH; reflexivity]. Qed.

Lemma mentions_here pre sub post : mentions sub (pre ++ sub ++ post).
Proof. exists pre, post. reflexivity. Qed.

Lemma booked_message_mentions config booking location bookingInfo :
  mentions (bk_ConfirmationNumber (Booking bookingInfo))
           (booked_message config booking location bookingInfo).
Proof.
  unfold booked_message, join.
  match goal with
  | |- mentions ?c (?l1 ++ ?nl ++ (?lbl ++ ?c) ++ ?rest) =>
      exists (l1 ++ nl ++ lbl), rest
  end.
  rewrite !append_assoc. reflexivity.
Qed.

(** C5, as amended.  In a run of Book in which every call is answered and
    the booking request was issued and accepted (HTTP 200): [isBooked] is
    set; when the notifier is enabled exactly one important notification
    (a new message, not silent) is requested, and its text contains the
    confirmation number of the booking, and when it is disabled none is;
    the process ends with exit code 0; and an ended process takes no
    further step, so no probe is resumed or started afterwards.  (Without
    the condition on the notifier the claim fails: see
    [booked_without_notification].) *)
Theorem booked_then_notified_and_exit config env booking location s info :
  answers env ->
  booking_accepted env ->
  booking_confirmed env info ->
  In "/api/NewBooking"
     (api_paths (calls (run_alone env (bookSlot config booking location) s))) ->
  let o := run_alone env (bookSlot config booking location) s in
  isBooked (final o) = true /\
  result o = ExitCode 0 /\
  (if enable (webhook config)
   then exists c, filter is_important_notification (calls o) = [c] /\
                  mentions (bk_ConfirmationNumber (Booking info)) (notification_text c)
   else filter is_important_notification (calls o) = []) /\
  (forall others sys',
     ~ sys_step (entry config) outside
         (absorb (Exited 0 (final o) : Res TexasScheduler unit) others) sys').
Proof.
  intros Hans Hacc Hconf Hreq o.
  change (In "/api/NewBooking" (api_paths (calls o))) in Hreq.
  assert (Hfinal : forall (st : TexasScheduler) others sys',
             ~ sys_step (entry config) outside
                 (absorb (Exited 0 st : Res TexasScheduler unit) others) sys').
  { intros st others sys'. apply exited_is_final with (code := 0). reflexivity. }
  keep_text o Ho. revert Hreq.
  destruct (demoOnly (appSettings config)); crank_in Ho;
    [outcome o Ho; not_requested|].
  destruct (isBooked s); crank_in Ho; [outcome o Ho; not_requested|].
  answered Hans Ho res. answered Hans Ho ids.
  destruct ids as [|r0 rs]; crank_in Ho; [outcome o Ho; not_requested|].
  rewrite Hacc in Ho. crank_in Ho. rewrite Hconf in Ho. crank_in Ho.
  destruct (enable (webhook config)); crank_in Ho.
  - answered Hans Ho sent. answered Hans Ho resp.
    intros _. destruct resp as [code descr|msg]; crank_in Ho; outcome o Ho;
      (repeat split; auto;
       eexists; split; [reflexivity|apply booked_message_mentions]).
  - intros _. outcome o Ho. repeat split; auto.
Qed.

Lemma booking_accepted_env_of ns bodies :
  booking_accepted (Samples.env_of Samples.all_ok ns bodies).
Proof. intros n m timeout body. reflexivity. Qed.

Lemma booked_then_notified_and_exit_witness :
  let o := run_alone Samples.env_ok
             (bookSlot Samples.Tg.config_hook Samples.slot0 Samples.loc0)
             (set_isHolded true Samples.Tg.fresh) in
  isBooked (final o) = true /\
  result o = ExitCode 0 /\
  (exists c, filter is_important_notification (calls o) = [c] /\
             mentions "C123" (notification_text c)) /\
  (forall others sys',
     ~ sys_step (entry Samples.Tg.config_hook) outside
         (absorb (Exited 0 (final o) : Res TexasScheduler unit) others) sys').
Proof.
  apply (booked_then_notified_and_exit Samples.Tg.config_hook Samples.env_ok
           Samples.slot0 Samples.loc0 (set_isHolded true Samples.Tg.fresh)
           Samples.booked0).
  - apply answers_env_of.
  - apply booking_accepted_env_of.
  - intros n res. reflexivity.
  - simpl. right. left. reflexivity.
Defined.

(** C5 as stated fails: with the notifier disabled the booking succeeds
    and the process exits with code 0, but no notification is requested. *)
Lemma booked_without_notification :
  let o := run_alone Samples.env_ok
             (bookSlot Samples.Tg.config0 Samples.slot0 Samples.loc0)
             (set_isHolded true Samples.Tg.fresh) in
  In "/api/NewBooking" (api_paths (calls o)) /\
  isBooked (final o) = true /\
  result o = ExitCode 0 /\
  filter is_important_notification (calls o) = [] /\
  filter is_notifier_request (calls o) = [].
Proof.
  simpl. repeat split; auto.
Qed.

(** * The prober *)

Lemma ms_d_plain n : Z.abs n < exponent_form_from -> ms_d n = Some (n * 86400000).
Proof.
  intros H. unfold ms_d. apply Z.ltb_lt in H. rewrite H. reflexivity.
Qed.

Lemma ms_d_exponent n : exponent_form_from <= Z.abs n -> ms_d n = None.
Proof.
  intros H. unfold ms_d. apply Z.ltb_ge in H. rewrite H. reflexivity.
Qed.

Lemma filter_none {A : Type} (f : A -> bool) l :
  (forall x, f x = false) -> filter f l = [].
Proof.
  intros H. induction l as [|x l IH]; simpl; [reflexivity|]. rewrite H. exact IH.
Qed.

(** The filter of the Telegram-notifying client, for bounds that [ms]
    parses. *)
Lemma kept_dates_qualify config now dates date :
  Z.abs (fst (daysAround (location config))) < exponent_form_from ->
  Z.abs (snd (daysAround (location config))) < exponent_form_from ->
  In date (filter (in_daysAround config now) dates) <->
  In date dates /\
  qualifies (fst (daysAround (location config))) (snd (daysAround (location config)))
            now date.
Proof.
  intros Hlo Hhi.
  rewrite filter_In. unfold in_daysAround, qualifies.
  rewrite (ms_d_plain _ Hlo), (ms_d_plain _ Hhi). unfold lt_number, ge_number.
  split; intros [Hin Hq]; split; auto.
  - destruct (AvailabilityDate date) as [t|]; [|discriminate].
    apply andb_true_iff in Hq. destruct Hq as [Hq Hslots].
    apply andb_true_iff in Hq. destruct Hq as [Hh Hl].
    apply Z.ltb_lt in Hh. apply Z.geb_le in Hl. apply Nat.ltb_lt in Hslots.
    split.
    + exists t. split; [reflexivity|lia].
    + intros E. rewrite E in Hslots. simpl in Hslots. lia.
  - destruct Hq as [[t [Ht [Hl Hh]]] Hslots]. rewrite Ht.
    apply andb_true_iff. split; [apply andb_true_iff; split|].
    + apply Z.ltb_lt. lia.
    + apply Z.geb_le. lia.
    + apply Nat.ltb_lt. destruct (AvailableTimeSlots date); [congruence|simpl; lia].
Qed.

(** A bound that [ms] does not parse: no date passes the filter. *)
Lemma unparsed_bound_keeps_nothing config now dates :
  exponent_form_from <= Z.abs (fst (daysAround (location config))) \/
  exponent_form_from <= Z.abs (snd (daysAround (location config))) ->
  filter (in_daysAround config now) dates = [].
Proof.
  intros H. apply filter_none. intros date. unfold in_daysAround.
  destruct (AvailabilityDate date) as [t|]; [|reflexivity].
  destruct H as [H|H]; rewrite (ms_d_exponent _ H); simpl;
    [rewrite andb_false_r|]; reflexivity.
Qed.

(** The filter of [src/Client/index.ts] has the upper bound only. *)
Lemma Client_prober_window config now dates date :
  Z.abs (Client.daysAround (Client.location config)) < exponent_form_from ->
  In date (filter (Client.in_daysAround config now) dates) <->
  In date dates /\
  (exists t, AvailabilityDate date = Some t /\
             t - now < Client.daysAround (Client.location config) * 86400000) /\
  AvailableTimeSlots date <> [].
Proof.
  intros Hhi.
  rewrite filter_In. unfold Client.in_daysAround.
  rewrite (ms_d_plain _ Hhi). unfold lt_number.
  split; intros [Hin Hq]; split; auto.
  - destruct (AvailabilityDate date) as [t|]; [|discriminate].
    apply andb_true_iff in Hq. destruct Hq as [Hh Hslots].
    apply Z.ltb_lt in Hh. apply Nat.ltb_lt in Hslots.
    split.
    + exists t. split; [reflexivity|lia].
    + intros E. rewrite E in Hslots. simpl in Hslots. lia.
  - destruct Hq as [[t [Ht Hh]] Hslots]. rewrite Ht.
    apply andb_true_iff. split.
    + apply Z.ltb_lt. lia.
    + apply Nat.ltb_lt. destruct (AvailableTimeSlots date); [congruence|simpl; lia].
Qed.

Lemma Client_unparsed_bound_keeps_nothing config now dates :
  exponent_form_from <= Z.abs (Client.daysAround (Client.location config)) ->
  filter (Client.in_daysAround config now) dates = [].
Proof.
  intros H. apply filter_none. intros date. unfold Client.in_daysAround.
  destruct (AvailabilityDate date) as [t|]; [|reflexivity].
  rewrite (ms_d_exponent _ H). reflexivity.
Qed.

(** The same unfolding for the client of [src/Client/index.ts]. *)
Ltac crank_cl_in H :=
  cbv beta delta
    [run_alone bind try_catch ret gets modify await
     process_exit throw out_of_fuel first_of spawn
     Client.holdSlot Client.bookSlot Client.cancelBooking Client.requestApi
     Client.getResponseId Client.checkExistBooking Client.requestAvaliableLocation
     Client.getLocationDates Client.run Client.sendWebhook
     Client.queue_start_if_paused Client.queue_pause_unless_paused
     Client.log_info Client.log_warn Client.log_error api_paths
     ClientSpec.dates_request ClientSpec.booking_request ClientSpec.cancel_request] in H;
  simpl in H.

Lemma filter_head_true {A : Type} (f : A -> bool) l x rest :
  filter f l = x :: rest -> f x = true.
Proof.
  intros E. assert (Hin : In x (filter f l)) by (rewrite E; left; reflexivity).
  apply filter_In in Hin. tauto.
Qed.

Lemma in_daysAround_slots config now date :
  in_daysAround config now date = true ->
  exists slot slots, AvailableTimeSlots date = slot :: slots.
Proof.
  unfold in_daysAround. destruct (AvailabilityDate date); [|discriminate].
  intros H. apply andb_true_iff in H. destruct H as [_ H].
  destruct (AvailableTimeSlots date) as [|slot slots]; [discriminate|eauto].
Qed.

Lemma Client_in_daysAround_slots config now date :
  Client.in_daysAround config now date = true ->
  exists slot slots, AvailableTimeSlots date = slot :: slots.
Proof.
  unfold Client.in_daysAround. destruct (AvailabilityDate date); [|discriminate].
  intros H. apply andb_true_iff in H. destruct H as [_ H].
  destruct (AvailableTimeSlots date) as [|slot slots]; [discriminate|eauto].
Qed.

(** The prober acts on the dates its filter keeps: on none of them it
    starts nothing and leaves the object alone; otherwise it pauses the
    queue and the candidate is the first slot of the first date kept. *)
Lemma prober_acts_on_kept config (env : Env) location s res response :
  env 0%nat _ (dates_request config location) = Replied res ->
  env 1%nat _ (body_json LocationDates res) = Replied response ->
  let o := run_alone env (getLocationDates config location) s in
  match filter (in_daysAround config (clock s)) (LocationAvailabilityDates response) with
  | [] => detached o = [] /\ final o = s
  | date0 :: _ =>
      exists slot,
        hd_error (AvailableTimeSlots date0) = Some slot /\
        queue_isPaused (final o) = true /\
        if demoOnly (appSettings config) then detached o = []
        else exists s', detached o = [holdSlot config slot location s']
  end.
Proof.
  intros H0 H1. name_outcome o Ho.
  unfold dates_request in *.
  rewrite H0 in Ho. crank_in Ho. simpl in H1. rewrite H1 in Ho. crank_in Ho.
  destruct (filter _ _) as [|date0 others] eqn:Hf; crank_in Ho.
  - outcome o Ho. auto.
  - apply filter_head_true in Hf. apply in_daysAround_slots in Hf.
    destruct Hf as [slot [slots Hs]]. rewrite Hs in Ho. crank_in Ho.
    exists slot. rewrite Hs. split; [reflexivity|].
    destruct (demoOnly (appSettings config)) eqn:Hdemo; crank_in Ho.
    + destruct (queue_isPaused s) eqn:Hq; crank_in Ho; outcome o Ho; auto.
    + pose (st := log_line info (Name location ++ " is avaliable on " ++
                                  FormattedStartDateTime slot) s).
      destruct (queue_isPaused s) eqn:Hq; crank_in Ho;
        (destruct (isHolded s) eqn:Hh; crank_in Ho;
         [|destruct (truthy (existingBookingConfirmationNumber s)) eqn:Hn; crank_in Ho]);
        outcome o Ho; (split; [auto|]);
        [exists st|exists st|exists st
        |exists (set_queue_isPaused true st)
        |exists (set_queue_isPaused true st)
        |exists (set_queue_isPaused true st)];
        crank; rewrite Hdemo; crank; rewrite Hh; crank; try rewrite Hn; reflexivity.
Qed.

Lemma Client_prober_acts_on_kept config (env : Env) location s res response :
  env 0%nat _ (ClientSpec.dates_request config location) = Replied res ->
  env 1%nat _ (body_json LocationDates res) = Replied response ->
  let o := run_alone env (Client.getLocationDates config location) s in
  match filter (Client.in_daysAround config (Client.clock s))
               (LocationAvailabilityDates response) with
  | [] => detached o = [] /\ Client.queue_isPaused (final o) = Client.queue_isPaused s
  | date0 :: _ =>
      exists slot,
        hd_error (AvailableTimeSlots date0) = Some slot /\
        Client.queue_isPaused (final o) = true /\
        exists s', detached o = [Client.holdSlot config slot location s']
  end.
Proof.
  intros H0 H1. intros o. assert (Ho : o = o) by reflexivity.
  unfold o at 2 in Ho; clearbody o; crank_cl_in Ho.
  unfold ClientSpec.dates_request in *.
  rewrite H0 in Ho. crank_cl_in Ho. simpl in H1. rewrite H1 in Ho. crank_cl_in Ho.
  destruct (filter _ _) as [|date0 others] eqn:Hf; crank_cl_in Ho.
  - outcome o Ho. auto.
  - apply filter_head_true in Hf. apply Client_in_daysAround_slots in Hf.
    destruct Hf as [slot [slots Hs]]. rewrite Hs in Ho. crank_cl_in Ho.
    exists slot. rewrite Hs. split; [reflexivity|].
    pose (st := Client.log_line info (Name location ++ " is avaliable on " ++
                                       FormattedStartDateTime slot) s).
    destruct (Client.queue_isPaused s) eqn:Hq; crank_cl_in Ho;
      (destruct (Client.isHolded s) eqn:Hh; crank_cl_in Ho);
      outcome o Ho; (split; [auto|]);
      [exists st|exists st
      |exists (Client.set_queue_isPaused true st)
      |exists (Client.set_queue_isPaused true st)];
      unfold Client.holdSlot, Client.requestApi, bind, gets, await; simpl;
      rewrite Hh; reflexivity.
Qed.

(** C6, as amended.  The prober acts on the dates its filter keeps of the
    response: when it keeps none it starts nothing, and otherwise it
    pauses the queue and takes the first slot of the first date kept (and,
    outside dry-run mode, starts Hold for it).  For a window
    [daysAround = (lo, hi)] of whole numbers of days below 1e21 in
    magnitude, the dates kept are exactly those of the response that lie at
    least [lo] and less than [hi] days after now and have at least one time
    slot.  From 1e21 on the bound is printed in exponent form, which [ms]
    does not parse, and no date is kept.  In [src/Client/index.ts] the
    window has an upper bound only: the dates kept are those less than
    [daysAround] days after now, however far in the past, with at least
    one slot.  (So the claim fails for large bounds: see
    [far_bound_drops_every_date].) *)
Theorem prober_window
    config (env : Env) location s res response
    cconfig (cenv : Env) clocation cs cres cresponse :
  env 0%nat _ (dates_request config location) = Replied res ->
  env 1%nat _ (body_json LocationDates res) = Replied response ->
  cenv 0%nat _ (ClientSpec.dates_request cconfig clocation) = Replied cres ->
  cenv 1%nat _ (body_json LocationDates cres) = Replied cresponse ->
  let lo := fst (daysAround (TgClient.location config)) in
  let hi := snd (daysAround (TgClient.location config)) in
  let dates := LocationAvailabilityDates response in
  let kept := filter (in_daysAround config (clock s)) dates in
  let o := run_alone env (getLocationDates config location) s in
  let chi := Client.daysAround (Client.location cconfig) in
  let cdates := LocationAvailabilityDates cresponse in
  let ckept := filter (Client.in_daysAround cconfig (Client.clock cs)) cdates in
  let co := run_alone cenv (Client.getLocationDates cconfig clocation) cs in
  (match kept with
   | [] => detached o = [] /\ final o = s
   | date0 :: _ =>
       exists slot,
         hd_error (AvailableTimeSlots date0) = Some slot /\
         queue_isPaused (final o) = true /\
         if demoOnly (appSettings config) then detached o = []
         else exists s', detached o = [holdSlot config slot location s']
   end /\
   (Z.abs lo < exponent_form_from -> Z.abs hi < exponent_form_from ->
    forall date, In date kept <-> In date dates /\ qualifies lo hi (clock s) date) /\
   (exponent_form_from <= Z.abs lo \/ exponent_form_from <= Z.abs hi -> kept = [])) /\
  (match ckept with
   | [] => detached co = [] /\ Client.queue_isPaused (final co) = Client.queue_isPaused cs
   | date0 :: _ =>
       exists slot,
         hd_error (AvailableTimeSlots date0) = Some slot /\
         Client.queue_isPaused (final co) = true /\
         exists s', detached co = [Client.holdSlot cconfig slot clocation s']
   end /\
   (Z.abs chi < exponent_form_from ->
    forall date,
      In date ckept <->
      In date cdates /\
      (exists t, AvailabilityDate date = Some t /\
                 t - Client.clock cs < chi * 86400000) /\
      AvailableTimeSlots date <> []) /\
   (exponent_form_from <= Z.abs chi -> ckept = [])).
Proof.
  intros H0 H1 C0 C1 lo hi dates kept o chi cdates ckept co.
  split; split.
  - exact (prober_acts_on_kept config env location s res response H0 H1).
  - split.
    + intros Hlo Hhi date. apply kept_dates_qualify; assumption.
    + intros H. apply unparsed_bound_keeps_nothing. exact H.
  - exact (Client_prober_acts_on_kept cconfig cenv clocation cs cres cresponse C0 C1).
  - split.
    + intros Hhi date. apply Client_prober_window. exact Hhi.
    + intros H. apply Client_unparsed_bound_keeps_nothing. exact H.
Qed.

Lemma prober_window_witness :
  let o := run_alone Samples.env_ok
             (getLocationDates Samples.Tg.config0 Samples.loc0) Samples.Tg.fresh in
  let co := run_alone Samples.env_far
              (Client.getLocationDates Samples.Cl.config0 Samples.loc0)
              Samples.Cl.fresh in
  (queue_isPaused (final o) = true /\
   (exists s', detached o = [holdSlot Samples.Tg.config0 Samples.slot0 Samples.loc0 s']) /\
   (In Samples.date3 [Samples.date3] /\ qualifies 0 5 0 Samples.date3)) /\
  detached co = [].
Proof.
  destruct (prober_window
              Samples.Tg.config0 Samples.env_ok Samples.loc0 Samples.Tg.fresh
              {| statusCode := 200 |} {| LocationAvailabilityDates := [Samples.date3] |}
              Samples.Cl.config0 Samples.env_far Samples.loc0 Samples.Cl.fresh
              {| statusCode := 200 |} {| LocationAvailabilityDates := [Samples.date10] |}
              eq_refl eq_refl eq_refl eq_refl)
    as [[Hacts [Hkept _]] [Hcacts _]].
  split; [|exact (proj1 Hcacts)].
  destruct Hacts as [slot [Hslot [Hq Hd]]].
  injection Hslot as <-.
  split; [exact Hq|]. split; [exact Hd|].
  assert (Hlo : Z.abs (fst (daysAround (location Samples.Tg.config0)))
                < exponent_form_from) by reflexivity.
  assert (Hhi : Z.abs (snd (daysAround (location Samples.Tg.config0)))
                < exponent_form_from) by reflexivity.
  destruct (Hkept Hlo Hhi Samples.date3) as [Hin _].
  apply Hin. left. reflexivity.
Defined.

(** C6 as stated fails: with the window from today to 1e21 days ahead, a
    date three days away with an open slot lies in the window, and the
    prober keeps no date and starts nothing. *)
Lemma far_bound_drops_every_date :
  let config := MoreSamples.Tg.config_far_bound in
  let o := run_alone Samples.env_ok (getLocationDates config Samples.loc0)
                     Samples.Tg.fresh in
  qualifies (fst (daysAround (location config))) (snd (daysAround (location config)))
            (clock Samples.Tg.fresh) Samples.date3 /\
  filter (in_daysAround config (clock Samples.Tg.fresh)) [Samples.date3] = [] /\
  detached o = [] /\
  final o = Samples.Tg.fresh.
Proof.
  simpl. split; [|repeat split; reflexivity].
  split; [|discriminate].
  exists (3 * Samples.day). split; [reflexivity|].
  unfold exponent_form_from, Samples.day. lia.
Qed.

(** C7, as amended.  In the Telegram-notifying client a probe is rejected
    only when one of its two calls fails, and with that failure; answered,
    it returns the location with the response whether or not a date
    qualifies, and when none qualifies it leaves the object as it found it
    and hands nothing to Hold.  In [src/Client/index.ts] an answered probe
    returns [true] when a date qualifies and is rejected, with no reason,
    when none does.  (So the claim fails there: see
    [Client_probe_rejects_without_failure].) *)
Theorem probes_signal_no_candidate :
  (forall config env location s,
     let o := run_alone env (getLocationDates config location) s in
     match env 0%nat _ (dates_request config location) with
     | Failed e => result o = Rejected e
     | Replied res =>
         match env 1%nat _ (body_json LocationDates res) with
         | Failed e => result o = Rejected e
         | Replied response =>
             result o = Returned (location, response) /\
             match filter (in_daysAround config (clock s))
                          (LocationAvailabilityDates response) with
             | [] => detached o = [] /\ final o = s
             | _ :: _ =>
                 if demoOnly (appSettings config) then detached o = []
                 else exists child, detached o = [child]
             end
         end
     end) /\
  (forall config env location s,
     let o := run_alone env (Client.getLocationDates config location) s in
     match env 0%nat _ (ClientSpec.dates_request config location) with
     | Failed e => result o = Rejected e
     | Replied res =>
         match env 1%nat _ (body_json LocationDates res) with
         | Failed e => result o = Rejected e
         | Replied response =>
             match filter (Client.in_daysAround config (Client.clock s))
                          (LocationAvailabilityDates response) with
             | [] => result o = Rejected undefined_reason
             | _ :: _ => result o = Returned true
             end
         end
     end).
Proof.
  split; intros config env location s.
  {
  name_outcome o Ho. unfold dates_request.
  destruct (env 0%nat _ _) as [e|res]; crank_in Ho; [outcome o Ho; reflexivity|].
  destruct (env 1%nat _ _) as [e|response]; crank_in Ho; [outcome o Ho; reflexivity|].
  destruct (filter _ _) as [|date0 others] eqn:Hf; crank_in Ho.
  - outcome o Ho. auto.
  - apply filter_head_true in Hf. apply in_daysAround_slots in Hf.
    destruct Hf as [slot [slots Hs]]. rewrite Hs in Ho. crank_in Ho.
    destruct (demoOnly (appSettings config)); crank_in Ho.
    + destruct (queue_isPaused s); crank_in Ho; outcome o Ho; auto.
    + destruct (queue_isPaused s); crank_in Ho;
        (destruct (isHolded s); crank_in Ho; [outcome o Ho; eauto|]);
        (destruct (truthy (existingBookingConfirmationNumber s)); crank_in Ho;
         outcome o Ho; eauto).
}
  {
  intros o. assert (Ho : o = o) by reflexivity.
  unfold o at 2 in Ho; clearbody o; crank_cl_in Ho.
  unfold ClientSpec.dates_request.
  destruct (env 0%nat _ _) as [e|res]; crank_cl_in Ho; [outcome o Ho; reflexivity|].
  destruct (env 1%nat _ _) as [e|response]; crank_cl_in Ho; [outcome o Ho; reflexivity|].
  destruct (filter _ _) as [|date0 others] eqn:Hf; crank_cl_in Ho.
  - outcome o Ho. auto.
  - apply filter_head_true in Hf. apply Client_in_daysAround_slots in Hf.
    destruct Hf as [slot [slots Hs]]. rewrite Hs in Ho. crank_cl_in Ho.
    destruct (Client.queue_isPaused s); crank_cl_in Ho;
      (destruct (Client.isHolded s); crank_cl_in Ho; outcome o Ho; eauto).
}
Qed.

(** C7 as stated fails on [src/Client/index.ts]: every call is answered,
    no date qualifies, and the probe is rejected. *)
Lemma Client_probe_rejects_without_failure :
  answers Samples.env_far /\
  filter (Client.in_daysAround Samples.Cl.config0 (Client.clock Samples.Cl.fresh))
         [Samples.date10] = [] /\
  result (run_alone Samples.env_far
            (Client.getLocationDates Samples.Cl.config0 Samples.loc0)
            Samples.Cl.fresh)
  = Rejected undefined_reason.
Proof.
  split; [apply answers_env_of|]. split; reflexivity.
Qed.

(** * The notifier *)


(** More fuel changes nothing. *)
Lemma sendWebhook_fuel_enough config env n message important s :
  run_alone env (sendWebhook_fuel config (S (S n)) message important) s
  = run_alone env (sendWebhook config message important) s.
Proof.
  unfold sendWebhook. crank.
  destruct (env 0%nat _ _) as [e|res]; crank; [reflexivity|].
  destruct (env 1%nat _ _) as [e|[code descr|msg]]; crank; try reflexivity.
  destruct (important || (webhookStatusMessageId s <? 0)) eqn:Hnew; crank; [reflexivity|].
  destruct (env 2%nat _ _) as [e|res']; crank; [reflexivity|].
  destruct (env 3%nat _ _) as [e|[code' descr'|msg']]; crank; try reflexivity.
  destruct important; crank; reflexivity.
Qed.



(** * Startup *)

(** C9, as amended.  In the Telegram-notifying client, when a booking with
    a non-empty confirmation number exists at startup and the policy is
    to replace it, startup issues no cancellation and stores the number;
    Hold, run on the object as startup left it, first requests the
    cancellation of that number and, once it is accepted, the hold of the
    slot.  In [src/Client/index.ts] the cancellation is requested during
    startup, right after the lookup of the existing booking.  (So the claim
    fails there: see [Client_cancels_at_startup].) *)
Theorem existing_booking_is_cancelled_on_hold
    config (env env' : Env) b0 others s booking location
    cconfig (cenv : Env) cb0 cothers cs cres :
  cancelIfExist (appSettings config) = true ->
  demoOnly (appSettings config) = false ->
  truthy (ConfirmationNumber b0) = true ->
  isHolded s = false ->
  answers env ->
  bookings_found env (b0 :: others) ->
  cancel_accepted env' ->
  Client.cancelIfExist (Client.appSettings cconfig) = true ->
  cenv 0%nat _ (ClientSpec.booking_request cconfig) = Replied cres ->
  cenv 1%nat _ (body_json ExistBookings cres) = Replied (cb0 :: cothers) ->
  let startup := run_alone env (run config (ret tt)) s in
  let hold := run_alone env' (holdSlot config booking location) (final startup) in
  (~ In "/api/CancelBooking" (api_paths (calls startup)) /\
   existingBookingConfirmationNumber (final startup) = ConfirmationNumber b0 /\
   hd_error (calls hold)
     = Some (some_call (cancel_request config (ConfirmationNumber b0))) /\
   nth_error (calls hold) 1 = Some (some_call (hold_request config booking))) /\
  nth_error (calls (run_alone cenv (Client.run cconfig (ret tt)) cs)) 2
    = Some (some_call (ClientSpec.cancel_request cconfig (ConfirmationNumber cb0))).
Proof.
  intros Hreplace Hdemo Hnum Hheld Hans Hfound Hacc Hcreplace H0 H1 startup hold.
  split.
  - assert (Hhold : forall st,
               existingBookingConfirmationNumber st = ConfirmationNumber b0 ->
               isHolded st = false ->
               let hold := run_alone env' (holdSlot config booking location) st in
               hd_error (calls hold)
                 = Some (some_call (cancel_request config (ConfirmationNumber b0))) /\
               nth_error (calls hold) 1
                 = Some (some_call (hold_request config booking))).
    { intros st Hst Hh. name_outcome hold0 Ho.
      rewrite Hdemo in Ho. crank_in Ho. rewrite Hh in Ho. crank_in Ho.
      rewrite Hst, Hnum in Ho. crank_in Ho.
      unfold cancel_request, hold_request.
      rewrite Hacc in Ho. crank_in Ho. outcome hold0 Ho. split; reflexivity. }
    subst hold. keep_text startup Ho. rewrite Hreplace in Ho.
    destruct (enable (webhook config)); crank_in Ho.
    + (* the starting message first, whatever becomes of it *)
      answered Hans Ho sent. answered Hans Ho resp.
      destruct resp as [code descr|msg]; crank_in Ho.
      * destruct (webhookStatusMessageId s <? 0); crank_in Ho.
        -- answered Hans Ho res. rewrite Hfound in Ho. crank_in Ho.
           answered Hans Ho res2. answered Hans Ho locs.
           outcome startup Ho.
           split; [intros H; intuition discriminate|]. split; [reflexivity|].
           apply Hhold; auto.
        -- answered Hans Ho sent2. answered Hans Ho resp2.
           destruct resp2 as [code2 descr2|msg2]; crank_in Ho;
             answered Hans Ho res; rewrite Hfound in Ho; crank_in Ho;
             answered Hans Ho res2; answered Hans Ho locs;
             outcome startup Ho;
             (split; [intros H; intuition discriminate|]; split; [reflexivity|]);
             apply Hhold; auto.
      * destruct (webhookStatusMessageId s <? 0); crank_in Ho;
          answered Hans Ho res; rewrite Hfound in Ho; crank_in Ho;
          answered Hans Ho res2; answered Hans Ho locs;
          outcome startup Ho;
          (split; [intros H; intuition discriminate|]; split; [reflexivity|]);
          apply Hhold; auto.
    + answered Hans Ho res. rewrite Hfound in Ho. crank_in Ho.
      answered Hans Ho res2. answered Hans Ho locs.
      outcome startup Ho.
      split; [intros H; intuition discriminate|]. split; [reflexivity|].
      apply Hhold; auto.
  - clear startup hold.
    unfold ClientSpec.booking_request in H0. unfold ClientSpec.cancel_request.
    simpl in H1.
    name_run o Ho. crank_cl_in Ho. rewrite H0 in Ho. crank_cl_in Ho.
    rewrite H1 in Ho. crank_cl_in Ho. rewrite Hcreplace in Ho. crank_cl_in Ho.
    subst o. reflexivity.
Qed.

Lemma cancel_accepted_env_of ns bodies :
  cancel_accepted (Samples.env_of Samples.all_ok ns bodies).
Proof. intros n m timeout body. reflexivity. Qed.

Lemma existing_booking_is_cancelled_on_hold_witness :
  let startup := run_alone Samples.env_existing
                   (run Samples.Tg.config_hook (ret tt)) Samples.Tg.fresh in
  let hold := run_alone Samples.env_ok
                (holdSlot Samples.Tg.config_hook Samples.slot0 Samples.loc0)
                (final startup) in
  (~ In "/api/CancelBooking" (api_paths (calls startup)) /\
   existingBookingConfirmationNumber (final startup) = "OLD1" /\
   hd_error (calls hold)
     = Some (some_call (cancel_request Samples.Tg.config_hook "OLD1")) /\
   nth_error (calls hold) 1
     = Some (some_call (hold_request Samples.Tg.config_hook Samples.slot0))) /\
  nth_error (calls (run_alone Samples.env_existing
                      (Client.run Samples.Cl.config0 (ret tt)) Samples.Cl.fresh)) 2
    = Some (some_call (ClientSpec.cancel_request Samples.Cl.config0 "OLD1")).
Proof.
  apply (existing_booking_is_cancelled_on_hold
           Samples.Tg.config_hook Samples.env_existing Samples.env_ok
           Samples.existing0 [] Samples.Tg.fresh Samples.slot0 Samples.loc0
           Samples.Cl.config0 Samples.env_existing Samples.existing0 []
           Samples.Cl.fresh {| statusCode := 200 |}).
  - reflexivity.
  - reflexivity.
  - reflexivity.
  - reflexivity.
  - apply answers_env_of.
  - intros n res. reflexivity.
  - apply cancel_accepted_env_of.
  - reflexivity.
  - reflexivity.
  - reflexivity.
Defined.

(** C9 as stated fails on [src/Client/index.ts]: with a booking found and
    the policy to replace it, the cancellation is requested at startup. *)
Lemma Client_cancels_at_startup :
  Client.cancelIfExist (Client.appSettings Samples.Cl.config0) = true /\
  api_paths (calls (run_alone Samples.env_existing
                      (Client.run Samples.Cl.config0 (ret tt)) Samples.Cl.fresh))
  = ["/api/Booking"; "/api/CancelBooking"; "/api/AvailableLocation/"].
Proof. split; reflexivity. Qed.

(** An important report among other tasks: none of its steps touches the
    stored reference. *)
Lemma important_report_steps config message s :
  safe same_reference anything s (sendWebhook config message true s).
Proof.
  unfold sendWebhook, same_reference, anything. crank. split; [reflexivity|].
  intros [e|res] s1 H1; crank; [reflexivity|]. split; [reflexivity|].
  intros [e|[code descr|msg]] s2 H2; crank; auto.
Qed.

(** The stored reference after a report, and whether the report asked
    for a new silent message. *)
Lemma reference_after_report config env message important s :
  let o := run_alone env (sendWebhook config message important) s in
  let old := webhookStatusMessageId s in
  let refused := edit_fails env (edit_request config message old) in
  webhookStatusMessageId (final o)
  = (if important then old
     else if old <? 0 then
       match result o with
       | Returned (Some m) => wm_message_id m
       | _ => old
       end
     else if refused then
       match result o with
       | Returned (Some m) => wm_message_id m
       | _ => -2
       end
     else old) /\
  (important = false -> (old <? 0) = true \/ refused = true ->
   In (some_call (send_request config message true)) (calls o)).
Proof.
  intros o old refused. subst old refused. keep_text o Ho.
  unfold edit_fails, edit_request, send_request, telegram_url.
  destruct important; simpl in *.
  - split; [|discriminate].
    destruct (env 0%nat _ _) as [e|res]; crank_in Ho; [outcome o Ho; reflexivity|].
    destruct (env 1%nat _ _) as [e|[code descr|msg]]; crank_in Ho;
      outcome o Ho; reflexivity.
  - destruct (webhookStatusMessageId s <? 0) eqn:Hid; simpl in *.
    + destruct (env 0%nat _ _) as [e|res]; crank_in Ho; [outcome o Ho; auto|].
      destruct (env 1%nat _ _) as [e|[code descr|msg]]; crank_in Ho;
        outcome o Ho; auto.
    + destruct (env 0%nat _ _) as [e|res]; crank_in Ho;
        [outcome o Ho; split; [reflexivity|intros _ [H|H]; discriminate H]|].
      destruct (env 1%nat _ _) as [e|[code descr|msg]]; crank_in Ho;
        [outcome o Ho; split; [reflexivity|intros _ [H|H]; discriminate H]
        |
        |outcome o Ho; split; [reflexivity|intros _ [H|H]; discriminate H]].
      destruct (env 2%nat _ _) as [e|res']; crank_in Ho; [outcome o Ho; auto|].
      destruct (env 3%nat _ _) as [e|[code' descr'|msg']]; crank_in Ho;
        outcome o Ho; auto.
Qed.

(** C10, as amended.  An important report leaves the stored reference as
    it was, at its end and, run among other tasks, at each of its steps.
    Whatever the report, the reference afterwards is determined as
    follows.  It is the one before when the report is important, and also
    when a reference is stored and its edit is not refused.  When no
    reference is stored, an unimportant report sends a new silent message
    and the reference becomes the identifier of that message if it is
    returned, and stays as it was otherwise.  When a reference is stored
    and its edit is refused, a new silent message is sent and the
    reference becomes the identifier of that message if it is returned,
    and -2 otherwise.  So the reference changes only in an unimportant
    report, and then only by a new silent message that was sent and
    returned, or by a refused edit.  (That only a successful send changes
    it fails: see [refused_edit_changes_reference].) *)
Theorem important_reports_keep_reference config env message important s :
  let o := run_alone env (sendWebhook config message important) s in
  let old := webhookStatusMessageId s in
  let refused := edit_fails env (edit_request config message old) in
  webhookStatusMessageId (final (run_alone env (sendWebhook config message true) s))
    = old /\
  safe same_reference anything s (sendWebhook config message true s) /\
  webhookStatusMessageId (final o)
  = (if important then old
     else if old <? 0 then
       match result o with
       | Returned (Some m) => wm_message_id m
       | _ => old
       end
     else if refused then
       match result o with
       | Returned (Some m) => wm_message_id m
       | _ => -2
       end
     else old) /\
  (webhookStatusMessageId (final o) = old \/
   important = false /\
   ((0 <= old /\ refused = true /\ webhookStatusMessageId (final o) = -2) \/
    exists m, result o = Returned (Some m) /\
              webhookStatusMessageId (final o) = wm_message_id m /\
              (old < 0 \/ refused = true) /\
              In (some_call (send_request config message true)) (calls o))).
Proof.
  intros o old refused.
  destruct (reference_after_report config env message true s) as [Himp _].
  destruct (reference_after_report config env message important s) as [Hafter Hsent].
  cbv zeta in Himp, Hafter, Hsent. fold o old refused in Hafter, Hsent. fold old in Himp.
  split; [exact Himp|]. split; [apply important_report_steps|].
  split; [exact Hafter|].
  rewrite Hafter.
  destruct important; [left; reflexivity|].
  destruct (old <? 0) eqn:Hid.
  - apply Z.ltb_lt in Hid.
    destruct (result o) as [[m|]| | |] eqn:Hres; auto.
    right. split; [reflexivity|]. right. exists m.
    split; [reflexivity|]. split; [reflexivity|]. split; [auto|].
    apply Hsent; auto.
  - apply Z.ltb_ge in Hid.
    destruct refused eqn:Href; [|left; reflexivity].
    right. split; [reflexivity|].
    destruct (result o) as [[m|]| | |] eqn:Hres; auto.
    right. exists m. split; [reflexivity|]. split; [reflexivity|]. split; [auto|].
    apply Hsent; auto.
Qed.

(** C10 as stated fails: the edit and the new message are both refused, no
    send succeeds, and the stored reference has changed from 7 to -2. *)
Lemma refused_edit_changes_reference :
  let o := run_alone Samples.env_refused
             (sendWebhook Samples.Tg.config_hook "status" false)
             Samples.Tg.with_reference in
  webhookStatusMessageId Samples.Tg.with_reference = 7 /\
  result o = Returned None /\
  webhookStatusMessageId (final o) = -2.
Proof.
  simpl. repeat split; reflexivity.
Qed.

(** * Further properties of the Telegram-notifying client *)

Import TgMore.

(** X1.  Hold does not wait for another Hold: when two Holds are started
    one after the other on an object with [isHolded] unset and nothing
    staged, before any answer has arrived, each has issued its own hold
    request, for its own slot, and the object is as it was. *)
Theorem overlapping_holds_both_request config b1 l1 b2 l2 s :
  demoOnly (appSettings config) = false ->
  isHolded s = false ->
  truthy (existingBookingConfirmationNumber s) = false ->
  let sys1 := absorb (holdSlot config b1 l1 s) [] in
  let sys2 := absorb (holdSlot config b2 l2 (shared sys1)) (tasks sys1) in
  reachable (entry config) outside (start s) sys2 /\
  shared sys2 = s /\
  exited sys2 = None /\
  exists t1 t2,
    tasks sys2 = [t1; t2] /\
    awaits_hold config b1 s t1 /\ awaits_hold config b2 s t2.
Proof.
  intros Hdemo Hheld Hnone sys1 sys2.
  assert (E : forall b l,
             exists k, holdSlot config b l s = Await (hold_request config b) s k).
  { intros b l. unfold hold_request. crank. rewrite Hdemo. crank.
    rewrite Hheld. crank. rewrite Hnone. crank. eexists. reflexivity. }
  destruct (E b1 l1) as [k1 E1]. destruct (E b2 l2) as [k2 E2].
  assert (S1 : sys1 = {| shared := s;
                         tasks := [any_task (Await (hold_request config b1) s k1)];
                         exited := None |}).
  { unfold sys1. rewrite E1. reflexivity. }
  assert (S2 : sys2 = {| shared := s;
                         tasks := [any_task (Await (hold_request config b1) s k1);
                                   any_task (Await (hold_request config b2) s k2)];
                         exited := None |}).
  { unfold sys2. rewrite S1. simpl. rewrite E2. reflexivity. }
  split.
  - unfold sys2.
    apply reachable_start with (p := holdSlot config b2 l2).
    + unfold sys1.
      apply reachable_start with (sys := start s) (p := holdSlot config b1 l1).
      * apply reach_here.
      * reflexivity.
      * apply entry_hold.
    + rewrite S1. reflexivity.
    + apply entry_hold.
  - rewrite S2. simpl. repeat split.
    eexists _, _. split; [reflexivity|].
    split; eexists _, _; reflexivity.
Qed.

Lemma overlapping_holds_both_request_witness :
  let sys1 := absorb (holdSlot Samples.Tg.config0 Samples.slot0 Samples.loc0
                               Samples.Tg.fresh) [] in
  let sys2 := absorb (holdSlot Samples.Tg.config0 MoreSamples.slot1 MoreSamples.loc1
                               (shared sys1)) (tasks sys1) in
  reachable (entry Samples.Tg.config0) outside (start Samples.Tg.fresh) sys2 /\
  shared sys2 = Samples.Tg.fresh /\
  exited sys2 = None /\
  exists t1 t2,
    tasks sys2 = [t1; t2] /\
    awaits_hold Samples.Tg.config0 Samples.slot0 Samples.Tg.fresh t1 /\
    awaits_hold Samples.Tg.config0 MoreSamples.slot1 Samples.Tg.fresh t2.
Proof.
  apply (overlapping_holds_both_request Samples.Tg.config0 Samples.slot0 Samples.loc0
           MoreSamples.slot1 MoreSamples.loc1 Samples.Tg.fresh); reflexivity.
Defined.

(** X2.  The check of [isBooked] at the head of Book does not keep two
    bookings from being requested: two overlapping Holds whose slots are
    both held reach a state in which both wait for the answer to a booking
    request, each for its own slot and location, with [isBooked] still
    unset. *)
Theorem overlapping_holds_both_book config b1 l1 b2 l2 s :
  demoOnly (appSettings config) = false ->
  isHolded s = false ->
  isBooked s = false ->
  truthy (existingBookingConfirmationNumber s) = false ->
  exists sys,
    reachable (entry config) outside (start s) sys /\
    exited sys = None /\
    isHolded (shared sys) = true /\
    isBooked (shared sys) = false /\
    exists t1 t2,
      tasks sys = [t1; t2] /\ awaits_booking b1 l1 t1 /\ awaits_booking b2 l2 t2.
Proof.
  intros Hdemo Hheld Hbooked Hnone.
  destruct config as [[ws dem cie itv hto] wh pi loc].
  destruct s as [al ref bk hd qp ex ck co].
  simpl in Hdemo, Hheld, Hbooked, Hnone. subst dem hd bk.
  destruct ex as [|a ex]; [clear Hnone|discriminate Hnone].
  match goal with
  | |- exists sys, reachable (entry ?config) _ (start ?s) _ /\ _ =>
      pose (sys1 := absorb (holdSlot config b1 l1 s) []);
      pose (sys2 := absorb (holdSlot config b2 l2 (shared sys1)) (tasks sys1));
      exists (Nat.iter 8 (resume_head (Samples.env_ok 0%nat)) sys2)
  end.
  split.
  - simpl Nat.iter. do 8 apply reachable_resume_head.
    unfold sys2.
    apply reachable_start.
    + unfold sys1.
      match goal with
      | |- reachable _ _ (start ?s) _ => apply reachable_start with (sys := start s)
      end.
      * apply reach_here.
      * reflexivity.
      * apply entry_hold.
    + reflexivity.
    + apply entry_hold.
  - subst sys2 sys1.
    split; [reflexivity|]. split; [reflexivity|]. split; [reflexivity|].
    eexists _, _. split; [reflexivity|]. split; lazy; auto.
Qed.

Lemma overlapping_holds_both_book_witness :
  exists sys,
    reachable (entry Samples.Tg.config0) outside (start Samples.Tg.fresh) sys /\
    exited sys = None /\
    isHolded (shared sys) = true /\
    isBooked (shared sys) = false /\
    exists t1 t2,
      tasks sys = [t1; t2] /\
      awaits_booking Samples.slot0 Samples.loc0 t1 /\
      awaits_booking MoreSamples.slot1 MoreSamples.loc1 t2.
Proof.
  apply (overlapping_holds_both_book Samples.Tg.config0 Samples.slot0 Samples.loc0
           MoreSamples.slot1 MoreSamples.loc1 Samples.Tg.fresh); reflexivity.
Defined.

(** Use what is known of the booking request. *)
Ltac refused Href Ho code :=
  match type of Ho with
  | context [?env ?n Response (pool_request "/api/NewBooking" ?m ?t ?b)] =>
      let E := fresh "E" in
      let Hc := fresh "Hcode" in
      destruct (Href n m t b) as [code [E Hc]]; rewrite E in Ho; clear E;
      crank_in Ho;
      let Hn := fresh "Hn" in
      assert (Hn : (code =? 200) = false) by (apply Z.eqb_neq; exact Hc);
      rewrite Hn in Ho; clear Hn; crank_in Ho
  end.

Lemma booking_refused_sample : booking_refused MoreSamples.env_booking_refused.
Proof. intros n m timeout body. exists 500. split; [reflexivity|discriminate]. Qed.

(** X3.  In a run of Book in which every call is answered and the booking
    request was issued and answered with a status other than 200: Book
    returns, [isBooked] stays unset, [isHolded] is left as it was, the
    queue is running afterwards, and the notifier is not asked anything. *)
Theorem refused_booking_resumes_polling config env booking location s :
  answers env ->
  booking_refused env ->
  In "/api/NewBooking"
     (api_paths (calls (run_alone env (bookSlot config booking location) s))) ->
  let o := run_alone env (bookSlot config booking location) s in
  result o = Returned tt /\
  isBooked (final o) = false /\
  isHolded (final o) = isHolded s /\
  queue_isPaused (final o) = false /\
  filter is_notifier_request (calls o) = [].
Proof.
  intros Hans Href Hreq o.
  change (In "/api/NewBooking" (api_paths (calls o))) in Hreq.
  keep_text o Ho. revert Hreq.
  destruct (demoOnly (appSettings config)); crank_in Ho;
    [outcome o Ho; not_requested|].
  destruct (isBooked s) eqn:Hb; crank_in Ho; [outcome o Ho; not_requested|].
  answered Hans Ho res. answered Hans Ho ids.
  destruct ids as [|r0 rs]; crank_in Ho; [outcome o Ho; not_requested|].
  refused Href Ho code.
  destruct (queue_isPaused s) eqn:Hq; crank_in Ho;
    answered Hans Ho txt; intros _; outcome o Ho; auto.
Qed.

Lemma refused_booking_resumes_polling_witness :
  let o := run_alone MoreSamples.env_booking_refused
             (bookSlot Samples.Tg.config_hook Samples.slot0 Samples.loc0)
             (set_isHolded true MoreSamples.Tg.paused) in
  result o = Returned tt /\
  isBooked (final o) = false /\
  isHolded (final o) = true /\
  queue_isPaused (final o) = false /\
  filter is_notifier_request (calls o) = [].
Proof.
  apply (refused_booking_resumes_polling Samples.Tg.config_hook
           MoreSamples.env_booking_refused Samples.slot0 Samples.loc0
           (set_isHolded true MoreSamples.Tg.paused)).
  - apply answers_env_of.
  - apply booking_refused_sample.
  - simpl. right. left. reflexivity.
Defined.

(** X4.  Once a hold has been confirmed, [isHolded] stays set although
    the booking that follows is refused, and every later Hold, for
    whatever slot, returns at once: no request, the object untouched. *)
Theorem confirmed_hold_is_never_repeated
    config env env' booking location booking' location' s :
  demoOnly (appSettings config) = false ->
  isHolded s = false ->
  isBooked s = false ->
  truthy (existingBookingConfirmationNumber s) = false ->
  answers env ->
  hold_confirmed env ->
  booking_refused env ->
  let o := run_alone env (holdSlot config booking location) s in
  let o' := run_alone env' (holdSlot config booking' location') (final o) in
  isHolded (final o) = true /\
  isBooked (final o) = false /\
  (result o = Returned tt \/ exists e, result o = Rejected e) /\
  calls o' = [] /\ result o' = Returned tt /\ final o' = final o.
Proof.
  intros Hdemo Hheld Hbooked Hnone Hans Hconf Href o o'.
  assert (Hlater : forall st, isHolded st = true ->
             let o' := run_alone env' (holdSlot config booking' location') st in
             calls o' = [] /\ result o' = Returned tt /\ final o' = st).
  { intros st Hst. crank. rewrite Hdemo. crank. rewrite Hst. crank. auto. }
  assert (Hfirst : isHolded (final o) = true /\ isBooked (final o) = false /\
                   (result o = Returned tt \/ exists e, result o = Rejected e)).
  { clear o'. keep_text o Ho.
    rewrite Hdemo in Ho. crank_in Ho. rewrite Hheld in Ho. crank_in Ho.
    rewrite Hnone in Ho. crank_in Ho.
    answered Hans Ho res. rewrite Hconf in Ho. crank_in Ho.
    rewrite Hbooked in Ho. crank_in Ho.
    answered Hans Ho res2. answered Hans Ho ids.
    destruct ids as [|r0 rs]; crank_in Ho; [outcome o Ho; eauto|].
    refused Href Ho code.
    destruct (queue_isPaused s); crank_in Ho;
      answered Hans Ho txt; outcome o Ho; auto. }
  destruct Hfirst as [H1 [H2 H3]]. repeat split; auto; apply Hlater; exact H1.
Qed.

Lemma confirmed_hold_is_never_repeated_witness :
  let o := run_alone MoreSamples.env_booking_refused
             (holdSlot Samples.Tg.config0 Samples.slot0 Samples.loc0) Samples.Tg.fresh in
  let o' := run_alone Samples.env_ok
              (holdSlot Samples.Tg.config0 MoreSamples.slot1 MoreSamples.loc1) (final o) in
  isHolded (final o) = true /\
  isBooked (final o) = false /\
  (result o = Returned tt \/ exists e, result o = Rejected e) /\
  calls o' = [] /\ result o' = Returned tt /\ final o' = final o.
Proof.
  apply (confirmed_hold_is_never_repeated Samples.Tg.config0
           MoreSamples.env_booking_refused Samples.env_ok
           Samples.slot0 Samples.loc0 MoreSamples.slot1 MoreSamples.loc1 Samples.Tg.fresh).
  - reflexivity.
  - reflexivity.
  - reflexivity.
  - reflexivity.
  - apply answers_env_of.
  - intros n res. reflexivity.
  - apply booking_refused_sample.
Defined.

(** X5.  The staged confirmation number is not cleared by its
    cancellation: after a Hold that had the staged booking cancelled and
    then failed to hold the slot, the next Hold requests the cancellation
    of the same number again. *)
Theorem staged_cancellation_is_repeated
    config env env' booking location booking' location' s :
  demoOnly (appSettings config) = false ->
  isHolded s = false ->
  truthy (existingBookingConfirmationNumber s) = true ->
  answers env ->
  cancel_accepted env ->
  hold_refused env ->
  let o := run_alone env (holdSlot config booking location) s in
  let o' := run_alone env' (holdSlot config booking' location') (final o) in
  result o = Returned tt /\
  api_paths (calls o) = ["/api/CancelBooking"; "/api/HoldSlot"] /\
  existingBookingConfirmationNumber (final o) = existingBookingConfirmationNumber s /\
  hd_error (calls o')
    = Some (some_call (cancel_request config (existingBookingConfirmationNumber s))).
Proof.
  intros Hdemo Hheld Hstaged Hans Hacc Href o o'.
  assert (Hlater : forall st,
             isHolded st = false ->
             existingBookingConfirmationNumber st = existingBookingConfirmationNumber s ->
             hd_error (calls (run_alone env' (holdSlot config booking' location') st))
             = Some (some_call
                       (cancel_request config (existingBookingConfirmationNumber s)))).
  { intros st Hst Hnum. unfold cancel_request. crank. rewrite Hdemo. crank.
    rewrite Hst. crank. rewrite Hnum, Hstaged. crank.
    reflexivity. }
  assert (Hfirst : result o = Returned tt /\
                   api_paths (calls o) = ["/api/CancelBooking"; "/api/HoldSlot"] /\
                   existingBookingConfirmationNumber (final o)
                     = existingBookingConfirmationNumber s /\
                   isHolded (final o) = false).
  { clear o'. keep_text o Ho.
    rewrite Hdemo in Ho. crank_in Ho. rewrite Hheld in Ho. crank_in Ho.
    rewrite Hstaged in Ho. crank_in Ho.
    rewrite Hacc in Ho. crank_in Ho.
    answered Hans Ho res. rewrite Href in Ho. crank_in Ho.
    destruct (queue_isPaused s); crank_in Ho; outcome o Ho; auto. }
  destruct Hfirst as [H1 [H2 [H3 H4]]]. repeat split; auto.
  apply Hlater; auto.
Qed.

Lemma staged_cancellation_is_repeated_witness :
  let o := run_alone Samples.env_not_held
             (holdSlot Samples.Tg.config0 Samples.slot0 Samples.loc0)
             MoreSamples.Tg.staged in
  let o' := run_alone Samples.env_ok
              (holdSlot Samples.Tg.config0 MoreSamples.slot1 MoreSamples.loc1) (final o) in
  result o = Returned tt /\
  api_paths (calls o) = ["/api/CancelBooking"; "/api/HoldSlot"] /\
  existingBookingConfirmationNumber (final o) = "OLD1" /\
  hd_error (calls o') = Some (some_call (cancel_request Samples.Tg.config0 "OLD1")).
Proof.
  apply (staged_cancellation_is_repeated Samples.Tg.config0
           Samples.env_not_held Samples.env_ok
           Samples.slot0 Samples.loc0 MoreSamples.slot1 MoreSamples.loc1
           MoreSamples.Tg.staged).
  - reflexivity.
  - reflexivity.
  - reflexivity.
  - apply answers_env_of.
  - apply cancel_accepted_env_of.
  - intros n res. reflexivity.
Defined.

(** X6.  When the cancellation of the staged booking is answered with a
    status other than 200, Hold ends the process with exit code 0 and
    the cancellation is the only request made: no slot is held. *)
Theorem rejected_cancellation_ends_hold config (env : Env) booking location s res :
  demoOnly (appSettings config) = false ->
  isHolded s = false ->
  truthy (existingBookingConfirmationNumber s) = true ->
  env 0%nat _ (cancel_request config (existingBookingConfirmationNumber s))
    = Replied res ->
  statusCode res <> 200 ->
  let o := run_alone env (holdSlot config booking location) s in
  result o = ExitCode 0 /\
  api_paths (calls o) = ["/api/CancelBooking"] /\
  isHolded (final o) = false /\
  isBooked (final o) = isBooked s.
Proof.
  intros Hdemo Hheld Hstaged Hreply Hstatus o. keep_text o Ho.
  unfold cancel_request in Hreply.
  rewrite Hdemo in Ho. crank_in Ho. rewrite Hheld in Ho. crank_in Ho.
  rewrite Hstaged in Ho. crank_in Ho.
  rewrite Hreply in Ho. crank_in Ho.
  apply Z.eqb_neq in Hstatus. rewrite Hstatus in Ho. crank_in Ho.
  outcome o Ho. auto.
Qed.

Lemma rejected_cancellation_ends_hold_witness :
  let o := run_alone Samples.env_no_cancel
             (holdSlot Samples.Tg.config0 Samples.slot0 Samples.loc0)
             MoreSamples.Tg.staged in
  result o = ExitCode 0 /\
  api_paths (calls o) = ["/api/CancelBooking"] /\
  isHolded (final o) = false /\
  isBooked (final o) = false.
Proof.
  apply (rejected_cancellation_ends_hold Samples.Tg.config0 Samples.env_no_cancel
           Samples.slot0 Samples.loc0 MoreSamples.Tg.staged {| statusCode := 500 |}).
  - reflexivity.
  - reflexivity.
  - reflexivity.
  - reflexivity.
  - simpl. lia.
Defined.

(** X7.  When the eligibility lookup yields an empty list, Book is
    rejected with a type error (it reads [response[0].ResponseId]), no
    booking is requested, and the queue is left as it was, so a paused
    queue stays paused. *)
Theorem no_eligibility_no_booking config env booking location s :
  demoOnly (appSettings config) = false ->
  isBooked s = false ->
  answers env ->
  eligibility_found env [] ->
  let o := run_alone env (bookSlot config booking location) s in
  (exists what, result o = Rejected (TypeError what)) /\
  api_paths (calls o) = ["/api/Eligibility"] /\
  isBooked (final o) = false /\
  queue_isPaused (final o) = queue_isPaused s.
Proof.
  intros Hdemo Hbooked Hans Hnone o. keep_text o Ho.
  rewrite Hdemo in Ho. crank_in Ho. rewrite Hbooked in Ho. crank_in Ho.
  answered Hans Ho res. rewrite Hnone in Ho. crank_in Ho.
  outcome o Ho. eauto.
Qed.

Lemma no_eligibility_no_booking_witness :
  let o := run_alone MoreSamples.env_no_eligibility
             (bookSlot Samples.Tg.config0 Samples.slot0 Samples.loc0)
             (set_isHolded true MoreSamples.Tg.paused) in
  (exists what, result o = Rejected (TypeError what)) /\
  api_paths (calls o) = ["/api/Eligibility"] /\
  isBooked (final o) = false /\
  queue_isPaused (final o) = true.
Proof.
  apply (no_eligibility_no_booking Samples.Tg.config0 MoreSamples.env_no_eligibility
           Samples.slot0 Samples.loc0 (set_isHolded true MoreSamples.Tg.paused)).
  - reflexivity.
  - reflexivity.
  - apply answers_env_of.
  - intros n res. reflexivity.
Defined.

(** X8.  When the hold request itself fails, Hold is rejected with that
    failure; unlike after a refused hold, the queue is not restarted, the
    latches are untouched and Book is not reached. *)
Theorem unreachable_hold_leaves_queue_paused config env booking location s e :
  demoOnly (appSettings config) = false ->
  isHolded s = false ->
  cancel_accepted env ->
  request_fails env "/api/HoldSlot" e ->
  let o := run_alone env (holdSlot config booking location) s in
  result o = Rejected e /\
  queue_isPaused (final o) = queue_isPaused s /\
  isHolded (final o) = false /\
  isBooked (final o) = isBooked s /\
  ~ In "/api/Eligibility" (api_paths (calls o)).
Proof.
  intros Hdemo Hheld Hacc Hfail o. keep_text o Ho.
  rewrite Hdemo in Ho. crank_in Ho. rewrite Hheld in Ho. crank_in Ho.
  destruct (truthy (existingBookingConfirmationNumber s)); crank_in Ho.
  - rewrite Hacc in Ho. crank_in Ho.
    rewrite Hfail in Ho. crank_in Ho. outcome o Ho.
    repeat split; auto. intros H; intuition discriminate.
  - rewrite Hfail in Ho. crank_in Ho. outcome o Ho.
    repeat split; auto. intros H; intuition discriminate.
Qed.

Lemma unreachable_hold_leaves_queue_paused_witness :
  let o := run_alone MoreSamples.env_hold_down
             (holdSlot Samples.Tg.config0 Samples.slot0 Samples.loc0)
             MoreSamples.Tg.paused in
  result o = Rejected MoreSamples.reset /\
  queue_isPaused (final o) = true /\
  isHolded (final o) = false /\
  isBooked (final o) = false /\
  ~ In "/api/Eligibility" (api_paths (calls o)).
Proof.
  apply (unreachable_hold_leaves_queue_paused Samples.Tg.config0 MoreSamples.env_hold_down
           Samples.slot0 Samples.loc0 MoreSamples.Tg.paused MoreSamples.reset).
  - reflexivity.
  - reflexivity.
  - intros n m timeout body. reflexivity.
  - intros n m timeout body. reflexivity.
Defined.

(** Put to use what the case analysis has found out. *)
Ltac recall :=
  repeat match goal with
         | H : ?x = _ |- context [?x] => rewrite H
         end.

(** X9.  Whatever the answers, the requests Hold makes of the scheduling
    API are an initial part of: cancellation (only when a number is
    staged), hold, eligibility, booking, in this order; the eligibility
    lookup is only requested with [isHolded] set; and Hold never returns
    with [isBooked] newly set: that ends in [process.exit(0)] or in a
    rejection. *)
Theorem hold_requests_in_order config env booking location s :
  let o := run_alone env (holdSlot config booking location) s in
  (exists rest, hold_sequence s = (api_paths (calls o) ++ rest)%list) /\
  (isHolded (final o) = true \/ ~ In "/api/Eligibility" (api_paths (calls o))) /\
  (isBooked (final o) = isBooked s \/ result o = ExitCode 0 \/
   exists e, result o = Rejected e).
Proof.
  intros o. keep_text o Ho. unfold hold_sequence.
  explore Ho; subst o; simpl; recall; simpl;
    (split; [eexists; reflexivity|]);
    (split; [first [left; reflexivity|right; intros H; intuition discriminate]|]);
    eauto.
Qed.

Lemma or_default_nonzero x d : d <> 0 -> or_default x d <> 0.
Proof.
  intros Hd. unfold or_default. destruct x as [n|]; [|exact Hd].
  destruct (n =? 0) eqn:E; [exact Hd|]. apply Z.eqb_neq. exact E.
Qed.

(** X10.  Every booking payload that Book sends asks for a text message
    exactly when it carries a cell phone number, never has service type 0
    (an absent or zero [typeId] becomes 71), and names the location, the
    start time and the duration of the slot Book was called with, and the
    person of the configuration. *)
Theorem booking_payload_is_consistent config env booking location s p :
  In p (booking_bodies (calls (run_alone env (bookSlot config booking location) s))) ->
  bs_SendSms p = truthy (bs_CellPhone p) /\
  bs_ServiceTypeId p <> 0 /\
  bs_SiteId p = Id location /\
  bs_BookingDateTime p = StartDateTime booking /\
  bs_BookingDuration p = Duration booking /\
  bs_FirstName p = firstName (personalInfo config) /\
  bs_LastName p = lastName (personalInfo config).
Proof.
  name_run o Ho. unfold booking_bodies.
  assert (Hphone :
    match phoneNumber (personalInfo config) with
    | Some q => truthy q
    | None => false
    end
    = truthy match phoneNumber (personalInfo config) with
             | Some q => if truthy q then q else ""
             | None => ""
             end).
  { destruct (phoneNumber (personalInfo config)) as [q|]; [|reflexivity].
    destruct (truthy q) eqn:E; [rewrite E|]; reflexivity. }
  pose proof (or_default_nonzero (typeId (personalInfo config)) 71) as Htype.
  destruct (demoOnly (appSettings config)); crank_in Ho;
    [subst o; simpl; tauto|].
  destruct (isBooked s); crank_in Ho; [subst o; simpl; tauto|].
  destruct (env 0%nat _ _) as [e|res]; crank_in Ho; [subst o; simpl; tauto|].
  destruct (env 1%nat _ _) as [e|[|r0 rs]]; crank_in Ho; try (subst o; simpl; tauto).
  destruct (env 2%nat _ _) as [e|res2]; crank_in Ho.
  - subst o; simpl. intros [<-|[]]; simpl. repeat split; auto.
    apply Htype. discriminate.
  - destruct (statusCode res2 =? 200); crank_in Ho.
    + destruct (env 3%nat _ _) as [e|info]; crank_in Ho.
      * subst o; simpl. intros [<-|[]]; simpl. repeat split; auto.
        apply Htype. discriminate.
      * destruct (enable (webhook config)); crank_in Ho.
        -- destruct (env 4%nat _ _) as [e|sent]; crank_in Ho.
           ++ subst o; simpl. intros [<-|[]]; simpl. repeat split; auto.
              apply Htype. discriminate.
           ++ destruct (env 5%nat _ _) as [e|[code descr|msg]]; crank_in Ho;
                subst o; simpl; (intros [<-|[]]; simpl; repeat split; auto;
                                 apply Htype; discriminate).
        -- subst o; simpl. intros [<-|[]]; simpl. repeat split; auto.
           apply Htype. discriminate.
    + destruct (queue_isPaused s); crank_in Ho;
        (destruct (env 3%nat _ _) as [e|txt]; crank_in Ho;
         subst o; simpl; (intros [<-|[]]; simpl; repeat split; auto;
                          apply Htype; discriminate)).
Qed.

Lemma booking_payload_is_consistent_witness :
  exists p,
    booking_bodies (calls (run_alone Samples.env_ok
                             (bookSlot Samples.Tg.config0 Samples.slot0 Samples.loc0)
                             (set_isHolded true Samples.Tg.fresh))) = [p] /\
    bs_SendSms p = truthy (bs_CellPhone p) /\
    bs_ServiceTypeId p <> 0 /\
    bs_SiteId p = 1.
Proof.
  eexists. split; [reflexivity|].
  match goal with
  | |- bs_SendSms ?p = _ /\ _ =>
      destruct (booking_payload_is_consistent Samples.Tg.config0 Samples.env_ok
                  Samples.slot0 Samples.loc0 (set_isHolded true Samples.Tg.fresh) p)
        as [H1 [H2 [H3 _]]]
  end.
  - simpl. left. reflexivity.
  - split; [exact H1|]. split; [exact H2|exact H3].
Defined.

(** X11.  When the booking is accepted but the notifier cannot be
    reached, Book is rejected with the notifier's failure after
    [isBooked] has been set: the process is not ended and the queue is left
    as it was. *)
Theorem booking_outlives_unreachable_notifier
    config env booking location s info r0 rs e :
  demoOnly (appSettings config) = false ->
  enable (webhook config) = true ->
  isBooked s = false ->
  api_reachable env ->
  eligibility_found env (r0 :: rs) ->
  booking_accepted env ->
  booking_confirmed env info ->
  notifier_unreachable env e ->
  let o := run_alone env (bookSlot config booking location) s in
  result o = Rejected e /\
  isBooked (final o) = true /\
  queue_isPaused (final o) = queue_isPaused s /\
  api_paths (calls o) = ["/api/Eligibility"; "/api/NewBooking"] /\
  List.length (filter is_notifier_request (calls o)) = 1%nat.
Proof.
  intros Hdemo Hon Hb Hapi Hids Hacc Hconf Hdown. name_outcome o Ho.
  rewrite Hdemo in Ho. crank_in Ho. rewrite Hb in Ho. crank_in Ho.
  match type of Ho with
  | context [env ?n Response (pool_request ?p ?m ?t ?b)] =>
      let E := fresh "E" in
      destruct (Hapi n p m t b) as [res E]; rewrite E in Ho; clear E; crank_in Ho
  end.
  rewrite Hids in Ho. crank_in Ho.
  rewrite Hacc in Ho. crank_in Ho. rewrite Hconf in Ho. crank_in Ho.
  rewrite Hon in Ho. crank_in Ho. rewrite Hdown in Ho. crank_in Ho.
  subst o. simpl. auto.
Qed.

Lemma booking_outlives_unreachable_notifier_witness :
  let o := run_alone MoreSamples.env_notifier_down
             (bookSlot Samples.Tg.config_hook Samples.slot0 Samples.loc0)
             (set_isHolded true MoreSamples.Tg.paused) in
  result o = Rejected MoreSamples.reset /\
  isBooked (final o) = true /\
  queue_isPaused (final o) = true /\
  api_paths (calls o) = ["/api/Eligibility"; "/api/NewBooking"] /\
  List.length (filter is_notifier_request (calls o)) = 1%nat.
Proof.
  apply (booking_outlives_unreachable_notifier Samples.Tg.config_hook
           MoreSamples.env_notifier_down Samples.slot0 Samples.loc0
           (set_isHolded true MoreSamples.Tg.paused) Samples.booked0
           {| ResponseId := 7 |} [] MoreSamples.reset).
  - reflexivity.
  - reflexivity.
  - reflexivity.
  - intros n path m timeout body. eexists. reflexivity.
  - intros n res. reflexivity.
  - intros n m timeout body. reflexivity.
  - intros n res. reflexivity.
  - intros n url body. reflexivity.
Defined.

(** X12.  An answered probe with a qualifying date takes the first slot
    of the first qualifying date: the queue is paused afterwards and the
    latches are untouched; outside dry-run mode exactly one task is
    started, Hold for that slot at the probed location, on an object
    whose queue is paused already; in dry-run mode nothing is started. *)
Theorem probe_hands_first_slot_to_hold config (env : Env) location s res response date0 :
  env 0%nat _ (dates_request config location) = Replied res ->
  env 1%nat _ (body_json LocationDates res) = Replied response ->
  hd_error (filter (in_daysAround config (clock s))
                   (LocationAvailabilityDates response)) = Some date0 ->
  let o := run_alone env (getLocationDates config location) s in
  exists slot,
    hd_error (AvailableTimeSlots date0) = Some slot /\
    queue_isPaused (final o) = true /\
    isHolded (final o) = isHolded s /\
    isBooked (final o) = isBooked s /\
    calls o = [some_call (dates_request config location);
               some_call (body_json LocationDates res)] /\
    if demoOnly (appSettings config) then detached o = []
    else exists s', queue_isPaused s' = true /\
                    detached o = [holdSlot config slot location s'].
Proof.
  intros H0 H1 Hd. name_outcome o Ho.
  unfold dates_request in *.
  rewrite H0 in Ho. crank_in Ho. simpl in H1. rewrite H1 in Ho. crank_in Ho.
  destruct (filter _ _) as [|d others] eqn:Hf; [discriminate|].
  simpl in Hd. injection Hd as ->.
  apply filter_head_true in Hf. apply in_daysAround_slots in Hf.
  destruct Hf as [slot [slots Hs]]. rewrite Hs in Ho. crank_in Ho.
  exists slot. rewrite Hs. split; [reflexivity|].
  destruct (demoOnly (appSettings config)) eqn:Hdemo; crank_in Ho.
  - destruct (queue_isPaused s) eqn:Hq; crank_in Ho; outcome o Ho; auto 10.
  - pose (st := log_line info (Name location ++ " is avaliable on " ++
                                FormattedStartDateTime slot) s).
    destruct (queue_isPaused s) eqn:Hq; crank_in Ho;
      (destruct (isHolded s) eqn:Hh; crank_in Ho;
       [|destruct (truthy (existingBookingConfirmationNumber s)) eqn:Hn; crank_in Ho]);
      outcome o Ho; do 4 (split; [auto|]);
      [exists st|exists st|exists st
      |exists (set_queue_isPaused true st)
      |exists (set_queue_isPaused true st)
      |exists (set_queue_isPaused true st)];
      (split; [simpl; auto|]);
      crank; rewrite Hdemo; crank; rewrite Hh; crank; try rewrite Hn; reflexivity.
Qed.

Lemma probe_hands_first_slot_to_hold_witness :
  let o := run_alone Samples.env_ok
             (getLocationDates Samples.Tg.config0 Samples.loc0) Samples.Tg.fresh in
  exists slot,
    hd_error (AvailableTimeSlots Samples.date3) = Some slot /\
    queue_isPaused (final o) = true /\
    isHolded (final o) = false /\
    isBooked (final o) = false /\
    calls o = [some_call (dates_request Samples.Tg.config0 Samples.loc0);
               some_call (body_json LocationDates {| statusCode := 200 |})] /\
    exists s', queue_isPaused s' = true /\
               detached o = [holdSlot Samples.Tg.config0 slot Samples.loc0 s'].
Proof.
  apply (probe_hands_first_slot_to_hold Samples.Tg.config0 Samples.env_ok Samples.loc0
           Samples.Tg.fresh {| statusCode := 200 |}
           {| LocationAvailabilityDates := [Samples.date3] |} Samples.date3);
    reflexivity.
Defined.

(** X13.  When an unimportant report on an object without a stored
    reference had its message accepted, with a non-negative identifier,
    that identifier is the stored reference, and the next unimportant
    report starts with a request to edit that message. *)
Theorem silent_message_is_edited_next config env env' message message' s m :
  webhookStatusMessageId s < 0 ->
  0 <= wm_message_id m ->
  result (run_alone env (sendWebhook config message false) s) = Returned (Some m) ->
  let o := run_alone env (sendWebhook config message false) s in
  webhookStatusMessageId (final o) = wm_message_id m /\
  hd_error (calls (run_alone env' (sendWebhook config message' false) (final o)))
  = Some (some_call (edit_request config message' (wm_message_id m))).
Proof.
  intros Hnone Hid Hres o. change (result o = Returned (Some m)) in Hres.
  keep_text o Ho. apply Z.ltb_lt in Hnone. rewrite Hnone in Ho. crank_in Ho.
  assert (Hnext : forall st, webhookStatusMessageId st = wm_message_id m ->
            hd_error (calls (run_alone env' (sendWebhook config message' false) st))
            = Some (some_call (edit_request config message' (wm_message_id m)))).
  { intros st Hst. crank. rewrite Hst.
    assert (Hge : (wm_message_id m <? 0) = false) by (apply Z.ltb_ge; exact Hid).
    rewrite Hge. reflexivity. }
  destruct (env 0%nat _ _) as [e|res]; crank_in Ho; [subst o; discriminate|].
  destruct (env 1%nat _ _) as [e|[code descr|msg]]; crank_in Ho;
    subst o; simpl in Hres; try discriminate.
  injection Hres as ->. split; [reflexivity|]. apply Hnext. reflexivity.
Qed.

Lemma silent_message_is_edited_next_witness :
  let o := run_alone Samples.env_ok
             (sendWebhook Samples.Tg.config_hook "first" false) Samples.Tg.fresh in
  webhookStatusMessageId (final o) = 10 /\
  hd_error (calls (run_alone Samples.env_refused
                     (sendWebhook Samples.Tg.config_hook "second" false) (final o)))
  = Some (some_call (edit_request Samples.Tg.config_hook "second" 10)).
Proof.
  apply (silent_message_is_edited_next Samples.Tg.config_hook Samples.env_ok
           Samples.env_refused "first" "second" Samples.Tg.fresh
           {| wm_message_id := 10; wm_date := 0 |}).
  - reflexivity.
  - simpl. lia.
  - reflexivity.
Defined.

(** X14.  When every call is answered, a report returns: whatever the
    notifier says is no exception.  If it returns null and was
    unimportant, no reference is stored afterwards, so the next report
    sends a new message.  A report touches neither the latches nor the
    queue. *)
Theorem refused_report_returns_null config env message important s :
  answers env ->
  let o := run_alone env (sendWebhook config message important) s in
  exists r, result o = Returned r /\
            (r = None -> important = false -> webhookStatusMessageId (final o) < 0) /\
            isHolded (final o) = isHolded s /\ isBooked (final o) = isBooked s /\
            queue_isPaused (final o) = queue_isPaused s.
Proof.
  intros Hans. name_outcome o Ho.
  destruct important; simpl in *.
  - answered Hans Ho res. answered Hans Ho resp.
    destruct resp as [code descr|msg]; crank_in Ho; subst o; simpl; eexists;
      (split; [reflexivity|]); repeat split; congruence.
  - destruct (webhookStatusMessageId s <? 0) eqn:Hid; crank_in Ho.
    + apply Z.ltb_lt in Hid.
      answered Hans Ho res. answered Hans Ho resp.
      destruct resp as [code descr|msg]; crank_in Ho; subst o; simpl; eexists;
        (split; [reflexivity|]); repeat split; auto; congruence.
    + answered Hans Ho res. answered Hans Ho resp.
      destruct resp as [code descr|msg]; crank_in Ho.
      * answered Hans Ho res'. answered Hans Ho resp'.
        destruct resp' as [code' descr'|msg']; crank_in Ho; subst o; simpl; eexists;
          (split; [reflexivity|]); repeat split; auto; try congruence; lia.
      * subst o; simpl; eexists; (split; [reflexivity|]); repeat split; congruence.
Qed.

Lemma refused_report_returns_null_witness :
  let o := run_alone Samples.env_refused
             (sendWebhook Samples.Tg.config_hook "status" false)
             Samples.Tg.with_reference in
  exists r, result o = Returned r /\
            (r = None -> false = false -> webhookStatusMessageId (final o) < 0) /\
            isHolded (final o) = false /\ isBooked (final o) = false /\
            queue_isPaused (final o) = false.
Proof.
  apply (refused_report_returns_null Samples.Tg.config_hook Samples.env_refused
           "status" false Samples.Tg.with_reference).
  apply answers_env_of.
Defined.

(** The starting message, answered: whatever the notifier says. *)
Ltac started Hans Ho s :=
  let sent := fresh "sent" in
  let resp := fresh "resp" in
  answered Hans Ho sent; answered Hans Ho resp;
  destruct resp as [?code ?descr|?msg]; crank_in Ho;
  [destruct (webhookStatusMessageId s <? 0); crank_in Ho;
   [|let sent2 := fresh "sent" in
     let resp2 := fresh "resp" in
     answered Hans Ho sent2; answered Hans Ho resp2;
     destruct resp2 as [?code ?descr|?msg]; crank_in Ho]
  |destruct (webhookStatusMessageId s <? 0); crank_in Ho].

Ltac looked_up_with Hans Hfound Hshape Ho :=
  let res := fresh "res" in
  answered Hans Ho res; rewrite Hfound in Ho; crank_in Ho;
  match type of Hshape with
  | match ?found with _ => _ end =>
      destruct found as [|?b0 ?others]; crank_in Ho;
      [|rewrite Hshape in Ho; crank_in Ho]
  end.

(** X15.  Startup with every call answered, whatever the notifier says
    to the starting message, and with no existing booking or the policy
    to replace it: it makes two requests of the scheduling API, the
    booking lookup and the location search, and returns; the tracked
    locations are exactly the offered ones closer than [miles]; the
    confirmation number of the first booking found, if any, is staged;
    latches and queue are untouched. *)
Theorem startup_tracks_locations_in_range config env found all s :
  answers env ->
  bookings_found env found ->
  locations_found env all ->
  found = [] \/ cancelIfExist (appSettings config) = true ->
  let o := run_alone env (run config (ret tt)) s in
  result o = Returned tt /\
  api_paths (calls o) = ["/api/Booking"; "/api/AvailableLocation/"] /\
  (exists tracked,
     avaliableLocation (final o) = Some tracked /\
     forall loc, In loc tracked <->
                 In loc all /\ Distance loc < miles (location config)) /\
  existingBookingConfirmationNumber (final o)
  = match found with
    | [] => existingBookingConfirmationNumber s
    | b0 :: _ => ConfirmationNumber b0
    end /\
  isHolded (final o) = isHolded s /\ isBooked (final o) = isBooked s /\
  queue_isPaused (final o) = queue_isPaused s.
Proof.
  intros Hans Hfound Hall Hpolicy. name_outcome o Ho.
  assert (Hin : forall loc,
            In loc (filter (fun l => Distance l <? miles (location config)) all) <->
            In loc all /\ Distance loc < miles (location config)).
  { intros loc. rewrite filter_In, Z.ltb_lt. tauto. }
  assert (Hshape : match found with
                   | [] => True
                   | _ :: _ => cancelIfExist (appSettings config) = true
                   end).
  { destruct Hpolicy as [->|Hc]; [exact I|]. destruct found; auto. }
  clear Hpolicy.
  destruct (enable (webhook config)); crank_in Ho.
  - started Hans Ho s; looked_up_with Hans Hfound Hshape Ho;
      answered Hans Ho res2; rewrite Hall in Ho; crank_in Ho;
      subst o; simpl; (repeat split; auto); eexists; (split; [reflexivity|exact Hin]).
  - looked_up_with Hans Hfound Hshape Ho;
      answered Hans Ho res2; rewrite Hall in Ho; crank_in Ho;
      subst o; simpl; (repeat split; auto); eexists; (split; [reflexivity|exact Hin]).
Qed.

Lemma startup_tracks_locations_in_range_witness :
  let o := run_alone MoreSamples.env_two_locations
             (run Samples.Tg.config_hook (ret tt)) Samples.Tg.fresh in
  result o = Returned tt /\
  api_paths (calls o) = ["/api/Booking"; "/api/AvailableLocation/"] /\
  (exists tracked,
     avaliableLocation (final o) = Some tracked /\
     forall loc, In loc tracked <->
                 In loc [Samples.loc0; MoreSamples.loc1] /\ Distance loc < 10) /\
  existingBookingConfirmationNumber (final o) = "" /\
  isHolded (final o) = false /\ isBooked (final o) = false /\
  queue_isPaused (final o) = false.
Proof.
  apply (startup_tracks_locations_in_range Samples.Tg.config_hook
           MoreSamples.env_two_locations [] [Samples.loc0; MoreSamples.loc1]
           Samples.Tg.fresh).
  - apply answers_env_of.
  - intros n res. reflexivity.
  - intros n res. reflexivity.
  - left. reflexivity.
Defined.

(** X16.  Startup with every call answered, an existing booking and the
    policy to keep it: the process ends with exit code 0 after the booking
    lookup, its only request to the scheduling API; no location is
    tracked and nothing is staged. *)
Theorem startup_keeps_existing_booking config env b0 others s :
  answers env ->
  bookings_found env (b0 :: others) ->
  cancelIfExist (appSettings config) = false ->
  let o := run_alone env (run config (ret tt)) s in
  result o = ExitCode 0 /\
  api_paths (calls o) = ["/api/Booking"] /\
  avaliableLocation (final o) = avaliableLocation s /\
  existingBookingConfirmationNumber (final o) = existingBookingConfirmationNumber s.
Proof.
  intros Hans Hfound Hkeep. name_outcome o Ho. rewrite Hkeep in Ho.
  destruct (enable (webhook config)); crank_in Ho.
  - started Hans Ho s; answered Hans Ho res; rewrite Hfound in Ho; crank_in Ho;
      subst o; simpl; repeat split; auto.
  - answered Hans Ho res; rewrite Hfound in Ho; crank_in Ho;
      subst o; simpl; repeat split; auto.
Qed.

Lemma startup_keeps_existing_booking_witness :
  let o := run_alone Samples.env_existing
             (run Samples.Tg.config_keep (ret tt)) Samples.Tg.fresh in
  result o = ExitCode 0 /\
  api_paths (calls o) = ["/api/Booking"] /\
  avaliableLocation (final o) = None /\
  existingBookingConfirmationNumber (final o) = "".
Proof.
  apply (startup_keeps_existing_booking Samples.Tg.config_keep Samples.env_existing
           Samples.existing0 [] Samples.Tg.fresh).
  - apply answers_env_of.
  - intros n res. reflexivity.
  - reflexivity.
Defined.

(** X17.  With the notifier enabled, when the report of the starting
    message is rejected, startup ends the process with exit code 5 before
    any request to the scheduling API. *)
Theorem failed_starting_message_stops_startup config env s e :
  enable (webhook config) = true ->
  result (run_alone env
            (sendWebhook config
               ("TX DPS Scheduler Starting at " ++ Date_toString (clock s)) false) s)
  = Rejected e ->
  let o := run_alone env (run config (ret tt)) s in
  result o = ExitCode 5 /\
  api_paths (calls o) = [] /\
  isHolded (final o) = isHolded s /\ isBooked (final o) = isBooked s.
Proof.
  intros Hon Hrej. name_outcome o Ho. rewrite Hon in Ho. crank_in Ho.
  revert Hrej. crank.
  destruct (env 0%nat _ _) as [e0|res]; crank_in Ho; crank;
    [intros _; subst o; simpl; auto|].
  destruct (env 1%nat _ _) as [e1|[code descr|msg]]; crank_in Ho; crank;
    [intros _; subst o; simpl; auto| |].
  - destruct (webhookStatusMessageId s <? 0); crank_in Ho; crank;
      [intros H; discriminate H|].
    destruct (env 2%nat _ _) as [e2|res']; crank_in Ho; crank;
      [intros _; subst o; simpl; auto|].
    destruct (env 3%nat _ _) as [e3|[code' descr'|msg']]; crank_in Ho; crank;
      [intros _; subst o; simpl; auto|intros H; discriminate H|intros H; discriminate H].
  - destruct (webhookStatusMessageId s <? 0); crank_in Ho; crank;
      intros H; discriminate H.
Qed.

Lemma failed_starting_message_stops_startup_witness :
  let o := run_alone Samples.env_down
             (run Samples.Tg.config_hook (ret tt)) Samples.Tg.fresh in
  result o = ExitCode 5 /\
  api_paths (calls o) = [] /\
  isHolded (final o) = false /\ isBooked (final o) = false.
Proof.
  apply (failed_starting_message_stops_startup Samples.Tg.config_hook Samples.env_down
           Samples.Tg.fresh (TransportError "ECONNREFUSED")).
  - reflexivity.
  - reflexivity.
Defined.

(** * The round summary *)

Lemma Date_lt_invalid a : TgRound.Date_lt a None = false.
Proof. destruct a; reflexivity. Qed.

Lemma round_summary_cons (Date_valueOf : string -> option Z)
    (format_day : option Z -> string) now entry resp message best :
  TgRound.round_summary Date_valueOf format_day now (entry :: resp) message best
  = let acc := TgRound.note_location Date_valueOf format_day now (message, best) entry in
    TgRound.round_summary Date_valueOf format_day now resp (fst acc) (snd acc).
Proof.
  unfold TgRound.round_summary. cbn [fold_left]. cbv zeta.
  rewrite <- surjective_pairing. reflexivity.
Qed.

Lemma round_best_step (Date_valueOf : string -> option Z)
    (format_day : option Z -> string) now message name0 p t0 entry w :
  Date_valueOf (NextAvailableDate (fst entry)) = Some w ->
  snd (TgRound.note_location Date_valueOf format_day now
         (message, (name0, Some p, t0)) entry)
  = if negb (truthy name0) || (w <? p)
    then (Name (fst entry), Some w, now)
    else (name0, Some p, t0).
Proof.
  intros Hw. destruct entry as [location response]. simpl in *.
  rewrite Hw. simpl. destruct (negb (truthy name0) || (w <? p)); reflexivity.
Qed.

(** X18.  After a round over locations that all have a name and a valid
    next-available date, starting from a valid best-so-far date: the best
    so far is a valid date, no later than that of any location of the
    round and, if the previous best had a name, no later than the previous
    best; and it is the previous one or that of a location of the round. *)
Theorem round_best_is_earliest (Date_valueOf : string -> option Z)
    (format_day : option Z -> string) now resp message name0 p t0 :
  (forall entry, In entry resp ->
     truthy (Name (fst entry)) = true /\
     exists w, Date_valueOf (NextAvailableDate (fst entry)) = Some w) ->
  let best := snd (TgRound.round_summary Date_valueOf format_day now resp message
                     (name0, Some p, t0)) in
  exists v,
    snd (fst best) = Some v /\
    (forall entry, In entry resp ->
       exists w, Date_valueOf (NextAvailableDate (fst entry)) = Some w /\ v <= w) /\
    (truthy name0 = true -> v <= p /\ truthy (fst (fst best)) = true) /\
    (fst best = (name0, Some p) \/
     exists entry, In entry resp /\
       fst best = (Name (fst entry), Date_valueOf (NextAvailableDate (fst entry)))).
Proof.
  revert message name0 p t0.
  induction resp as [|entry resp IH]; intros message name0 p t0 Hall best.
  - exists p. subst best. simpl. repeat split; auto; try lia.
  - destruct (Hall entry (or_introl eq_refl)) as [Hname [w Hw]].
    subst best. rewrite round_summary_cons. cbv zeta.
    set (acc := TgRound.note_location Date_valueOf format_day now _ entry).
    assert (Hacc : snd acc = if negb (truthy name0) || (w <? p)
                             then (Name (fst entry), Some w, now)
                             else (name0, Some p, t0))
      by (subst acc; apply round_best_step; exact Hw).
    rewrite Hacc. clearbody acc.
    destruct (negb (truthy name0) || (w <? p)) eqn:Hrep.
    + destruct (IH (fst acc) (Name (fst entry)) w now
                   (fun e He => Hall e (or_intror He)))
        as [v [Hv [Hmin [Hprev Hfrom]]]].
      destruct (Hprev Hname) as [Hvw Hbest].
      exists v. split; [exact Hv|]. split; [|split].
      * intros e [<-|He]; [exists w; auto|auto].
      * intros Hn. rewrite Hn in Hrep. simpl in Hrep. apply Z.ltb_lt in Hrep.
        split; [lia|exact Hbest].
      * right. destruct Hfrom as [Hsame|[e [He Hbe]]].
        -- exists entry. split; [left; reflexivity|]. rewrite Hsame, Hw. reflexivity.
        -- exists e. split; [right; exact He|exact Hbe].
    + apply orb_false_iff in Hrep. destruct Hrep as [Hn Hlt].
      apply negb_false_iff in Hn. apply Z.ltb_ge in Hlt.
      destruct (IH (fst acc) name0 p t0
                   (fun e He => Hall e (or_intror He)))
        as [v [Hv [Hmin [Hprev Hfrom]]]].
      destruct (Hprev Hn) as [Hvp Hbest].
      exists v. split; [exact Hv|]. split; [|split].
      * intros e [<-|He]; [exists w; split; [exact Hw|lia]|auto].
      * intros _. auto.
      * destruct Hfrom as [Hsame|[e [He Hbe]]]; [left; exact Hsame|].
        right. exists e. split; [right; exact He|exact Hbe].
Qed.

(** X19.  A best-so-far with a name and an invalid date is never
    replaced: no date compares as earlier than an invalid one. *)
Theorem invalid_best_is_never_replaced (Date_valueOf : string -> option Z)
    (format_day : option Z -> string) now resp message name0 t0 :
  truthy name0 = true ->
  snd (TgRound.round_summary Date_valueOf format_day now resp message (name0, None, t0))
  = (name0, None, t0).
Proof.
  intros Hn. revert message.
  induction resp as [|[location response] resp IH]; intros message; [reflexivity|].
  rewrite round_summary_cons. cbv zeta. simpl.
  rewrite Hn, Date_lt_invalid. simpl. apply IH.
Qed.

Lemma round_best_is_earliest_witness :
  let best := snd (TgRound.round_summary MoreSamples.valueOf MoreSamples.format_day 0
                     [(Samples.loc0, MoreSamples.no_dates);
                      (MoreSamples.loc1, MoreSamples.no_dates)]
                     "" ("", Some 0, 0)) in
  exists v,
    snd (fst best) = Some v /\
    (forall entry,
       In entry [(Samples.loc0, MoreSamples.no_dates);
                 (MoreSamples.loc1, MoreSamples.no_dates)] ->
       exists w, MoreSamples.valueOf (NextAvailableDate (fst entry)) = Some w /\ v <= w) /\
    (truthy "" = true -> v <= 0 /\ truthy (fst (fst best)) = true) /\
    (fst best = ("", Some 0) \/
     exists entry,
       In entry [(Samples.loc0, MoreSamples.no_dates);
                 (MoreSamples.loc1, MoreSamples.no_dates)] /\
       fst best = (Name (fst entry),
                   MoreSamples.valueOf (NextAvailableDate (fst entry)))).
Proof.
  apply (round_best_is_earliest MoreSamples.valueOf MoreSamples.format_day 0
           [(Samples.loc0, MoreSamples.no_dates); (MoreSamples.loc1, MoreSamples.no_dates)]
           "" "" 0 0).
  intros entry [<-|[<-|[]]]; (split; [reflexivity|eexists; reflexivity]).
Defined.

Lemma invalid_best_is_never_replaced_witness :
  snd (TgRound.round_summary MoreSamples.valueOf MoreSamples.format_day 0
         [(MoreSamples.loc_undated, MoreSamples.no_dates);
          (Samples.loc0, MoreSamples.no_dates)]
         "" ("", Some 0, 0))
  = ("C", None, 0) /\
  snd (TgRound.round_summary MoreSamples.valueOf MoreSamples.format_day 1
         [(Samples.loc0, MoreSamples.no_dates); (MoreSamples.loc1, MoreSamples.no_dates)]
         "" ("C", None, 0))
  = ("C", None, 0).
Proof.
  split; [reflexivity|].
  apply (invalid_best_is_never_replaced MoreSamples.valueOf MoreSamples.format_day 1
           [(Samples.loc0, MoreSamples.no_dates); (MoreSamples.loc1, MoreSamples.no_dates)]
           "" "C" 0).
  reflexivity.
Defined.

(** * The latches of [src/Client/index.ts] *)

Import Client ClientMore.

Lemma Client_guarantee_refl s : guarantee s s.
Proof. unfold guarantee, latches_kept; tauto. Qed.

Lemma Client_guarantee_trans s1 s2 s3 :
  guarantee s1 s2 -> guarantee s2 s3 -> guarantee s1 s3.
Proof. unfold guarantee, latches_kept; tauto. Qed.

Ltac cl_latches :=
  unfold holding_if, guarantee, latches_kept, booked_implies_holding, anything in *;
  simpl in *; intuition congruence.

Ltac cl_preorder := first [exact Client_guarantee_refl | exact Client_guarantee_trans].

Lemma Client_holding_stable h s s' : holding_if h s -> guarantee s s' -> holding_if h s'.
Proof. cl_latches. Qed.

Create HintDb cl_keeps.

Section Keeps.
Variable config : Config.
Variable h : bool.

Lemma Client_keeps_ret {A : Type} (a : A) : keeps h (ret a).
Proof. apply triple_ret; try cl_preorder; auto. Qed.

Lemma Client_keeps_bind {A B : Type} (p : Task A) (f : A -> Task B) :
  keeps h p -> (forall a, keeps h (f a)) -> keeps h (bind p f).
Proof.
  intros Hp Hf. eapply triple_bind; [exact Client_guarantee_trans|exact Hp|exact Hf].
Qed.

Lemma Client_keeps_gets {A : Type} (g : TexasScheduler -> A) : keeps h (gets g).
Proof. apply triple_gets; try cl_preorder; auto. Qed.

Lemma Client_keeps_await {T : Type} (c : Call T) : keeps h (await c).
Proof.
  apply triple_await; try cl_preorder.
  intros s s' Hs Hg t. eapply Client_holding_stable; eauto.
Qed.

Lemma Client_keeps_exit {A : Type} code : keeps h (@process_exit _ A code).
Proof. apply triple_exit; cl_preorder. Qed.

Lemma Client_keeps_throw {A : Type} e : keeps h (@throw _ A e).
Proof. apply triple_throw; cl_preorder. Qed.

Lemma Client_keeps_modify (g : TexasScheduler -> TexasScheduler) :
  (forall s, isHolded (g s) = isHolded s /\ isBooked (g s) = isBooked s) ->
  keeps h (modify g).
Proof.
  intros Hg. apply triple_modify; try cl_preorder.
  intros s Hs. destruct (Hg s) as [H1 H2].
  unfold holding_if, guarantee, latches_kept, booked_implies_holding in *.
  rewrite H1, H2. tauto.
Qed.

Lemma Client_keeps_log_info msg : keeps h (log_info msg).
Proof. apply Client_keeps_modify; auto. Qed.
Lemma Client_keeps_log_warn msg : keeps h (log_warn msg).
Proof. apply Client_keeps_modify; auto. Qed.
Lemma Client_keeps_log_error msg : keeps h (log_error msg).
Proof. apply Client_keeps_modify; auto. Qed.

Lemma Client_keeps_first_of {A : Type} (l : list A) : keeps h (first_of l).
Proof. destruct l; simpl; [apply Client_keeps_throw|apply Client_keeps_ret]. Qed.

Lemma Client_keeps_requestApi path method body :
  keeps h (requestApi config path method body).
Proof. apply Client_keeps_await. Qed.

Lemma Client_keeps_queue_start : keeps h queue_start_if_paused.
Proof.
  apply Client_keeps_bind; [apply Client_keeps_gets|intros [|]];
    [apply Client_keeps_modify; auto|apply Client_keeps_ret].
Qed.

Lemma Client_keeps_queue_pause : keeps h queue_pause_unless_paused.
Proof.
  apply Client_keeps_bind; [apply Client_keeps_gets|intros [|]]; simpl;
    [apply Client_keeps_ret|apply Client_keeps_modify; auto].
Qed.
End Keeps.

#[local] Hint Resolve Client_keeps_ret Client_keeps_gets Client_keeps_await
  Client_keeps_exit Client_keeps_throw Client_keeps_log_info Client_keeps_log_warn
  Client_keeps_log_error Client_keeps_first_of Client_keeps_requestApi
  Client_keeps_queue_start Client_keeps_queue_pause : cl_keeps.

Ltac cl_keeps_step :=
  first
    [ solve [auto with cl_keeps]
    | match goal with
      | |- keeps _ (bind _ _) => apply Client_keeps_bind; [|intro]
      | |- keeps _ (if ?b then _ else _) => destruct b eqn:?
      | |- keeps _ (match ?x with _ => _ end) => destruct x eqn:?
      | |- keeps _ (modify _) => apply Client_keeps_modify; solve [auto]
      end ].

Lemma Client_keeps_sendWebhook config h message : keeps h (sendWebhook config message).
Proof. unfold sendWebhook. cbv zeta. repeat cl_keeps_step. Qed.

Lemma Client_keeps_getResponseId config h : keeps h (getResponseId config).
Proof. unfold getResponseId. cbv zeta. repeat cl_keeps_step. Qed.

#[local] Hint Resolve Client_keeps_sendWebhook Client_keeps_getResponseId : cl_keeps.

(** Book sets [isBooked], which it may because it runs with [isHolded]
    set. *)
Lemma Client_keeps_bookSlot config booking location :
  keeps true (bookSlot config booking location).
Proof.
  unfold bookSlot. cbv zeta. repeat cl_keeps_step.
  apply triple_modify; try cl_preorder. intros s Hs. split; cl_latches.
Qed.

Lemma Client_keeps_hold_then_book config h booking location :
  keeps h (modify (set_isHolded true) ;; bookSlot config booking location).
Proof.
  unfold keeps.
  apply triple_bind with (Q := fun _ => holding_if true); try cl_preorder.
  - apply triple_modify; try cl_preorder. intros s Hs. split; cl_latches.
  - intros _. eapply triple_weaken; [| |apply Client_keeps_bookSlot]; [auto|].
    intros ? s Hs Hh. apply Hs. reflexivity.
Qed.

#[local] Hint Resolve Client_keeps_hold_then_book : cl_keeps.

Lemma Client_keeps_holdSlot config h booking location :
  keeps h (holdSlot config booking location).
Proof. unfold holdSlot. cbv zeta. repeat cl_keeps_step. Qed.

Lemma Client_keeps_spawn h (p : Task unit) : keeps h p -> keeps h (spawn p).
Proof.
  intros Hp. apply triple_spawn; try cl_preorder.
  - eapply triple_weaken; [| |exact Hp]; unfold anything; auto.
  - intros s Hs. eapply Client_holding_stable; [exact Hs|].
    eapply safe_state;
      [exact Client_guarantee_refl|exact Client_guarantee_trans|apply Hp; exact Hs].
Qed.

Lemma Client_keeps_getLocationDates config h location :
  keeps h (getLocationDates config location).
Proof.
  unfold getLocationDates. cbv zeta. repeat cl_keeps_step.
  apply Client_keeps_spawn, Client_keeps_holdSlot.
Qed.

Lemma Client_entry_safe config s A (p : Task A) :
  entry config s A p -> safe guarantee anything s (p s).
Proof.
  intros He.
  assert (K : exists h, holding_if h s /\ keeps h p).
  { destruct He.
    - exists false. split; [discriminate|apply Client_keeps_getLocationDates].
    - exists false. split; [discriminate|apply Client_keeps_holdSlot].
    - exists true. split; [intro; assumption|apply Client_keeps_bookSlot].
    - exists false. split; [discriminate|apply Client_keeps_sendWebhook]. }
  destruct K as [h [Hs Hk]].
  eapply safe_post; [|apply Hk; exact Hs]. unfold anything; auto.
Qed.

Lemma Client_outside_guarantee s s' : outside s s' -> guarantee s s'.
Proof. intros [t ->]. cl_latches. Qed.

(** X20.  The latches of [src/Client/index.ts]: from an object on which
    neither latch is set, whatever probes, Hold and Book operations and
    messages are started, and however their steps interleave, [isBooked]
    implies [isHolded] in every state reached, and a latch that was set is
    still set in every state reached later. *)
Theorem Client_latches_are_write_once config s0 sys sys' :
  isBooked s0 = false -> isHolded s0 = false ->
  reachable (entry config) outside (start s0) sys ->
  reachable (entry config) outside sys sys' ->
  booked_implies_holding (shared sys) /\
  latches_kept (shared sys) (shared sys') /\
  booked_implies_holding (shared sys').
Proof.
  intros Hb Hh Hr Hr'.
  assert (Hok : pool_ok guarantee sys /\ guarantee (shared (start s0)) (shared sys)).
  { eapply reachable_ok; try exact Hr.
    - exact Client_guarantee_refl.
    - exact Client_guarantee_trans.
    - apply Client_entry_safe.
    - exact Client_outside_guarantee.
    - intros t []. }
  destruct Hok as [Hpool [_ Hinv]].
  assert (Hnow : booked_implies_holding (shared sys)).
  { apply Hinv. unfold booked_implies_holding. simpl. congruence. }
  split; [exact Hnow|].
  assert (Hok' : pool_ok guarantee sys' /\ guarantee (shared sys) (shared sys')).
  { eapply reachable_ok; try exact Hr'; try exact Hpool.
    - exact Client_guarantee_refl.
    - exact Client_guarantee_trans.
    - apply Client_entry_safe.
    - exact Client_outside_guarantee. }
  destruct Hok' as [_ [Hkept Hinv']]. split; auto.
Qed.

Lemma Client_latches_are_write_once_witness :
  let held := resume_head (Samples.env_ok 0%nat)
                (resume_head (Samples.env_ok 0%nat)
                   (absorb (holdSlot Samples.Cl.config0 Samples.slot0 Samples.loc0
                                     Samples.Cl.fresh) [])) in
  let booked := resume_head (Samples.env_ok 0%nat)
                  (resume_head (Samples.env_ok 0%nat)
                     (resume_head (Samples.env_ok 0%nat)
                        (resume_head (Samples.env_ok 0%nat) held))) in
  (isHolded (shared held) = true /\ isBooked (shared held) = false) /\
  (isHolded (shared booked) = true /\ isBooked (shared booked) = true) /\
  booked_implies_holding (shared held) /\
  latches_kept (shared held) (shared booked) /\
  booked_implies_holding (shared booked).
Proof.
  intros held booked.
  split; [split; reflexivity|]. split; [repeat split; reflexivity|].
  apply (Client_latches_are_write_once Samples.Cl.config0 Samples.Cl.fresh held booked).
  - reflexivity.
  - reflexivity.
  - unfold held.
    do 2 apply reachable_resume_head.
    apply reachable_start with
      (sys := start Samples.Cl.fresh)
      (p := holdSlot Samples.Cl.config0 Samples.slot0 Samples.loc0).
    + apply reach_here.
    + reflexivity.
    + apply entry_hold.
  - unfold booked. do 4 apply reachable_resume_head. apply reach_here.
Defined.

(** * Hold, Book and startup in [src/Client/index.ts] *)

(** X21.  In [src/Client/index.ts], when the hold request is answered
    "not held", Hold returns after these two calls with [isHolded]
    unset, [isBooked] untouched and the queue running. *)
Theorem Client_failed_hold_resumes_polling config (env : Env) booking location s res :
  isHolded s = false ->
  env 0%nat _ (hold_request config booking) = Replied res ->
  env 1%nat _ (body_json HeldSlot res) = Replied {| SlotHeldSuccessfully := false |} ->
  let o := run_alone env (holdSlot config booking location) s in
  result o = Returned tt /\
  calls o = [some_call (hold_request config booking);
             some_call (body_json HeldSlot res)] /\
  isHolded (final o) = false /\
  isBooked (final o) = isBooked s /\
  queue_isPaused (final o) = false.
Proof.
  intros Hh H0 H1. intros o. assert (Ho : o = o) by reflexivity.
  unfold o at 2 in Ho; clearbody o; crank_cl_in Ho.
  unfold hold_request in *. rewrite Hh in Ho. crank_cl_in Ho.
  rewrite H0 in Ho. crank_cl_in Ho. simpl in H1. rewrite H1 in Ho. crank_cl_in Ho.
  destruct (queue_isPaused s) eqn:Hq; crank_cl_in Ho; subst o; simpl; auto.
Qed.

Lemma Client_failed_hold_resumes_polling_witness :
  let o := run_alone Samples.env_not_held
             (holdSlot Samples.Cl.config0 Samples.slot0 Samples.loc0) Samples.Cl.fresh in
  result o = Returned tt /\
  calls o = [some_call (hold_request Samples.Cl.config0 Samples.slot0);
             some_call (body_json HeldSlot {| statusCode := 200 |})] /\
  isHolded (final o) = false /\
  isBooked (final o) = isBooked Samples.Cl.fresh /\
  queue_isPaused (final o) = false.
Proof.
  apply (Client_failed_hold_resumes_polling Samples.Cl.config0 Samples.env_not_held
           Samples.slot0 Samples.loc0 Samples.Cl.fresh {| statusCode := 200 |});
    reflexivity.
Defined.

Lemma Client_booked_message_mentions config booking location bookingInfo :
  mentions (bk_ConfirmationNumber (Booking bookingInfo))
           (booked_message config booking location bookingInfo).
Proof.
  unfold booked_message, join.
  match goal with
  | |- mentions ?c (?l1 ++ ?nl ++ (?lbl ++ ?c) ++ ?rest) =>
      exists (l1 ++ nl ++ lbl), rest
  end.
  rewrite !append_assoc. reflexivity.
Qed.

(** X22.  In [src/Client/index.ts], when every call is answered and the
    booking is accepted, Book sets [isBooked] and ends the process with
    exit code 0, whatever the webhook answers; with the webhook enabled
    exactly one message is sent to it, whose text contains the
    confirmation number, and with the webhook disabled none. *)
Theorem Client_booked_then_message_and_exit config env booking location s info r0 rs :
  isBooked s = false ->
  TgSpec.answers env ->
  TgMore.eligibility_found env (r0 :: rs) ->
  TgSpec.booking_accepted env ->
  TgSpec.booking_confirmed env info ->
  let o := run_alone env (bookSlot config booking location) s in
  result o = ExitCode 0 /\
  isBooked (final o) = true /\
  api_paths (calls o) = ["/api/Eligibility"; "/api/NewBooking"] /\
  if enable (webhook config)
  then exists text,
         filter TgSpec.is_notifier_request (calls o)
         = [some_call (message_request config text)] /\
         mentions (bk_ConfirmationNumber (Booking info)) text
  else filter TgSpec.is_notifier_request (calls o) = [].
Proof.
  intros Hb Hans Hids Hacc Hconf. intros o. assert (Ho : o = o) by reflexivity.
  unfold o at 2 in Ho; clearbody o; crank_cl_in Ho.
  rewrite Hb in Ho. crank_cl_in Ho.
  match type of Ho with
  | context [env ?n ?T ?c] =>
      let E := fresh "E" in
      destruct (Hans n T c) as [res E]; rewrite E in Ho; clear E; crank_cl_in Ho
  end.
  rewrite Hids in Ho. crank_cl_in Ho.
  rewrite Hacc in Ho. crank_cl_in Ho. rewrite Hconf in Ho. crank_cl_in Ho.
  unfold message_request.
  destruct (enable (webhook config)); crank_cl_in Ho.
  - match type of Ho with
    | context [env ?n ?T ?c] =>
        let E := fresh "E" in
        destruct (Hans n T c) as [sent E]; rewrite E in Ho; clear E; crank_cl_in Ho
    end.
    destruct (statusCode sent =? 200); crank_cl_in Ho.
    + subst o; simpl. repeat split; auto.
      eexists; split; [reflexivity|apply Client_booked_message_mentions].
    + match type of Ho with
      | context [env ?n ?T ?c] =>
          let E := fresh "E" in
          destruct (Hans n T c) as [txt E]; rewrite E in Ho; clear E; crank_cl_in Ho
      end.
      subst o; simpl. repeat split; auto.
      eexists; split; [reflexivity|apply Client_booked_message_mentions].
  - subst o; simpl. repeat split; auto.
Qed.

Lemma Client_booked_then_message_and_exit_witness :
  let o := run_alone Samples.env_ok
             (bookSlot MoreSamples.Cl.config_hook Samples.slot0 Samples.loc0)
             (set_isHolded true Samples.Cl.fresh) in
  result o = ExitCode 0 /\
  isBooked (final o) = true /\
  api_paths (calls o) = ["/api/Eligibility"; "/api/NewBooking"] /\
  exists text,
    filter TgSpec.is_notifier_request (calls o)
    = [some_call (message_request MoreSamples.Cl.config_hook text)] /\
    mentions "C123" text.
Proof.
  apply (Client_booked_then_message_and_exit MoreSamples.Cl.config_hook Samples.env_ok
           Samples.slot0 Samples.loc0 (set_isHolded true Samples.Cl.fresh)
           Samples.booked0 {| ResponseId := 7 |} []).
  - reflexivity.
  - apply answers_env_of.
  - intros n res. reflexivity.
  - apply booking_accepted_env_of.
  - intros n res. reflexivity.
Defined.

(** X23.  In [src/Client/index.ts], when a booking exists, the policy is
    to replace it and its cancellation is answered with a status other
    than 200, startup ends the process with exit code 0 before the
    location search: no location is tracked. *)
Theorem Client_rejected_cancellation_stops_startup
    config (env : Env) s res b0 others code :
  cancelIfExist (appSettings config) = true ->
  env 0%nat _ (ClientSpec.booking_request config) = Replied res ->
  env 1%nat _ (body_json ExistBookings res) = Replied (b0 :: others) ->
  env 2%nat _ (ClientSpec.cancel_request config (ConfirmationNumber b0))
  = Replied {| statusCode := code |} ->
  code <> 200 ->
  let o := run_alone env (run config (ret tt)) s in
  result o = ExitCode 0 /\
  api_paths (calls o) = ["/api/Booking"; "/api/CancelBooking"] /\
  avaliableLocation (final o) = avaliableLocation s /\
  isHolded (final o) = isHolded s /\ isBooked (final o) = isBooked s.
Proof.
  intros Hc H0 H1 H2 Hcode. intros o. assert (Ho : o = o) by reflexivity.
  unfold o at 2 in Ho; clearbody o; crank_cl_in Ho.
  unfold ClientSpec.booking_request, ClientSpec.cancel_request in *.
  rewrite H0 in Ho. crank_cl_in Ho. simpl in H1. rewrite H1 in Ho. crank_cl_in Ho.
  rewrite Hc in Ho. crank_cl_in Ho. rewrite H2 in Ho. crank_cl_in Ho.
  assert (Hn : (code =? 200) = false) by (apply Z.eqb_neq; exact Hcode).
  rewrite Hn in Ho. crank_cl_in Ho. subst o; simpl. auto.
Qed.

Lemma Client_rejected_cancellation_stops_startup_witness :
  let o := run_alone Samples.env_no_cancel
             (run Samples.Cl.config0 (ret tt)) Samples.Cl.fresh in
  result o = ExitCode 0 /\
  api_paths (calls o) = ["/api/Booking"; "/api/CancelBooking"] /\
  avaliableLocation (final o) = None /\
  isHolded (final o) = false /\ isBooked (final o) = false.
Proof.
  apply (Client_rejected_cancellation_stops_startup Samples.Cl.config0
           Samples.env_no_cancel Samples.Cl.fresh {| statusCode := 200 |}
           Samples.existing0 [] 500).
  - reflexivity.
  - reflexivity.
  - reflexivity.
  - reflexivity.
  - lia.
Defined.

(** X24.  In [src/Client/index.ts] an answered probe with a qualifying
    date returns [true], pauses the queue and starts exactly one task:
    Hold for the first slot of the first qualifying date, on an object
    whose queue is paused already. *)
Theorem Client_probe_hands_first_slot_to_hold
    config (env : Env) location s res response date0 :
  env 0%nat _ (ClientSpec.dates_request config location) = Replied res ->
  env 1%nat _ (body_json LocationDates res) = Replied response ->
  hd_error (filter (in_daysAround config (clock s))
                   (LocationAvailabilityDates response)) = Some date0 ->
  let o := run_alone env (getLocationDates config location) s in
  exists slot,
    hd_error (AvailableTimeSlots date0) = Some slot /\
    result o = Returned true /\
    queue_isPaused (final o) = true /\
    isHolded (final o) = isHolded s /\
    isBooked (final o) = isBooked s /\
    exists s', queue_isPaused s' = true /\
               detached o = [holdSlot config slot location s'].
Proof.
  intros H0 H1 Hd. intros o. assert (Ho : o = o) by reflexivity.
  unfold o at 2 in Ho; clearbody o; crank_cl_in Ho.
  unfold ClientSpec.dates_request in *.
  rewrite H0 in Ho. crank_cl_in Ho. simpl in H1. rewrite H1 in Ho. crank_cl_in Ho.
  destruct (filter _ _) as [|d rest] eqn:Hf; [discriminate|].
  simpl in Hd. injection Hd as ->.
  apply filter_head_true in Hf. apply Client_in_daysAround_slots in Hf.
  destruct Hf as [slot [slots Hs]]. rewrite Hs in Ho. crank_cl_in Ho.
  exists slot. rewrite Hs. split; [reflexivity|].
  pose (st := log_line info (Name location ++ " is avaliable on " ++
                              FormattedStartDateTime slot) s).
  destruct (queue_isPaused s) eqn:Hq; crank_cl_in Ho;
    (destruct (isHolded s) eqn:Hh; crank_cl_in Ho);
    subst o; simpl; do 4 (split; [auto|]);
    [exists st|exists st
    |exists (set_queue_isPaused true st)|exists (set_queue_isPaused true st)];
    (split; [simpl; auto|]);
    unfold holdSlot, requestApi, bind, gets, await; simpl; rewrite Hh; reflexivity.
Qed.

Lemma Client_probe_hands_first_slot_to_hold_witness :
  let o := run_alone Samples.env_ok
             (getLocationDates Samples.Cl.config0 Samples.loc0) Samples.Cl.fresh in
  exists slot,
    hd_error (AvailableTimeSlots Samples.date3) = Some slot /\
    result o = Returned true /\
    queue_isPaused (final o) = true /\
    isHolded (final o) = false /\
    isBooked (final o) = false /\
    exists s', queue_isPaused s' = true /\
               detached o = [holdSlot Samples.Cl.config0 slot Samples.loc0 s'].
Proof.
  apply (Client_probe_hands_first_slot_to_hold Samples.Cl.config0 Samples.env_ok
           Samples.loc0 Samples.Cl.fresh {| statusCode := 200 |}
           {| LocationAvailabilityDates := [Samples.date3] |} Samples.date3);
    reflexivity.
Defined.
